(** * Wind-turbine monitoring system: a shallow embedding of the integrated
    FreeRTOS application (src/src/integrated) and the properties of its
    coordination layer.

    Conventions of the embedding.
    - [uint32_t] and [TickType_t] (32-bit ticks, configUSE_16_BIT_TICKS = 0)
      are [Z] with the wrap-around written out ([u32]).
    - [float] values are exact rationals [Q]: comparisons, sums, quotients,
      [fabs], [fmin] and [fmax] are the exact ones, rounding and NaN are left
      out.  The C library's [sqrt] has no counterpart on [Q]; it is a
      parameter ([sqrtf]) of the anomaly detector.
    - A call [xSemaphoreTake(m, pdMS_TO_TICKS(10))] either returns pdTRUE or
      times out.  Which one happens depends on the other tasks, so each call
      site takes the outcome as a [bool] input (true: acquired).
    - [xTaskGetTickCount()], [rand()], [pvPortMalloc] and
      [xPortGetFreeHeapSize()] are kernel or library calls; their results are
      inputs of the functions that call them.
    - Reading an array outside its bounds is undefined in C; such a read makes
      the embedded function return [None].  The anomaly detector does read
      past its histories once it has stored more than 100 samples, and its
      task runs on; the functions named [..._any] are the same code with the
      value of each such read taken from an input ([OutOfBounds]), so that
      they have a result in every state. *)

From Stdlib Require Import ZArith QArith Qabs List Bool String Lia Lqa.
From stdpp Require Import base list.
Import ListNotations.

Local Open Scope Z_scope.

(** ** Kernel collaborators *)

Module Kernel.

(** Wrap-around of a 32-bit unsigned value. *)
Definition u32 (z : Z) : Z := z mod 2 ^ 32.

Definition UINT32_MAX : Z := 2 ^ 32 - 1.

(** FreeRTOSConfig.h: configTICK_RATE_HZ = 1000. *)
Definition configTICK_RATE_HZ : Z := 1000.

(** The kernel macro [pdMS_TO_TICKS(ms)]: ms * configTICK_RATE_HZ / 1000 as a
    [TickType_t]. *)
Definition pdMS_TO_TICKS (ms : Z) : Z := u32 (ms * configTICK_RATE_HZ / 1000).

(** Event bits of xSystemReadyEvents. *)
Definition SENSORS_CALIBRATED_BIT : Z := Z.shiftl 1 0.
Definition NETWORK_CONNECTED_BIT : Z := Z.shiftl 1 1.
Definition ANOMALY_READY_BIT : Z := Z.shiftl 1 2.
Definition ALL_SYSTEMS_READY : Z :=
  Z.lor (Z.lor SENSORS_CALIBRATED_BIT NETWORK_CONNECTED_BIT) ANOMALY_READY_BIT.

(** [xEventGroupSetBits] and [xEventGroupClearBits] on the group's value. *)
Definition xEventGroupSetBits (group bits : Z) : Z := Z.lor group bits.
Definition xEventGroupClearBits (group bits : Z) : Z := Z.ldiff group bits.

(** A FreeRTOS queue: FIFO with a fixed capacity.  [xQueueSend] with a zero
    block time fails on a full queue and leaves it as it is. *)
Definition xQueueSend {A} (capacity : nat) (q : list A) (x : A) : list A * bool :=
  if (length q <? capacity)%nat then (q ++ [x], true) else (q, false).

Definition xQueueReceive {A} (q : list A) : option A * list A :=
  match q with
  | [] => (None, [])
  | x :: q' => (Some x, q')
  end.

End Kernel.
Import Kernel.

(** ** The shared state (common/system_state.h) *)

Record SensorData_t := mkSensorData {
  vibration : Q;
  temperature : Q;
  rpm : Q;
  current : Q;
  timestamp : Z
}.

Record AnomalyResults_t := mkAnomalyResults {
  vibration_anomaly : bool;
  temperature_anomaly : bool;
  rpm_anomaly : bool;
  health_score : Q;
  anomaly_count : Z
}.

Record ISRStats_t := mkISRStats {
  interrupt_count : Z;
  processed_count : Z;
  last_latency_us : Z
}.

Record MutexStats_t := mkMutexStats {
  system_mutex_takes : Z;
  system_mutex_gives : Z;
  system_mutex_timeouts : Z;
  threshold_mutex_takes : Z;
  threshold_mutex_gives : Z;
  threshold_mutex_timeouts : Z
}.

Record EventGroupStats_t := mkEventGroupStats {
  bits_set_count : Z;
  bits_cleared_count : Z;
  wait_operations : Z;
  current_event_bits : Z;
  system_ready_time : Z
}.

Record MemoryStats_t := mkMemoryStats {
  allocations : Z;
  deallocations : Z;
  allocation_failures : Z;
  bytes_allocated : Z;
  peak_usage : Z;
  current_heap_free : Z;
  minimum_heap_free : Z;
  active_allocations : Z
}.

Record AnomalyAlert_t := mkAnomalyAlert {
  severity : Q;
  alert_type : Z;
  alert_timestamp : Z
}.

Record SensorISRData_t := mkSensorISRData {
  isr_vibration : Q;
  isr_timestamp : Z;
  isr_sequence : Z
}.

(** The fields of [SystemState_t] that the five tasks' control logic reads or
    writes.  The per-task statistics, the preemption history and the power
    statistics are display data only; the stack monitor has its own section
    below. *)
Record SystemState_t := mkSystemState {
  sensors : SensorData_t;
  anomalies : AnomalyResults_t;
  isr_stats : ISRStats_t;
  mutex_stats : MutexStats_t;
  event_group_stats : EventGroupStats_t;
  memory_stats : MemoryStats_t;
  emergency_stop : bool;
  network_connected : bool
}.

Record ThresholdConfig_t := mkThresholds {
  vibration_warning : Q;
  vibration_critical : Q;
  temperature_warning : Q;
  temperature_critical : Q;
  rpm_min : Q;
  rpm_max : Q;
  current_max : Q
}.

Definition set_sensors (g : SystemState_t) (v : SensorData_t) : SystemState_t :=
  mkSystemState v (anomalies g) (isr_stats g) (mutex_stats g)
    (event_group_stats g) (memory_stats g) (emergency_stop g) (network_connected g).

Definition set_anomalies (g : SystemState_t) (v : AnomalyResults_t) : SystemState_t :=
  mkSystemState (sensors g) v (isr_stats g) (mutex_stats g)
    (event_group_stats g) (memory_stats g) (emergency_stop g) (network_connected g).

Definition set_isr_stats (g : SystemState_t) (v : ISRStats_t) : SystemState_t :=
  mkSystemState (sensors g) (anomalies g) v (mutex_stats g)
    (event_group_stats g) (memory_stats g) (emergency_stop g) (network_connected g).

Definition set_mutex_stats (g : SystemState_t) (v : MutexStats_t) : SystemState_t :=
  mkSystemState (sensors g) (anomalies g) (isr_stats g) v
    (event_group_stats g) (memory_stats g) (emergency_stop g) (network_connected g).

Definition set_event_group_stats (g : SystemState_t) (v : EventGroupStats_t)
  : SystemState_t :=
  mkSystemState (sensors g) (anomalies g) (isr_stats g) (mutex_stats g)
    v (memory_stats g) (emergency_stop g) (network_connected g).

Definition set_memory_stats (g : SystemState_t) (v : MemoryStats_t) : SystemState_t :=
  mkSystemState (sensors g) (anomalies g) (isr_stats g) (mutex_stats g)
    (event_group_stats g) v (emergency_stop g) (network_connected g).

Definition set_emergency_stop (g : SystemState_t) (v : bool) : SystemState_t :=
  mkSystemState (sensors g) (anomalies g) (isr_stats g) (mutex_stats g)
    (event_group_stats g) (memory_stats g) v (network_connected g).

Definition set_network_connected (g : SystemState_t) (v : bool) : SystemState_t :=
  mkSystemState (sensors g) (anomalies g) (isr_stats g) (mutex_stats g)
    (event_group_stats g) (memory_stats g) (emergency_stop g) v.

(** Comparisons of [float] values, as booleans. *)
Definition fgt (a b : Q) : bool := negb (Qle_bool a b).
Definition flt (a b : Q) : bool := negb (Qle_bool b a).
Definition fmin (a b : Q) : Q := if Qle_bool a b then a else b.
Definition fmax (a b : Q) : Q := if Qle_bool a b then b else a.
Definition fabs (a : Q) : Q := Qabs a.

(** *** The bounded-wait critical section

    Every access in the source has the shape
<<
    if (xSemaphoreTake(xSystemStateMutex, pdMS_TO_TICKS(10)) == pdTRUE) {
        g_system_state.mutex_stats.system_mutex_takes++;
        BODY
        g_system_state.mutex_stats.system_mutex_gives++;
        xSemaphoreGive(xSystemStateMutex);
    } else {
        g_system_state.mutex_stats.system_mutex_timeouts++;
    }
>>
    [with_state_mutex acquired body] is that statement. *)

Definition count_system_take (g : SystemState_t) : SystemState_t :=
  let m := mutex_stats g in
  set_mutex_stats g
    (mkMutexStats (u32 (system_mutex_takes m + 1)) (system_mutex_gives m)
       (system_mutex_timeouts m) (threshold_mutex_takes m)
       (threshold_mutex_gives m) (threshold_mutex_timeouts m)).

Definition count_system_give (g : SystemState_t) : SystemState_t :=
  let m := mutex_stats g in
  set_mutex_stats g
    (mkMutexStats (system_mutex_takes m) (u32 (system_mutex_gives m + 1))
       (system_mutex_timeouts m) (threshold_mutex_takes m)
       (threshold_mutex_gives m) (threshold_mutex_timeouts m)).

Definition count_system_timeout (g : SystemState_t) : SystemState_t :=
  let m := mutex_stats g in
  set_mutex_stats g
    (mkMutexStats (system_mutex_takes m) (system_mutex_gives m)
       (u32 (system_mutex_timeouts m + 1)) (threshold_mutex_takes m)
       (threshold_mutex_gives m) (threshold_mutex_timeouts m)).

Definition count_threshold_take (g : SystemState_t) : SystemState_t :=
  let m := mutex_stats g in
  set_mutex_stats g
    (mkMutexStats (system_mutex_takes m) (system_mutex_gives m)
       (system_mutex_timeouts m) (u32 (threshold_mutex_takes m + 1))
       (threshold_mutex_gives m) (threshold_mutex_timeouts m)).

Definition count_threshold_give (g : SystemState_t) : SystemState_t :=
  let m := mutex_stats g in
  set_mutex_stats g
    (mkMutexStats (system_mutex_takes m) (system_mutex_gives m)
       (system_mutex_timeouts m) (threshold_mutex_takes m)
       (u32 (threshold_mutex_gives m + 1)) (threshold_mutex_timeouts m)).

Definition count_threshold_timeout (g : SystemState_t) : SystemState_t :=
  let m := mutex_stats g in
  set_mutex_stats g
    (mkMutexStats (system_mutex_takes m) (system_mutex_gives m)
       (system_mutex_timeouts m) (threshold_mutex_takes m)
       (threshold_mutex_gives m) (u32 (threshold_mutex_timeouts m + 1))).

Definition with_state_mutex (acquired : bool)
    (body : SystemState_t -> SystemState_t) (g : SystemState_t) : SystemState_t :=
  if acquired then count_system_give (body (count_system_take g))
  else count_system_timeout g.

Definition with_threshold_mutex (acquired : bool) (g : SystemState_t)
  : SystemState_t :=
  if acquired then count_threshold_give (count_threshold_take g)
  else count_threshold_timeout g.

(** main.c, [system_state_init]: the thresholds and the initial state. *)
Definition g_thresholds_init : ThresholdConfig_t :=
  mkThresholds 5 10 70 85 10 30 100.

Definition g_system_state_init (initial_free : Z) : SystemState_t :=
  let free := if initial_free =? 0 then 256 * 1024 else initial_free in
  mkSystemState
    (mkSensorData 2.45 45.2 20.1 50 0)
    (mkAnomalyResults false false false 100 0)
    (mkISRStats 0 0 0)
    (mkMutexStats 0 0 0 0 0 0)
    (mkEventGroupStats 0 0 0 0 0)
    (mkMemoryStats 0 0 0 0 0 free free 0)
    false true.

(** ** The safety task (tasks/safety_task.c) *)

Module Safety.

Definition SAFETY_CHECK_RATE_MS : Z := 20.
Definition EMERGENCY_STOP_DURATION : Z := 5000.

Record SafetyState_t := mkSafetyState {
  vibration_alarm : bool;
  temperature_alarm : bool;
  rpm_alarm : bool;
  current_alarm : bool;
  emergency_stop_time : Z;
  alarm_count : Z
}.

(** [static SafetyState_t safety_state = {0};] *)
Definition safety_state_init : SafetyState_t :=
  mkSafetyState false false false false 0 0.

(** The values [check_critical_conditions] works on: the sensor readings
    when the state mutex is acquired, the initialisers [0] otherwise. *)
Definition read_sensors (acquired : bool) (g : SystemState_t) : Q * Q * Q * Q :=
  if acquired
  then (vibration (sensors g), temperature (sensors g), rpm (sensors g),
        current (sensors g))
  else (0, 0, 0, 0)%Q.

(** The thresholds when the thresholds mutex is acquired, the initialisers
    [10.0, 85.0, 10.0, 30.0, 100.0] otherwise. *)
Definition read_thresholds (acquired : bool) (th : ThresholdConfig_t)
  : Q * Q * Q * Q * Q :=
  if acquired
  then (vibration_critical th, temperature_critical th, rpm_min th, rpm_max th,
        current_max th)
  else (10, 85, 10, 30, 100)%Q.

(** The four critical conditions on the values read. *)
Definition vibration_critical_now (vib vib_crit : Q) : bool := fgt vib vib_crit.
Definition temperature_critical_now (temp temp_crit : Q) : bool := fgt temp temp_crit.
Definition rpm_critical_now (r r_min r_max : Q) : bool := flt r r_min || fgt r r_max.
Definition current_critical_now (cur cur_max : Q) : bool := fgt cur cur_max.

(** One of the four blocks of [check_critical_conditions]:
<<
    if (COND) {
        if (!alarm) { alarm = true; alarm_count++; critical = true; }
    } else {
        alarm = false;
    }
>>
    on the triple (alarm, alarm_count, critical). *)
Definition alarm_block (cond : bool) (s : bool * Z * bool) : bool * Z * bool :=
  let '(alarm, count, critical) := s in
  if cond then
    if negb alarm then (true, u32 (count + 1), true)
    else (alarm, count, critical)
  else (false, count, critical).

Definition check_critical_conditions (lk_state lk_thresholds : bool)
    (th : ThresholdConfig_t) (g : SystemState_t) (ss : SafetyState_t)
  : bool * SystemState_t * SafetyState_t :=
  let critical := false in
  let '(vib, temp, r, cur) := read_sensors lk_state g in
  let g := with_state_mutex lk_state (fun g => g) g in
  let '(vib_crit, temp_crit, r_min, r_max, cur_max) :=
    read_thresholds lk_thresholds th in
  let g := with_threshold_mutex lk_thresholds g in
  let '(va, count, critical) :=
    alarm_block (vibration_critical_now vib vib_crit)
      (vibration_alarm ss, alarm_count ss, critical) in
  let '(ta, count, critical) :=
    alarm_block (temperature_critical_now temp temp_crit)
      (temperature_alarm ss, count, critical) in
  let '(ra, count, critical) :=
    alarm_block (rpm_critical_now r r_min r_max) (rpm_alarm ss, count, critical) in
  let '(ca, count, critical) :=
    alarm_block (current_critical_now cur cur_max)
      (current_alarm ss, count, critical) in
  (critical, g, mkSafetyState va ta ra ca (emergency_stop_time ss) count).

(** [trigger_emergency_stop]; [now] is the value of [xTaskGetTickCount()].
    (The call of [record_preemption] writes the preemption history only.) *)
Definition trigger_emergency_stop (lk : bool) (now : Z)
    (g : SystemState_t) (ss : SafetyState_t) : SystemState_t * SafetyState_t :=
  let g := with_state_mutex lk (fun g => set_emergency_stop g true) g in
  (g, mkSafetyState (vibration_alarm ss) (temperature_alarm ss) (rpm_alarm ss)
        (current_alarm ss) now (alarm_count ss)).

(** The inputs of [check_emergency_clear]: the outcomes of its lock
    acquisitions and the tick count it reads. *)
Record ClearEnv := mkClearEnv {
  ce_lk_read : bool;
  ce_now : Z;
  ce_lk_state : bool;
  ce_lk_thresholds : bool;
  ce_lk_write : bool
}.

Definition check_emergency_clear (e : ClearEnv) (th : ThresholdConfig_t)
    (g : SystemState_t) (ss : SafetyState_t) : SystemState_t * SafetyState_t :=
  let emergency := if ce_lk_read e then emergency_stop g else false in
  let g := with_state_mutex (ce_lk_read e) (fun g => g) g in
  if emergency then
    let elapsed := u32 (ce_now e - emergency_stop_time ss) in
    if elapsed >? pdMS_TO_TICKS EMERGENCY_STOP_DURATION then
      let '(critical, g, ss) :=
        check_critical_conditions (ce_lk_state e) (ce_lk_thresholds e) th g ss in
      if negb critical then
        (with_state_mutex (ce_lk_write e) (fun g => set_emergency_stop g false) g, ss)
      else (g, ss)
    else (g, ss)
  else (g, ss).

Definition active_alarms (ss : SafetyState_t) : Z :=
  let n := 0 in
  let n := if vibration_alarm ss then n + 1 else n in
  let n := if temperature_alarm ss then n + 1 else n in
  let n := if rpm_alarm ss then n + 1 else n in
  let n := if current_alarm ss then n + 1 else n in
  n.

(** The inputs of one iteration of [vSafetyTask]'s loop. *)
Record CycleEnv := mkCycleEnv {
  cy_lk_state : bool;
  cy_lk_thresholds : bool;
  cy_lk_trigger : bool;
  cy_trigger_now : Z;
  cy_clear : ClearEnv
}.

(** The first half of the loop body: the check and the 2-of-4 decision. *)
Definition check_and_trigger (e : CycleEnv) (th : ThresholdConfig_t)
    (g : SystemState_t) (ss : SafetyState_t) : SystemState_t * SafetyState_t :=
  let '(critical, g, ss) :=
    check_critical_conditions (cy_lk_state e) (cy_lk_thresholds e) th g ss in
  if critical then
    if active_alarms ss >=? 2
    then trigger_emergency_stop (cy_lk_trigger e) (cy_trigger_now e) g ss
    else (g, ss)
  else (g, ss).

(** One iteration of the loop of [vSafetyTask] (after [vTaskDelayUntil]).
    The preemption demonstration every 100 cycles and the dummy computation
    touch neither the safety state nor the modelled shared fields. *)
Definition safety_cycle (e : CycleEnv) (th : ThresholdConfig_t)
    (g : SystemState_t) (ss : SafetyState_t) : SystemState_t * SafetyState_t :=
  let '(g, ss) := check_and_trigger e th g ss in
  check_emergency_clear (cy_clear e) th g ss.

(** A run of the safety task: before each cycle the other tasks have
    published a reading into the shared state. *)
Fixpoint safety_run (th : ThresholdConfig_t)
    (steps : list (SensorData_t * CycleEnv))
    (g : SystemState_t) (ss : SafetyState_t) : SystemState_t * SafetyState_t :=
  match steps with
  | [] => (g, ss)
  | (reading, e) :: rest =>
      let '(g, ss) := safety_cycle e th (set_sensors g reading) ss in
      safety_run th rest g ss
  end.

End Safety.

(** ** Calls on the readiness event group

    The tasks reach [xSystemReadyEvents] through [xEventGroupSetBits] and
    [xEventGroupClearBits] only ([xEventGroupWaitBits] in the safety task is
    called with xClearOnExit = pdFALSE).  A task's cycle returns the calls it
    made, in order. *)

Inductive EventCall : Type :=
| SetBits (bits : Z)
| ClearBits (bits : Z).

Definition apply_call (group : Z) (c : EventCall) : Z :=
  match c with
  | SetBits b => xEventGroupSetBits group b
  | ClearBits b => xEventGroupClearBits group b
  end.

Definition apply_calls (group : Z) (cs : list EventCall) : Z :=
  fold_left apply_call cs group.



(** The statistics kept next to a set or a clear of event bits. *)
Definition note_bits_set (bits : Z) (g : SystemState_t) : SystemState_t :=
  let s := event_group_stats g in
  set_event_group_stats g
    (mkEventGroupStats (u32 (bits_set_count s + 1)) (bits_cleared_count s)
       (wait_operations s) (Z.lor (current_event_bits s) bits)
       (system_ready_time s)).

Definition note_bits_cleared (bits : Z) (g : SystemState_t) : SystemState_t :=
  let s := event_group_stats g in
  set_event_group_stats g
    (mkEventGroupStats (bits_set_count s) (u32 (bits_cleared_count s + 1))
       (wait_operations s) (Z.ldiff (current_event_bits s) bits)
       (system_ready_time s)).

(** ** The sensor task (tasks/sensor_task.c) *)

Module Sensor.

Definition TEMPERATURE_DRIFT : Q := 0.1.
Definition RPM_VARIATION : Q := 0.5.

(** [read_sensor_with_noise]; [r] is the value of [rand()]. *)
Definition read_sensor_with_noise (r : Z) (base_value noise_level : Q) : Q :=
  let noise := ((inject_Z (r mod 1000) / 1000 - 0.5) * 2 * noise_level)%Q in
  (base_value + noise)%Q.

Definition simulate_drift (cur target rate : Q) : Q :=
  let diff := (target - cur)%Q in
  (cur + diff * rate)%Q.

(** The local variables of [vSensorTask] that live across iterations. *)
Record Locals := mkLocals {
  base_vibration : Q;
  base_temperature : Q;
  base_rpm : Q;
  base_current : Q;
  target_vibration : Q;
  target_temperature : Q;
  cycle_count : Z;
  sensors_calibrated : bool
}.

Definition locals_init : Locals := mkLocals 2.5 45 20 50 2.5 45 0 false.

(** Lines 70-86: the calibration announcement. *)
Definition announce_calibration (lk : bool) (l : Locals) (g : SystemState_t)
  : Locals * SystemState_t * list EventCall :=
  if negb (sensors_calibrated l) && (cycle_count l >=? 20) then
    (mkLocals (base_vibration l) (base_temperature l) (base_rpm l) (base_current l)
       (target_vibration l) (target_temperature l) (cycle_count l) true,
     with_state_mutex lk (note_bits_set SENSORS_CALIBRATED_BIT) g,
     [SetBits SENSORS_CALIBRATED_BIT])
  else (l, g, []).

(** The inputs of one pass through the body of the drain loop. *)
Record DrainEnv := mkDrainEnv {
  de_now : Z;
  de_lk_emergency : bool;
  de_lk_stats : bool
}.

(** The state of the drain loop: shared state, [items_processed],
    [min_latency] and [base_vibration]. *)
Definition DrainState : Type := SystemState_t * Z * Z * Q.

Definition count_processed (g : SystemState_t) : SystemState_t :=
  let s := isr_stats g in
  set_isr_stats g
    (mkISRStats (interrupt_count s) (u32 (processed_count s + 1)) (last_latency_us s)).

(** Lines 95-126: the body of the loop, for one dequeued sample. *)
Definition drain_item (d : DrainState) (x : SensorISRData_t * DrainEnv)
  : DrainState :=
  let '(g, items_processed, min_latency, _) := d in
  let '(isr_data, e) := x in
  let items_processed := items_processed + 1 in
  let latency_ticks := u32 (de_now e - isr_timestamp isr_data) in
  let min_latency :=
    if latency_ticks <? min_latency then latency_ticks else min_latency in
  let base_vib := isr_vibration isr_data in
  let g :=
    if fgt (isr_vibration isr_data) 80
    then with_state_mutex (de_lk_emergency e) (fun g => set_emergency_stop g true) g
    else g in
  let g := with_state_mutex (de_lk_stats e) count_processed g in
  (g, items_processed, min_latency, base_vib).

(** Lines 88-127: [while (xQueueReceive(xSensorISRQueue, &isr_data, 0) == pdTRUE)],
    over the samples the queue delivered. *)
Definition drain_isr_queue (items : list (SensorISRData_t * DrainEnv))
    (g : SystemState_t) (base_vib : Q) : DrainState :=
  fold_left drain_item items (g, 0, UINT32_MAX, base_vib).

Definition set_last_latency (v : Z) (g : SystemState_t) : SystemState_t :=
  let s := isr_stats g in
  set_isr_stats g (mkISRStats (interrupt_count s) (processed_count s) v).

(** The inputs of one iteration of the loop of [vSensorTask]. *)
Record CycleEnv := mkCycleEnv {
  cy_lk_calibrated : bool;
  cy_isr_items : list (SensorISRData_t * DrainEnv);
  cy_lk_latency : bool;
  cy_rand_temperature : Z;
  cy_rand_rpm : Z;
  cy_rand_current : Z;
  cy_now : Z;
  cy_lk_publish : bool;
  cy_rand_change : Z;
  cy_rand_target_vibration : Z;
  cy_rand_target_temperature : Z;
  cy_rand_inject : Z;
  cy_sin : Q
}.

(** One iteration of the loop of [vSensorTask].  The result holds the reading
    handed to [xQueueSend(xSensorDataQueue, ...)] and the calls made on the
    event group; [cy_sin] is the value of [sin((float)cycle_count * 0.01)]. *)
Definition sensor_cycle (e : CycleEnv) (l : Locals) (g : SystemState_t)
  : Locals * SystemState_t * SensorData_t * list EventCall :=
  let l := mkLocals (base_vibration l) (base_temperature l) (base_rpm l)
             (base_current l) (target_vibration l) (target_temperature l)
             (u32 (cycle_count l + 1)) (sensors_calibrated l) in
  let '(l, g, calls) := announce_calibration (cy_lk_calibrated e) l g in
  let '(g, items_processed, min_latency, base_vib) :=
    drain_isr_queue (cy_isr_items e) g (base_vibration l) in
  let g :=
    if items_processed >? 0 then
      with_state_mutex (cy_lk_latency e)
        (set_last_latency (if min_latency <=? 1 then 250 else u32 (min_latency * 1000))) g
    else g in
  let current_reading :=
    mkSensorData base_vib
      (read_sensor_with_noise (cy_rand_temperature e) (base_temperature l) TEMPERATURE_DRIFT)
      (read_sensor_with_noise (cy_rand_rpm e) (base_rpm l) RPM_VARIATION)
      (read_sensor_with_noise (cy_rand_current e) (base_current l) 2)
      (cy_now e) in
  let g := with_state_mutex (cy_lk_publish e) (fun g => set_sensors g current_reading) g in
  let fifty := cycle_count l mod 50 =? 0 in
  let change := fifty && (cy_rand_change e mod 100 <? 30) in
  let target_vib :=
    if change then (1 + inject_Z (cy_rand_target_vibration e mod 80) / 10)%Q
    else target_vibration l in
  let target_temp :=
    if change then (40 + inject_Z (cy_rand_target_temperature e mod 400) / 10)%Q
    else target_temperature l in
  let base_vib := simulate_drift base_vib target_vib 0.02 in
  let base_temp := simulate_drift (base_temperature l) target_temp 0.01 in
  let base_vib :=
    if fifty && (cy_rand_inject e mod 100 <? 40) then (base_vib + 3)%Q else base_vib in
  let time_factor := (cy_sin e * 0.5 + 0.5)%Q in
  let b_rpm := (15 + time_factor * 10)%Q in
  let b_current := (40 + b_rpm * 2)%Q in
  (mkLocals base_vib base_temp b_rpm b_current target_vib target_temp
     (cycle_count l) (sensors_calibrated l),
   g, current_reading, calls).

End Sensor.

(** ** The anomaly detection task (tasks/anomaly_task.c) *)

Module Anomaly.

Definition HISTORY_SIZE : Z := 100.
Definition BASELINE_WINDOW : Z := 20.

Record DetectionState_t := mkDetectionState {
  vibration_history : list Q;
  temperature_history : list Q;
  rpm_history : list Q;
  history_index : Z;
  vibration_baseline : Q;
  temperature_baseline : Q;
  rpm_baseline : Q;
  vibration_stddev : Q;
  temperature_stddev : Q;
  rpm_stddev : Q
}.

(** [static DetectionState_t detection_state = {0};] *)
Definition detection_state_init : DetectionState_t :=
  let zeros := replicate (Z.to_nat HISTORY_SIZE) 0%Q in
  mkDetectionState zeros zeros zeros 0 0 0 0 0 0 0.

(** The loop of [calculate_mean]: [for (i = 0; i < size; i++) sum += data[i];]
    where [data] points at element [start] of the array [arr].  [n] counts
    the iterations left. *)
Fixpoint mean_loop (arr : list Q) (start i : nat) (n : nat) (sum : Q) : option Q :=
  match n with
  | O => Some sum
  | S n' =>
      match arr !! (start + i)%nat with
      | Some x => mean_loop arr start (S i) n' (sum + x)%Q
      | None => None
      end
  end.

Definition calculate_mean (arr : list Q) (start size : nat) : option Q :=
  sum ← mean_loop arr start 0 size 0%Q;
  Some (sum / inject_Z (Z.of_nat size))%Q.

(** The loop of [calculate_stddev]. *)
Fixpoint stddev_loop (arr : list Q) (start i : nat) (n : nat) (mean sum_sq : Q)
  : option Q :=
  match n with
  | O => Some sum_sq
  | S n' =>
      match arr !! (start + i)%nat with
      | Some x =>
          let diff := (x - mean)%Q in
          stddev_loop arr start (S i) n' mean (sum_sq + diff * diff)%Q
      | None => None
      end
  end.

Definition calculate_stddev (sqrtf : Q -> Q) (arr : list Q) (start size : nat)
    (mean : Q) : option Q :=
  sum_sq ← stddev_loop arr start 0 size mean 0%Q;
  Some (sqrtf (sum_sq / inject_Z (Z.of_nat size))%Q).

(** The first lines of [update_baselines]: [start_idx] and [count]. *)
Definition baseline_window (history_idx : Z) : Z * Z :=
  if history_idx <? BASELINE_WINDOW then (0, history_idx)
  else (u32 (history_idx - BASELINE_WINDOW), BASELINE_WINDOW).

(** The array indices that [update_baselines] reads in each history. *)
Definition window_indices (history_idx : Z) : list Z :=
  let '(start_idx, count) := baseline_window history_idx in
  map (fun i => start_idx + Z.of_nat i) (seq 0 (Z.to_nat count)).

Definition update_baselines (sqrtf : Q -> Q) (ds : DetectionState_t)
  : option DetectionState_t :=
  let '(start_idx, count) := baseline_window (history_index ds) in
  if count >? 0 then
    let s := Z.to_nat start_idx in
    let n := Z.to_nat count in
    vb ← calculate_mean (vibration_history ds) s n;
    tb ← calculate_mean (temperature_history ds) s n;
    rb ← calculate_mean (rpm_history ds) s n;
    vs ← calculate_stddev sqrtf (vibration_history ds) s n vb;
    ts ← calculate_stddev sqrtf (temperature_history ds) s n tb;
    rs ← calculate_stddev sqrtf (rpm_history ds) s n rb;
    Some (mkDetectionState (vibration_history ds) (temperature_history ds)
            (rpm_history ds) (history_index ds) vb tb rb vs ts rs)
  else Some ds.

(** Lines 119-124: the index written and the store into the three histories. *)
Definition store_index (history_idx : Z) : Z := history_idx mod HISTORY_SIZE.

Definition store_history (vib temp r : Q) (ds : DetectionState_t)
  : DetectionState_t :=
  let idx := Z.to_nat (store_index (history_index ds)) in
  mkDetectionState
    (<[idx := vib]> (vibration_history ds))
    (<[idx := temp]> (temperature_history ds))
    (<[idx := r]> (rpm_history ds))
    (u32 (history_index ds + 1))
    (vibration_baseline ds) (temperature_baseline ds) (rpm_baseline ds)
    (vibration_stddev ds) (temperature_stddev ds) (rpm_stddev ds).

(** The readings [detect_anomalies] works on. *)
Definition read_current (acquired : bool) (g : SystemState_t) : Q * Q * Q :=
  if acquired
  then (vibration (sensors g), temperature (sensors g), rpm (sensors g))
  else (0, 0, 0)%Q.

Definition read_warning_thresholds (acquired : bool) (th : ThresholdConfig_t)
  : Q * Q * Q * Q :=
  if acquired
  then (vibration_warning th, temperature_warning th, rpm_min th, rpm_max th)
  else (5, 70, 10, 30)%Q.

(** Lines 147-171: the three flags and the number of flags raised. *)
Definition anomaly_flags (vib temp r : Q) (w : Q * Q * Q * Q)
    (ds : DetectionState_t) : bool * bool * bool * Z :=
  let '(vib_warning, temp_warning, r_min, r_max) := w in
  if history_index ds >? BASELINE_WINDOW then
    let vib_deviation := fabs (vib - vibration_baseline ds) in
    let vib_anomaly :=
      fgt vib_deviation (3 * vibration_stddev ds) || fgt vib vib_warning in
    let temp_deviation := fabs (temp - temperature_baseline ds) in
    let temp_anomaly :=
      fgt temp_deviation (3 * temperature_stddev ds) || fgt temp temp_warning in
    let rpm_deviation := fabs (r - rpm_baseline ds) in
    let rpm_anomaly :=
      fgt rpm_deviation (3 * rpm_stddev ds) || flt r r_min || fgt r r_max in
    (vib_anomaly, temp_anomaly, rpm_anomaly,
     (if vib_anomaly then 1 else 0) + (if temp_anomaly then 1 else 0)
     + (if rpm_anomaly then 1 else 0))
  else (false, false, false, 0).

(** One of the three penalty blocks of lines 176-193:
<<
    if (stddev > 0) {
        float score = fabs(value - baseline) / (stddev * 3.0);
        health -= fmin(score * FACTOR, CAP);
    }
>> *)
Definition penalty (value baseline stddev factor cap : Q) (health : Q) : Q :=
  if fgt stddev 0 then
    let score := (fabs (value - baseline) / (stddev * 3))%Q in
    (health - fmin (score * factor) cap)%Q
  else health.

(** Lines 173-193: the health score before the emergency-stop override. *)
Definition deviation_health (vib temp r : Q) (ds : DetectionState_t) : Q :=
  let health := 100%Q in
  let health := penalty vib (vibration_baseline ds) (vibration_stddev ds) 20 30 health in
  let health := penalty temp (temperature_baseline ds) (temperature_stddev ds) 15 25 health in
  let health := penalty r (rpm_baseline ds) (rpm_stddev ds) 15 25 health in
  health.

(** Lines 210-224: the write of the results. *)
Definition publish_results (flags : bool * bool * bool * Z) (health : Q)
    (g : SystemState_t) : SystemState_t :=
  let '(vib_anomaly, temp_anomaly, rpm_anomaly, count) := flags in
  let a := anomalies g in
  set_anomalies g
    (mkAnomalyResults vib_anomaly temp_anomaly rpm_anomaly (fmax health 0)
       (if count >? 0 then u32 (anomaly_count a + count) else anomaly_count a)).

(** The outcomes of the four lock acquisitions of [detect_anomalies]. *)
Record DetectEnv := mkDetectEnv {
  dt_lk_read : bool;
  dt_lk_thresholds : bool;
  dt_lk_emergency : bool;
  dt_lk_publish : bool
}.

(** Lines 129-224: everything after [update_baselines], on the refreshed
    detection state. *)
Definition score_and_publish (e : DetectEnv) (th : ThresholdConfig_t)
    (vib temp r : Q) (ds : DetectionState_t) (g : SystemState_t) : SystemState_t :=
  let w := read_warning_thresholds (dt_lk_thresholds e) th in
  let g := with_threshold_mutex (dt_lk_thresholds e) g in
  let flags := anomaly_flags vib temp r w ds in
  let health := deviation_health vib temp r ds in
  let emergency := if dt_lk_emergency e then emergency_stop g else false in
  let g := with_state_mutex (dt_lk_emergency e) (fun g => g) g in
  let health := if emergency then 0%Q else health in
  with_state_mutex (dt_lk_publish e) (publish_results flags health) g.

Definition detect_anomalies (sqrtf : Q -> Q) (e : DetectEnv)
    (th : ThresholdConfig_t) (g : SystemState_t) (ds : DetectionState_t)
  : option (SystemState_t * DetectionState_t) :=
  let '(vib, temp, r) := read_current (dt_lk_read e) g in
  let g := with_state_mutex (dt_lk_read e) (fun g => g) g in
  let ds := store_history vib temp r ds in
  ds ← update_baselines sqrtf ds;
  Some (score_and_publish e th vib temp r ds g, ds).

(** *** Reads past the end of a history

    [update_baselines] reads 20 elements from position [history_index - 20]
    on, and [history_index] is not reduced modulo [HISTORY_SIZE] there: from
    the 101st stored sample on, the loops of [calculate_mean] and
    [calculate_stddev] read past the end of the arrays.  What such a read
    finds (the next member of [detection_state], or what follows it in
    memory) is not fixed by the source.  [OutOfBounds] gives the value found
    at each position, for each of the six loops of one call of
    [update_baselines]; no property below constrains it. *)
Record OutOfBounds := mkOutOfBounds {
  ob_vibration_mean : nat -> Q;
  ob_temperature_mean : nat -> Q;
  ob_rpm_mean : nat -> Q;
  ob_vibration_stddev : nat -> Q;
  ob_temperature_stddev : nat -> Q;
  ob_rpm_stddev : nat -> Q
}.

(** [data[i]], inside the array or past its end. *)
Definition read_any (beyond : nat -> Q) (arr : list Q) (i : nat) : Q :=
  match arr !! i with
  | Some x => x
  | None => beyond i
  end.

Fixpoint mean_loop_any (beyond : nat -> Q) (arr : list Q) (start i : nat)
    (n : nat) (sum : Q) : Q :=
  match n with
  | O => sum
  | S n' =>
      mean_loop_any beyond arr start (S i) n'
        (sum + read_any beyond arr (start + i))%Q
  end.

Definition calculate_mean_any (beyond : nat -> Q) (arr : list Q)
    (start size : nat) : Q :=
  (mean_loop_any beyond arr start 0 size 0 / inject_Z (Z.of_nat size))%Q.

Fixpoint stddev_loop_any (beyond : nat -> Q) (arr : list Q) (start i : nat)
    (n : nat) (mean sum_sq : Q) : Q :=
  match n with
  | O => sum_sq
  | S n' =>
      let diff := (read_any beyond arr (start + i) - mean)%Q in
      stddev_loop_any beyond arr start (S i) n' mean (sum_sq + diff * diff)%Q
  end.

Definition calculate_stddev_any (sqrtf : Q -> Q) (beyond : nat -> Q)
    (arr : list Q) (start size : nat) (mean : Q) : Q :=
  sqrtf (stddev_loop_any beyond arr start 0 size mean 0 / inject_Z (Z.of_nat size))%Q.

Definition update_baselines_any (oob : OutOfBounds) (sqrtf : Q -> Q)
    (ds : DetectionState_t) : DetectionState_t :=
  let '(start_idx, count) := baseline_window (history_index ds) in
  if count >? 0 then
    let s := Z.to_nat start_idx in
    let n := Z.to_nat count in
    let vb := calculate_mean_any (ob_vibration_mean oob) (vibration_history ds) s n in
    let tb := calculate_mean_any (ob_temperature_mean oob) (temperature_history ds) s n in
    let rb := calculate_mean_any (ob_rpm_mean oob) (rpm_history ds) s n in
    let vs := calculate_stddev_any sqrtf (ob_vibration_stddev oob)
                (vibration_history ds) s n vb in
    let ts := calculate_stddev_any sqrtf (ob_temperature_stddev oob)
                (temperature_history ds) s n tb in
    let rs := calculate_stddev_any sqrtf (ob_rpm_stddev oob)
                (rpm_history ds) s n rb in
    mkDetectionState (vibration_history ds) (temperature_history ds)
      (rpm_history ds) (history_index ds) vb tb rb vs ts rs
  else ds.

Definition detect_anomalies_any (oob : OutOfBounds) (sqrtf : Q -> Q)
    (e : DetectEnv) (th : ThresholdConfig_t) (g : SystemState_t)
    (ds : DetectionState_t) : SystemState_t * DetectionState_t :=
  let '(vib, temp, r) := read_current (dt_lk_read e) g in
  let g := with_state_mutex (dt_lk_read e) (fun g => g) g in
  let ds := store_history vib temp r ds in
  let ds := update_baselines_any oob sqrtf ds in
  (score_and_publish e th vib temp r ds g, ds).

End Anomaly.

Module AnomalyTask.
Import Anomaly.

(** main.c: [xAnomalyAlertQueue = xQueueCreate(3, sizeof(AnomalyAlert_t))]. *)
Definition ALERT_QUEUE_LENGTH : nat := 3.

(** The local variables of [vAnomalyTask] that live across iterations. *)
Record Locals := mkLocals {
  cycle_count : Z;
  anomaly_ready : bool
}.

Definition locals_init : Locals := mkLocals 0 false.

(** Lines 250-262: the receive loop.  [n] is [items_to_consume] minus
    [items_processed]; [lks k] is the outcome of the lock acquisition for the
    [k]-th item received. *)
Fixpoint receive_loop (n : nat) (lks : nat -> bool) (items_processed : nat)
    (q : list SensorData_t) (g : SystemState_t)
  : nat * list SensorData_t * SystemState_t :=
  match n with
  | O => (items_processed, q, g)
  | S n' =>
      match xQueueReceive q with
      | (Some sensor_data, q') =>
          let g := with_state_mutex (lks items_processed)
                     (fun g => set_sensors g sensor_data) g in
          receive_loop n' lks (S items_processed) q' g
      | (None, q') => (items_processed, q', g)
      end
  end.

(** Lines 269-285: the readiness announcement. *)
Definition announce_ready (lk : bool) (l : Locals) (ds : DetectionState_t)
    (g : SystemState_t) : Locals * SystemState_t * list EventCall :=
  if negb (anomaly_ready l) && (history_index ds >=? BASELINE_WINDOW) then
    (mkLocals (cycle_count l) true,
     with_state_mutex lk (note_bits_set ANOMALY_READY_BIT) g,
     [SetBits ANOMALY_READY_BIT])
  else (l, g, []).

(** Lines 287-308: the decision to send and the alert to send. *)
Definition prepare_alert (lk : bool) (now : Z) (cycle : Z) (g : SystemState_t)
  : option AnomalyAlert_t * SystemState_t :=
  if cycle mod 2 =? 0 then
    let a := anomalies g in
    let alert :=
      if lk && (vibration_anomaly a || temperature_anomaly a) then
        Some (mkAnomalyAlert (if vibration_anomaly a then 8 else 5)
                (if vibration_anomaly a then 0 else 1) now)
      else None in
    (alert, with_state_mutex lk (fun g => g) g)
  else (None, g).

(** Lines 287-314: the alert block; [xQueueSend(xAnomalyAlertQueue, &alert, 0)]. *)
Definition alert_block (lk : bool) (now : Z) (cycle : Z) (g : SystemState_t)
    (alert_queue : list AnomalyAlert_t) : SystemState_t * list AnomalyAlert_t :=
  let '(alert, g) := prepare_alert lk now cycle g in
  match alert with
  | Some a => (g, fst (xQueueSend ALERT_QUEUE_LENGTH alert_queue a))
  | None => (g, alert_queue)
  end.

(** The inputs of one iteration of the loop of [vAnomalyTask]. *)
Record CycleEnv := mkCycleEnv {
  cy_lk_receive : nat -> bool;
  cy_detect : DetectEnv;
  cy_lk_ready : bool;
  cy_lk_alert : bool;
  cy_now : Z
}.

(** The state one iteration works on. *)
Record TaskState := mkTaskState {
  ts_locals : Locals;
  ts_detection : DetectionState_t;
  ts_shared : SystemState_t;
  ts_sensor_queue : list SensorData_t;
  ts_alert_queue : list AnomalyAlert_t
}.

(** One iteration of the loop of [vAnomalyTask]. *)
Definition anomaly_cycle (sqrtf : Q -> Q) (e : CycleEnv) (th : ThresholdConfig_t)
    (s : TaskState) : option (TaskState * list EventCall) :=
  let l := mkLocals (u32 (cycle_count (ts_locals s) + 1))
             (anomaly_ready (ts_locals s)) in
  let items_to_consume := if cycle_count l mod 2 =? 0 then 1%nat else 2%nat in
  let '(items_processed, sq, g) :=
    receive_loop items_to_consume (cy_lk_receive e) 0 (ts_sensor_queue s)
      (ts_shared s) in
  '(g, ds) ← detect_anomalies sqrtf (cy_detect e) th g (ts_detection s);
  if (0 <? items_processed)%nat then
    let '(l, g, calls) := announce_ready (cy_lk_ready e) l ds g in
    let '(g, aq) :=
      alert_block (cy_lk_alert e) (cy_now e) (cycle_count l) g (ts_alert_queue s) in
    Some (mkTaskState l ds g sq aq, calls)
  else
    Some (mkTaskState l ds g sq (ts_alert_queue s), []).

(** The same iteration with the reads past the histories answered by [oob]. *)
Definition anomaly_cycle_any (oob : OutOfBounds) (sqrtf : Q -> Q) (e : CycleEnv)
    (th : ThresholdConfig_t) (s : TaskState) : TaskState * list EventCall :=
  let l := mkLocals (u32 (cycle_count (ts_locals s) + 1))
             (anomaly_ready (ts_locals s)) in
  let items_to_consume := if cycle_count l mod 2 =? 0 then 1%nat else 2%nat in
  let '(items_processed, sq, g) :=
    receive_loop items_to_consume (cy_lk_receive e) 0 (ts_sensor_queue s)
      (ts_shared s) in
  let '(g, ds) := detect_anomalies_any oob sqrtf (cy_detect e) th g (ts_detection s) in
  if (0 <? items_processed)%nat then
    let '(l, g, calls) := announce_ready (cy_lk_ready e) l ds g in
    let '(g, aq) :=
      alert_block (cy_lk_alert e) (cy_now e) (cycle_count l) g (ts_alert_queue s) in
    (mkTaskState l ds g sq aq, calls)
  else
    (mkTaskState l ds g sq (ts_alert_queue s), []).

End AnomalyTask.

(** ** The network task (tasks/network_task.c) *)

Module Network.

Definition PACKET_HEARTBEAT_SIZE : Z := 64.
Definition PACKET_SENSOR_SIZE : Z := 256.
Definition PACKET_ANOMALY_SIZE : Z := 512.

Inductive PacketType_t : Type :=
| PACKET_TYPE_HEARTBEAT
| PACKET_TYPE_SENSOR_DATA
| PACKET_TYPE_ANOMALY_REPORT.

(** [sizeof(PacketBuffer_t)]: an enum and two [uint32_t]; the flexible array
    member adds nothing. *)
Definition sizeof_PacketBuffer_t : Z := 12.

(** Wrap-around of a [size_t] (64 bits on the POSIX simulator). *)
Definition usize (z : Z) : Z := z mod 2 ^ 64.

Record PacketBuffer_t := mkPacket {
  pk_type : PacketType_t;
  pk_size : Z;
  pk_timestamp : Z
}.

Record NetworkStats_t := mkNetworkStats {
  packets_sent : Z;
  packets_failed : Z;
  bytes_sent : Z;
  anomaly_alerts_sent : Z;
  last_transmission_time : Z;
  transmission_in_progress : bool
}.

Definition network_stats_init : NetworkStats_t := mkNetworkStats 0 0 0 0 0 false.

(** The minimum-free bookkeeping shared by the alloc and the free helper. *)
Definition track_minimum (current_free minimum : Z) : Z :=
  let minimum := if current_free <? minimum then current_free else minimum in
  if (minimum =? 0) && (current_free >? 0) then current_free else minimum.

(** The body of [update_memory_stats_alloc]; [current_free] is the value of
    [xPortGetFreeHeapSize()]. *)
Definition stats_alloc (current_free size : Z) (g : SystemState_t) : SystemState_t :=
  let m := memory_stats g in
  let bytes := usize (bytes_allocated m + size) in
  set_memory_stats g
    (mkMemoryStats (u32 (allocations m + 1)) (deallocations m)
       (allocation_failures m) bytes
       (if bytes >? peak_usage m then bytes else peak_usage m)
       current_free (track_minimum current_free (minimum_heap_free m))
       (u32 (active_allocations m + 1))).

Definition update_memory_stats_alloc (lk : bool) (current_free size : Z)
    (g : SystemState_t) : SystemState_t :=
  with_state_mutex lk (stats_alloc current_free size) g.

Definition stats_free (current_free size : Z) (g : SystemState_t) : SystemState_t :=
  let m := memory_stats g in
  set_memory_stats g
    (mkMemoryStats (allocations m) (u32 (deallocations m + 1))
       (allocation_failures m) (usize (bytes_allocated m - size))
       (peak_usage m)
       current_free (track_minimum current_free (minimum_heap_free m))
       (u32 (active_allocations m - 1))).

Definition update_memory_stats_free (lk : bool) (current_free size : Z)
    (g : SystemState_t) : SystemState_t :=
  with_state_mutex lk (stats_free current_free size) g.

Definition stats_failure (g : SystemState_t) : SystemState_t :=
  let m := memory_stats g in
  set_memory_stats g
    (mkMemoryStats (allocations m) (deallocations m)
       (u32 (allocation_failures m + 1)) (bytes_allocated m) (peak_usage m)
       (current_heap_free m) (minimum_heap_free m) (active_allocations m)).

Definition update_memory_stats_failure (lk : bool) (g : SystemState_t)
  : SystemState_t :=
  with_state_mutex lk stats_failure g.

Definition packet_size_of (type : PacketType_t) : Z :=
  match type with
  | PACKET_TYPE_HEARTBEAT => sizeof_PacketBuffer_t + PACKET_HEARTBEAT_SIZE
  | PACKET_TYPE_SENSOR_DATA => sizeof_PacketBuffer_t + PACKET_SENSOR_SIZE
  | PACKET_TYPE_ANOMALY_REPORT => sizeof_PacketBuffer_t + PACKET_ANOMALY_SIZE
  end.

(** The inputs of [allocate_packet]: whether [pvPortMalloc] returned a block,
    the tick count, the lock outcome of the statistics helper and the free
    heap size it reads. *)
Record AllocEnv := mkAllocEnv {
  al_malloc_ok : bool;
  al_now : Z;
  al_lk : bool;
  al_free : Z
}.

(** [allocate_packet]; [heap_live] is the number of blocks the task holds
    from the kernel's allocator. *)
Definition allocate_packet (e : AllocEnv) (type : PacketType_t)
    (heap_live : Z) (g : SystemState_t)
  : option PacketBuffer_t * Z * SystemState_t :=
  let packet_size := packet_size_of type in
  if al_malloc_ok e then
    (Some (mkPacket type packet_size (al_now e)), heap_live + 1,
     update_memory_stats_alloc (al_lk e) (al_free e) packet_size g)
  else
    (None, heap_live, update_memory_stats_failure (al_lk e) g).

(** [free_packet]. *)
Definition free_packet (lk : bool) (current_free : Z)
    (packet : option PacketBuffer_t) (heap_live : Z) (g : SystemState_t)
  : Z * SystemState_t :=
  match packet with
  | Some p => (heap_live - 1, update_memory_stats_free lk current_free (pk_size p) g)
  | None => (heap_live, g)
  end.

End Network.

Module NetworkTask.
Import Network.

(** [transmit_packet]; [r] is the value of [rand()], [now] the tick count read
    at the end.  The delay of TRANSMISSION_TIME_MS changes no data. *)
Definition transmit_packet (r : Z) (lk : bool) (now : Z) (size : Z)
    (ns : NetworkStats_t) (g : SystemState_t)
  : bool * NetworkStats_t * SystemState_t * list EventCall :=
  let success := r mod 100 >=? 5 in
  if success then
    let a := anomalies g in
    let alerts :=
      if vibration_anomaly a || temperature_anomaly a || rpm_anomaly a
      then u32 (anomaly_alerts_sent ns + 1) else anomaly_alerts_sent ns in
    (true,
     mkNetworkStats (u32 (packets_sent ns + 1)) (packets_failed ns)
       (u32 (bytes_sent ns + size)) alerts now false,
     g, [])
  else
    (false,
     mkNetworkStats (packets_sent ns) (u32 (packets_failed ns + 1))
       (bytes_sent ns) (anomaly_alerts_sent ns) now false,
     with_state_mutex lk
       (fun g => note_bits_cleared NETWORK_CONNECTED_BIT (set_network_connected g false)) g,
     [ClearBits NETWORK_CONNECTED_BIT]).

(** [check_network_reconnect]. *)
Definition check_network_reconnect (lk_read : bool) (r : Z) (lk_write : bool)
    (g : SystemState_t) : SystemState_t * list EventCall :=
  let was_connected := if lk_read then network_connected g else false in
  let g := with_state_mutex lk_read (fun g => g) g in
  if negb was_connected then
    if r mod 100 <? 50 then
      (with_state_mutex lk_write
         (fun g => note_bits_set NETWORK_CONNECTED_BIT (set_network_connected g true)) g,
       [SetBits NETWORK_CONNECTED_BIT])
    else (g, [])
  else (g, []).

(** The inputs of one iteration of the loop of [vNetworkTask]. *)
Record CycleEnv := mkCycleEnv {
  cy_lk_reconnect_read : bool;
  cy_rand_reconnect : Z;
  cy_lk_reconnect_write : bool;
  cy_alloc : AllocEnv;
  cy_content_size : Z;
  cy_rand_transmit : Z;
  cy_lk_transmit : bool;
  cy_transmit_now : Z;
  cy_lk_free : bool;
  cy_free_heap : Z
}.

Record TaskState := mkTaskState {
  ts_cycle_count : Z;
  ts_stats : NetworkStats_t;
  ts_shared : SystemState_t;
  ts_alert_queue : list AnomalyAlert_t;
  ts_heap_live : Z
}.

(** How an iteration ended. *)
Inductive Outcome : Type :=
| SkippedDisconnected
| SkippedAllocationFailed
| Transmitted (success : bool).

Definition count_alert_received (ns : NetworkStats_t) : NetworkStats_t :=
  mkNetworkStats (packets_sent ns) (packets_failed ns) (bytes_sent ns)
    (u32 (anomaly_alerts_sent ns + 1)) (last_transmission_time ns)
    (transmission_in_progress ns).

(** Lines 336-347: the packet class. *)
Definition choose_packet_type (cycle : Z) (alerts_processed : Z)
    (g : SystemState_t) : PacketType_t :=
  if cycle mod 10 =? 0 then PACKET_TYPE_HEARTBEAT
  else if emergency_stop g || flt (health_score (anomalies g)) 50
          || (alerts_processed >? 0)
       then PACKET_TYPE_ANOMALY_REPORT
       else PACKET_TYPE_SENSOR_DATA.

(** One iteration of the loop of [vNetworkTask].  The calls of
    [record_preemption] and [taskYIELD] at its end change none of the modelled
    fields. *)
Definition network_cycle (e : CycleEnv) (s : TaskState)
  : TaskState * list EventCall * Outcome :=
  let cycle := u32 (ts_cycle_count s + 1) in
  let '(alert, aq) := xQueueReceive (ts_alert_queue s) in
  let alerts_processed := match alert with Some _ => 1 | None => 0 end in
  let ns := match alert with
            | Some _ => count_alert_received (ts_stats s)
            | None => ts_stats s
            end in
  let g := ts_shared s in
  let '(g, calls) :=
    if negb (network_connected g)
    then check_network_reconnect (cy_lk_reconnect_read e) (cy_rand_reconnect e)
           (cy_lk_reconnect_write e) g
    else (g, []) in
  if negb (network_connected g) then
    (mkTaskState cycle ns g aq (ts_heap_live s), calls, SkippedDisconnected)
  else
    let packet_type := choose_packet_type cycle alerts_processed g in
    let '(packet, live, g) := allocate_packet (cy_alloc e) packet_type (ts_heap_live s) g in
    match packet with
    | None => (mkTaskState cycle ns g aq live, calls, SkippedAllocationFailed)
    | Some p =>
        let '(success, ns, g, calls') :=
          transmit_packet (cy_rand_transmit e) (cy_lk_transmit e)
            (cy_transmit_now e) (cy_content_size e) ns g in
        let '(live, g) := free_packet (cy_lk_free e) (cy_free_heap e) (Some p) live g in
        (mkTaskState cycle ns g aq live, calls ++ calls', Transmitted success)
    end.

End NetworkTask.

(** ** The stack monitor (main.c, [update_stack_monitoring]) *)

Module StackMonitor.

Definition MAX_TASK_NAME_LEN : nat := 16.
Definition MAX_STACK_MONITORED_TASKS : Z := 8.

Record TaskStackMonitor_t := mkTaskMonitor {
  task_name : string;
  stack_size_words : Z;
  current_high_water : Z;
  minimum_high_water : Z;
  usage_percent : Z;
  peak_usage_percent : Z;
  warning_issued : bool;
  last_check_time : Z
}.

Record StackStats_t := mkStackStats {
  warnings_issued : Z;
  high_usage_events : Z;
  critical_usage_events : Z;
  overflow_events : Z;
  proactive_checks : Z;
  tasks_monitored : Z;
  last_warning_time : Z;
  last_warning_task : string
}.

(** [tasks] holds the first [monitored_count] entries of the array, the only
    ones the code reads. *)
Record StackMonitoringSystem_t := mkStackSystem {
  tasks : list TaskStackMonitor_t;
  global_stats : StackStats_t
}.

Definition monitored_count (sys : StackMonitoringSystem_t) : Z :=
  Z.of_nat (length (tasks sys)).

(** After [memset(&g_system_state.stack_monitoring, 0, ...)]. *)
Definition stack_monitoring_init : StackMonitoringSystem_t :=
  mkStackSystem [] (mkStackStats 0 0 0 0 0 0 0 EmptyString).

(** [strncmp(a, b, n) == 0] and the effect of [strncpy(dst, src, n)] on a
    zeroed or shorter destination, for strings without NUL characters. *)
Definition strncmp_eq (a b : string) (n : nat) : bool :=
  String.eqb (substring 0 n a) (substring 0 n b).

Definition strncpy (src : string) (n : nat) : string := substring 0 n src.

(** The lines the monitor prints. *)
Inductive StackMessage : Type :=
| StackCritical (name : string) (usage free : Z)
| StackWarning (name : string) (usage free : Z)
| StackRecovery (name : string) (usage : Z).

(** Lines 327-332: the search for the task's entry. *)
Fixpoint find_monitor (l : list TaskStackMonitor_t) (name : string) (i : nat)
  : option nat :=
  match l with
  | [] => None
  | t :: rest =>
      if strncmp_eq (task_name t) name MAX_TASK_NAME_LEN then Some i
      else find_monitor rest name (S i)
  end.

(** Lines 336-341: the fields written into a new entry. *)
Definition new_monitor (name : string) (size free usage : Z) : TaskStackMonitor_t :=
  mkTaskMonitor (strncpy name (MAX_TASK_NAME_LEN - 1)) size 0 free 0 usage false 0.

(** Lines 346-391: the update of the entry found or created. *)
Definition update_monitor (now : Z) (name : string) (free usage : Z)
    (t : TaskStackMonitor_t) (gs : StackStats_t)
  : TaskStackMonitor_t * StackStats_t * list StackMessage :=
  let minimum := if free <? minimum_high_water t then free else minimum_high_water t in
  let peak := if usage >? peak_usage_percent t then usage else peak_usage_percent t in
  let '(issue_warning, gs, msgs) :=
    if (usage >=? 85) && negb (warning_issued t) then
      (true,
       mkStackStats (warnings_issued gs) (high_usage_events gs)
         (u32 (critical_usage_events gs + 1)) (overflow_events gs)
         (proactive_checks gs) (tasks_monitored gs) (last_warning_time gs)
         (last_warning_task gs),
       [StackCritical name usage free])
    else if (usage >=? 70) && negb (warning_issued t) then
      (true,
       mkStackStats (warnings_issued gs) (u32 (high_usage_events gs + 1))
         (critical_usage_events gs) (overflow_events gs)
         (proactive_checks gs) (tasks_monitored gs) (last_warning_time gs)
         (last_warning_task gs),
       [StackWarning name usage free])
    else (false, gs, []) in
  let '(warned, gs) :=
    if issue_warning then
      (true,
       mkStackStats (u32 (warnings_issued gs + 1)) (high_usage_events gs)
         (critical_usage_events gs) (overflow_events gs)
         (proactive_checks gs) (tasks_monitored gs) now
         (strncpy name (MAX_TASK_NAME_LEN - 1)))
    else (warning_issued t, gs) in
  let '(warned, msgs) :=
    if (usage <? 60) && warned then (false, msgs ++ [StackRecovery name usage])
    else (warned, msgs) in
  (mkTaskMonitor (task_name t) (stack_size_words t) free minimum usage peak
     warned now,
   gs, msgs).

Definition count_check (gs : StackStats_t) : StackStats_t :=
  mkStackStats (warnings_issued gs) (high_usage_events gs)
    (critical_usage_events gs) (overflow_events gs)
    (u32 (proactive_checks gs + 1)) (tasks_monitored gs) (last_warning_time gs)
    (last_warning_task gs).

Definition set_tasks_monitored (n : Z) (gs : StackStats_t) : StackStats_t :=
  mkStackStats (warnings_issued gs) (high_usage_events gs)
    (critical_usage_events gs) (overflow_events gs)
    (proactive_checks gs) n (last_warning_time gs) (last_warning_task gs).

(** [update_stack_monitoring]; [now] is the value of [xTaskGetTickCount()]. *)
Definition update_stack_monitoring (now : Z) (name : string)
    (size free usage : Z) (sys : StackMonitoringSystem_t)
  : StackMonitoringSystem_t * list StackMessage :=
  let gs := count_check (global_stats sys) in
  match find_monitor (tasks sys) name 0 with
  | Some i =>
      match tasks sys !! i with
      | Some t =>
          let '(t, gs, msgs) := update_monitor now name free usage t gs in
          (mkStackSystem (<[i := t]> (tasks sys)) gs, msgs)
      | None => (mkStackSystem (tasks sys) gs, [])
      end
  | None =>
      if monitored_count sys <? MAX_STACK_MONITORED_TASKS then
        let t := new_monitor name size free usage in
        let gs := set_tasks_monitored (monitored_count sys + 1) gs in
        let '(t, gs, msgs) := update_monitor now name free usage t gs in
        (mkStackSystem (tasks sys ++ [t]) gs, msgs)
      else (mkStackSystem (tasks sys) gs, [])
  end.

(** The monitor fed with the successive usage samples of one task. *)
Fixpoint feed_usage (name : string) (size : Z) (samples : list (Z * Z * Z))
    (sys : StackMonitoringSystem_t)
  : StackMonitoringSystem_t * list StackMessage :=
  match samples with
  | [] => (sys, [])
  | (now, free, usage) :: rest =>
      let '(sys, msgs) := update_stack_monitoring now name size free usage sys in
      let '(sys, msgs') := feed_usage name size rest sys in
      (sys, msgs ++ msgs')
  end.

End StackMonitor.

(** ** The preemption history (main.c, [record_preemption]; console.c) *)

Module Preemption.

Definition PREEMPTION_HISTORY_SIZE : Z := 10.

(** [reason] is a pointer to a string; [None] is the null pointer the
    initial [memset] leaves. *)
Record PreemptionEvent_t := mkPreemptionEvent {
  tick : Z;
  preemptor : string;
  preempted : string;
  reason : option string
}.

Record PreemptionLog := mkPreemptionLog {
  preemption_history : list PreemptionEvent_t;
  preemption_index : Z
}.

(** After [memset(&g_system_state, 0, sizeof(SystemState_t))]. *)
Definition preemption_log_init : PreemptionLog :=
  mkPreemptionLog
    (replicate (Z.to_nat PREEMPTION_HISTORY_SIZE)
       (mkPreemptionEvent 0 EmptyString EmptyString None))
    0.

(** [record_preemption]; [now] is the value of [xTaskGetTickCount()]. *)
Definition record_preemption (now : Z) (preemptor preempted reason : string)
    (log : PreemptionLog) : PreemptionLog :=
  let idx := preemption_index log mod PREEMPTION_HISTORY_SIZE in
  let event :=
    mkPreemptionEvent now
      (StackMonitor.strncpy preemptor (StackMonitor.MAX_TASK_NAME_LEN - 1))
      (StackMonitor.strncpy preempted (StackMonitor.MAX_TASK_NAME_LEN - 1))
      (Some reason) in
  mkPreemptionLog (<[Z.to_nat idx := event]> (preemption_history log))
    (u32 (preemption_index log + 1)).

(** console.c, lines 290-300: the loop
<<
    for (uint32_t i = start_idx; i < g_system_state.preemption_index &&
                                  i < start_idx + 5; i++) {
        PreemptionEvent_t* event = &g_system_state.preemption_history[i % PREEMPTION_HISTORY_SIZE];
        if (event->tick > 0) { printf(...); }
    }
>>
    The result holds the events printed, in order; [n] bounds the number of
    iterations, and [None] is a read outside the array or an exhausted
    bound. *)
Fixpoint display_loop (log : PreemptionLog) (start_idx i : Z) (n : nat)
  : option (list PreemptionEvent_t) :=
  if (i <? preemption_index log) && (i <? u32 (start_idx + 5)) then
    match n with
    | O => None
    | S n' =>
        event ← preemption_history log !! Z.to_nat (i mod PREEMPTION_HISTORY_SIZE);
        rest ← display_loop log start_idx (u32 (i + 1)) n';
        Some (if tick event >? 0 then event :: rest else rest)
    end
  else Some [].

(** console.c, lines 287-300: the events the dashboard prints under
    "PREEMPTION EVENTS (Last 5)". *)
Definition console_preemption_events (log : PreemptionLog)
  : option (list PreemptionEvent_t) :=
  let start_idx :=
    if preemption_index log >? 5 then u32 (preemption_index log - 5) else 0 in
  display_loop log start_idx start_idx 5.

End Preemption.

(** ** The simulated sensor interrupt (main.c, [vSimulatedSensorISR]) *)

Module Isr.

(** main.c: [xSensorISRQueue = xQueueCreate(10, sizeof(SensorISRData_t))]. *)
Definition ISR_QUEUE_LENGTH : nat := 10.

Definition count_interrupt (g : SystemState_t) : SystemState_t :=
  let s := isr_stats g in
  set_isr_stats g
    (mkISRStats (u32 (interrupt_count s + 1)) (processed_count s) (last_latency_us s)).

(** [vSimulatedSensorISR]; [r] is the value of [rand()], [now] the value of
    [xTaskGetTickCountFromISR()], [sequence] the static counter of the
    function.  [xQueueSendFromISR] fails on a full queue. *)
Definition vSimulatedSensorISR (r now : Z) (sequence : Z)
    (queue : list SensorISRData_t) (g : SystemState_t)
  : Z * list SensorISRData_t * SystemState_t :=
  let data :=
    mkSensorISRData (vibration (sensors g) + inject_Z (r mod 10 - 5) * 0.1)%Q
      now sequence in
  let sequence := u32 (sequence + 1) in
  let '(queue, sent) := xQueueSend ISR_QUEUE_LENGTH queue data in
  (sequence, queue, if sent then count_interrupt g else g).

End Isr.

(** ** The per-task figures of the dashboard (main.c, [update_task_stats]) *)

Module TaskStats.

Definition configMINIMAL_STACK_SIZE : Z := 128.
Definition STACK_SIZE_MEDIUM : Z := configMINIMAL_STACK_SIZE * 4.
Definition STACK_SIZE_LARGE : Z := configMINIMAL_STACK_SIZE * 8.
Definition configTIMER_TASK_STACK_DEPTH : Z := configMINIMAL_STACK_SIZE * 2.

(** [strstr(haystack, needle) != NULL]. *)
Definition strstr (haystack needle : string) : bool :=
  match String.index 0 needle haystack with
  | Some _ => true
  | None => false
  end.

(** Lines 470-477: the stack size assumed for a task, by its name. *)
Definition stack_size_of_task (name : string) : Z :=
  if strstr name "Safety" then STACK_SIZE_LARGE
  else if strstr name "Sensor" then STACK_SIZE_MEDIUM
  else if strstr name "Anomaly" then STACK_SIZE_MEDIUM
  else if strstr name "Network" then STACK_SIZE_MEDIUM
  else if strstr name "Dashboard" then STACK_SIZE_LARGE
  else if strstr name "Tmr" then configTIMER_TASK_STACK_DEPTH
  else configMINIMAL_STACK_SIZE.

(** Lines 482-498: the stack usage of a task from its high-water mark.  The
    free words are at most 65535 and the sizes at most 1024, so the product
    by 100 fits every unsigned type of at least 32 bits. *)
Definition stack_usage_percent (name : string)
    (stack_size_words stack_free_words : Z) : Z :=
  if (stack_size_words >? 0) && (stack_free_words <=? stack_size_words) then
    let stack_used := stack_size_words - stack_free_words in
    let p := stack_used * 100 / stack_size_words in
    if p <? 5 then
      if strstr name "Safety" then 12
      else if strstr name "Sensor" then 8
      else if strstr name "Anomaly" then 15
      else if strstr name "Network" then 10
      else if strstr name "Dashboard" then 18
      else if strstr name "IDLE" then 3
      else 5
    else p
  else 5.

(** Lines 467-502: the stack check of one task of the loop. *)
Definition check_task_stack (now : Z) (name : string) (stack_free_words : Z)
    (sys : StackMonitor.StackMonitoringSystem_t)
  : StackMonitor.StackMonitoringSystem_t * list StackMonitor.StackMessage :=
  let stack_size_words := stack_size_of_task name in
  StackMonitor.update_stack_monitoring now name stack_size_words stack_free_words
    (stack_usage_percent name stack_size_words stack_free_words) sys.

End TaskStats.

(** ** The application: the tasks over the shared objects of main.c

    One [Action] is one iteration of a task's loop, run to its end between
    two releases; an execution is a sequence of actions in any order.  The
    samples delivered by the ISR queue are inputs of the sensor task's
    iteration. *)

Module App.

(** main.c: [xSensorDataQueue = xQueueCreate(5, sizeof(SensorData_t))]. *)
Definition SENSOR_QUEUE_LENGTH : nat := 5.

Record System := mkSystem {
  g_system_state : SystemState_t;
  g_thresholds : ThresholdConfig_t;
  xSystemReadyEvents : Z;
  xSensorDataQueue : list SensorData_t;
  xAnomalyAlertQueue : list AnomalyAlert_t;
  safety_state : Safety.SafetyState_t;
  safety_monitoring : bool;
  detection_state : Anomaly.DetectionState_t;
  sensor_locals : Sensor.Locals;
  anomaly_locals : AnomalyTask.Locals;
  network_cycle_count : Z;
  network_stats : Network.NetworkStats_t;
  heap_live : Z
}.

(** The state [main] leaves behind when it starts the scheduler. *)
Definition system_init (initial_free : Z) : System :=
  mkSystem (g_system_state_init initial_free) g_thresholds_init 0 [] []
    Safety.safety_state_init false Anomaly.detection_state_init
    Sensor.locals_init AnomalyTask.locals_init 0 Network.network_stats_init 0.

Inductive Action : Type :=
| RunSensor (e : Sensor.CycleEnv)
| SafetyWait (lk : bool) (now : Z)
| RunSafety (e : Safety.CycleEnv)
| RunAnomaly (e : AnomalyTask.CycleEnv)
| RunNetwork (e : NetworkTask.CycleEnv).

(** The sensor task's iteration.  Its [xQueueSend] waits up to 10 ticks for
    room in the queue; here the reading is dropped when the queue is full at
    the moment of the call. *)
Definition sensor_step (e : Sensor.CycleEnv) (s : System) : System * list EventCall :=
  let '(l, g, reading, calls) :=
    Sensor.sensor_cycle e (sensor_locals s) (g_system_state s) in
  (mkSystem g (g_thresholds s) (apply_calls (xSystemReadyEvents s) calls)
     (fst (xQueueSend SENSOR_QUEUE_LENGTH (xSensorDataQueue s) reading))
     (xAnomalyAlertQueue s) (safety_state s) (safety_monitoring s)
     (detection_state s) l (anomaly_locals s) (network_cycle_count s)
     (network_stats s) (heap_live s),
   calls).

Definition note_wait (now : Z) (g : SystemState_t) : SystemState_t :=
  let st := event_group_stats g in
  set_event_group_stats g
    (mkEventGroupStats (bits_set_count st) (bits_cleared_count st)
       (u32 (wait_operations st + 1)) (current_event_bits st) now).

(** safety_task.c, lines 183-207: [xEventGroupWaitBits] with
    xWaitForAllBits = pdTRUE and portMAX_DELAY returns once the three bits
    are set; until then the task stays blocked. *)
Definition safety_wait_step (lk : bool) (now : Z) (s : System) : System :=
  if negb (safety_monitoring s)
     && (Z.land (xSystemReadyEvents s) ALL_SYSTEMS_READY =? ALL_SYSTEMS_READY)
  then
    mkSystem (with_state_mutex lk (note_wait now) (g_system_state s))
      (g_thresholds s) (xSystemReadyEvents s) (xSensorDataQueue s)
      (xAnomalyAlertQueue s) (safety_state s) true
      (detection_state s) (sensor_locals s) (anomaly_locals s)
      (network_cycle_count s) (network_stats s) (heap_live s)
  else s.

Definition safety_step (e : Safety.CycleEnv) (s : System) : System :=
  if safety_monitoring s then
    let '(g, ss) :=
      Safety.safety_cycle e (g_thresholds s) (g_system_state s) (safety_state s) in
    mkSystem g (g_thresholds s) (xSystemReadyEvents s) (xSensorDataQueue s)
      (xAnomalyAlertQueue s) ss (safety_monitoring s)
      (detection_state s) (sensor_locals s) (anomaly_locals s)
      (network_cycle_count s) (network_stats s) (heap_live s)
  else s.

Definition anomaly_step (sqrtf : Q -> Q) (e : AnomalyTask.CycleEnv) (s : System)
  : option (System * list EventCall) :=
  '(t, calls) ←
    AnomalyTask.anomaly_cycle sqrtf e (g_thresholds s)
      (AnomalyTask.mkTaskState (anomaly_locals s) (detection_state s)
         (g_system_state s) (xSensorDataQueue s) (xAnomalyAlertQueue s));
  Some
    (mkSystem (AnomalyTask.ts_shared t) (g_thresholds s)
       (apply_calls (xSystemReadyEvents s) calls)
       (AnomalyTask.ts_sensor_queue t) (AnomalyTask.ts_alert_queue t)
       (safety_state s) (safety_monitoring s) (AnomalyTask.ts_detection t)
       (sensor_locals s) (AnomalyTask.ts_locals t) (network_cycle_count s)
       (network_stats s) (heap_live s),
     calls).

Definition network_step (e : NetworkTask.CycleEnv) (s : System)
  : System * list EventCall :=
  let '(t, calls, _) :=
    NetworkTask.network_cycle e
      (NetworkTask.mkTaskState (network_cycle_count s) (network_stats s)
         (g_system_state s) (xAnomalyAlertQueue s) (heap_live s)) in
  (mkSystem (NetworkTask.ts_shared t) (g_thresholds s)
     (apply_calls (xSystemReadyEvents s) calls)
     (xSensorDataQueue s) (NetworkTask.ts_alert_queue t)
     (safety_state s) (safety_monitoring s) (detection_state s)
     (sensor_locals s) (anomaly_locals s) (NetworkTask.ts_cycle_count t)
     (NetworkTask.ts_stats t) (NetworkTask.ts_heap_live t),
   calls).

(** One action; [None] when the anomaly task reads outside a history array. *)
Definition step (sqrtf : Q -> Q) (a : Action) (s : System)
  : option (System * list EventCall) :=
  match a with
  | RunSensor e => Some (sensor_step e s)
  | SafetyWait lk now => Some (safety_wait_step lk now s, [])
  | RunSafety e => Some (safety_step e s, [])
  | RunAnomaly e => anomaly_step sqrtf e s
  | RunNetwork e => Some (network_step e s)
  end.

(** An execution, with the calls made on the event group along it. *)
Fixpoint run (sqrtf : Q -> Q) (acts : list Action) (s : System)
  : option (System * list EventCall) :=
  match acts with
  | [] => Some (s, [])
  | a :: rest =>
      '(s1, calls1) ← step sqrtf a s;
      '(s2, calls2) ← run sqrtf rest s1;
      Some (s2, calls1 ++ calls2)
  end.

(** The anomaly task's iteration, one action and an execution with the reads
    past the histories answered: [oobs k] answers those of the [k]-th action
    of the execution.  Every execution has a result. *)
Definition anomaly_step_any (oob : Anomaly.OutOfBounds) (sqrtf : Q -> Q)
    (e : AnomalyTask.CycleEnv) (s : System) : System * list EventCall :=
  let '(t, calls) :=
    AnomalyTask.anomaly_cycle_any oob sqrtf e (g_thresholds s)
      (AnomalyTask.mkTaskState (anomaly_locals s) (detection_state s)
         (g_system_state s) (xSensorDataQueue s) (xAnomalyAlertQueue s)) in
  (mkSystem (AnomalyTask.ts_shared t) (g_thresholds s)
     (apply_calls (xSystemReadyEvents s) calls)
     (AnomalyTask.ts_sensor_queue t) (AnomalyTask.ts_alert_queue t)
     (safety_state s) (safety_monitoring s) (AnomalyTask.ts_detection t)
     (sensor_locals s) (AnomalyTask.ts_locals t) (network_cycle_count s)
     (network_stats s) (heap_live s),
   calls).

Definition step_any (oob : Anomaly.OutOfBounds) (sqrtf : Q -> Q) (a : Action)
    (s : System) : System * list EventCall :=
  match a with
  | RunSensor e => sensor_step e s
  | SafetyWait lk now => (safety_wait_step lk now s, [])
  | RunSafety e => (safety_step e s, [])
  | RunAnomaly e => anomaly_step_any oob sqrtf e s
  | RunNetwork e => network_step e s
  end.

Fixpoint run_any (oobs : nat -> Anomaly.OutOfBounds) (sqrtf : Q -> Q)
    (acts : list Action) (s : System) : System * list EventCall :=
  match acts with
  | [] => (s, [])
  | a :: rest =>
      let '(s1, calls1) := step_any (oobs O) sqrtf a s in
      let '(s2, calls2) := run_any (fun k => oobs (S k)) sqrtf rest s1 in
      (s2, calls1 ++ calls2)
  end.

(** A stand-in for the C library's [sqrt] with six decimal digits, used to
    evaluate executions. *)
Definition sqrt_6 (q : Q) : Q :=
  Qmake (Z.sqrt (Qnum q * 10 ^ 12 / Zpos (Qden q))) (10 ^ 6).

End App.

(** ** Runs and reference notions used by the properties *)

(** Lines 119-127 of [detect_anomalies] on one sample: the store and the
    recomputation of the baselines. *)
Definition append_sample (sqrtf : Q -> Q) (x : Q * Q * Q)
    (ds : Anomaly.DetectionState_t) : option Anomaly.DetectionState_t :=
  let '(vib, temp, r) := x in
  Anomaly.update_baselines sqrtf (Anomaly.store_history vib temp r ds).

(** A sequence of samples appended one detection cycle after the other. *)
Fixpoint feed_samples (sqrtf : Q -> Q) (xs : list (Q * Q * Q))
    (ds : Anomaly.DetectionState_t) : option Anomaly.DetectionState_t :=
  match xs with
  | [] => Some ds
  | x :: rest => ds' ← append_sample sqrtf x ds; feed_samples sqrtf rest ds'
  end.

(** The notions the specification words the baselines with: the arithmetic
    mean and the population standard deviation of a list of values, and the
    [n] most recent of the values appended so far (oldest first). *)
Definition arithmetic_mean (l : list Q) : Q :=
  (fold_left Qplus l 0 / inject_Z (Z.of_nat (length l)))%Q.

Definition population_stddev (sqrtf : Q -> Q) (l : list Q) : Q :=
  let m := arithmetic_mean l in
  sqrtf (fold_left (fun acc x => acc + (x - m) * (x - m)) l 0
         / inject_Z (Z.of_nat (length l)))%Q.

Definition most_recent (n : nat) (l : list Q) : list Q :=
  drop (length l - n) l.

(** The safety task released every 20 ticks, every lock acquired at once. *)
Definition prompt_cycle (now : Z) : Safety.CycleEnv :=
  Safety.mkCycleEnv true true true now (Safety.mkClearEnv true now true true true).

Definition periodic_steps (reading : SensorData_t) (n : nat)
  : list (SensorData_t * Safety.CycleEnv) :=
  map (fun k => (reading, prompt_cycle (Safety.SAFETY_CHECK_RATE_MS * Z.of_nat k)))
    (seq 1 n).

(** Vibration 11 mm/s and temperature 86 C, both above their critical
    thresholds (10 and 85); speed and current in range. *)
Definition overheated_and_shaking : SensorData_t := mkSensorData 11 86 20 50 0.


(** The three channels of a sample. *)
Definition vib_of (x : Q * Q * Q) : Q := fst (fst x).
Definition temp_of (x : Q * Q * Q) : Q := snd (fst x).
Definition rpm_of (x : Q * Q * Q) : Q := snd x.

(** The histories after the samples [ys], fewer than the capacity: the
    samples in order, then the zeros of the initialiser. *)
Definition histories_hold (ys : list (Q * Q * Q)) (ds : Anomaly.DetectionState_t)
  : Prop :=
  Anomaly.history_index ds = Z.of_nat (length ys)
  /\ Anomaly.vibration_history ds = map vib_of ys ++ replicate (100 - length ys) 0%Q
  /\ Anomaly.temperature_history ds = map temp_of ys ++ replicate (100 - length ys) 0%Q
  /\ Anomaly.rpm_history ds = map rpm_of ys ++ replicate (100 - length ys) 0%Q.

(** Baseline and spread of each channel are the mean and the population
    standard deviation of the 20 most recent samples of [ys] (of all of them
    while there are fewer). *)
Definition baselines_follow (sqrtf : Q -> Q) (ys : list (Q * Q * Q))
    (ds : Anomaly.DetectionState_t) : Prop :=
  Anomaly.vibration_baseline ds = arithmetic_mean (most_recent 20 (map vib_of ys))
  /\ Anomaly.temperature_baseline ds = arithmetic_mean (most_recent 20 (map temp_of ys))
  /\ Anomaly.rpm_baseline ds = arithmetic_mean (most_recent 20 (map rpm_of ys))
  /\ Anomaly.vibration_stddev ds
     = population_stddev sqrtf (most_recent 20 (map vib_of ys))
  /\ Anomaly.temperature_stddev ds
     = population_stddev sqrtf (most_recent 20 (map temp_of ys))
  /\ Anomaly.rpm_stddev ds
     = population_stddev sqrtf (most_recent 20 (map rpm_of ys)).

(** A steady reading, and the detector after [n] cycles of it. *)
Definition steady : Q * Q * Q := (2.5, 45, 20)%Q.

Definition steady_detector (n : nat) : option Anomaly.DetectionState_t :=
  feed_samples App.sqrt_6 (replicate n steady) Anomaly.detection_state_init.

(** The anomaly task after 25 cycles of the steady reading, when the sensor
    task has published a new reading into the shared state; [queued] tells
    whether that reading also waits in the sensor queue. *)
Definition spike_pending (vib temp r : Q) (queued : bool)
  : option AnomalyTask.TaskState :=
  let reading := mkSensorData vib temp r 50 2600 in
  ds ← steady_detector 25;
  Some (AnomalyTask.mkTaskState (AnomalyTask.mkLocals 25 true) ds
          (set_sensors (g_system_state_init 262144) reading)
          (if queued then [reading] else []) []).

Definition anomaly_env (lk_alert : bool) : AnomalyTask.CycleEnv :=
  AnomalyTask.mkCycleEnv (fun _ => true) (Anomaly.mkDetectEnv true true true true)
    true lk_alert 2600.

(** Cycle number, flags and outbound queue after the next cycle. *)
Definition spike_outcome (vib temp r : Q) (queued lk_alert : bool)
  : option (Z * bool * bool * bool * list AnomalyAlert_t) :=
  s ← spike_pending vib temp r queued;
  '(t, _) ← AnomalyTask.anomaly_cycle App.sqrt_6 (anomaly_env lk_alert)
              g_thresholds_init s;
  Some (AnomalyTask.cycle_count (AnomalyTask.ts_locals t),
        vibration_anomaly (anomalies (AnomalyTask.ts_shared t)),
        temperature_anomaly (anomalies (AnomalyTask.ts_shared t)),
        rpm_anomaly (anomalies (AnomalyTask.ts_shared t)),
        AnomalyTask.ts_alert_queue t).

(** Whether the sensor queue hands the anomaly task at least one reading. *)
Definition received (q : list SensorData_t) : bool :=
  match q with [] => false | _ => true end.

(** A dequeued ISR sample that makes the sensor task set the flag. *)
Definition raises_flag (x : SensorISRData_t * Sensor.DrainEnv) : bool :=
  fgt (isr_vibration (fst x)) 80 && Sensor.de_lk_emergency (snd x).

(** An iteration of the sensor task with the given ISR samples, no noise and
    no change of the simulation targets. *)
Definition quiet_sensor_cycle (items : list (SensorISRData_t * Sensor.DrainEnv))
  : Sensor.CycleEnv :=
  Sensor.mkCycleEnv true items true 500 500 500 1 true 99 0 0 99 0.



(** A state of the application in which the loop counter of the sensor task
    stands at 19 and no readiness bit is set yet. *)
Definition sensor_at_cycle_19 : App.System :=
  App.mkSystem (g_system_state_init 262144) g_thresholds_init 0 [] []
    Safety.safety_state_init false Anomaly.detection_state_init
    (Sensor.mkLocals 2.5 45 20 50 2.5 45 19 false) AnomalyTask.locals_init 0
    Network.network_stats_init 0.




(** Iterations of the network task: every lock acquired, the allocation
    succeeds; [r_reconnect] and [r_transmit] are the values of [rand()]. *)
Definition network_env (lk_alloc lk_free malloc_ok : bool) (r_reconnect r_transmit : Z)
  : NetworkTask.CycleEnv :=
  NetworkTask.mkCycleEnv true r_reconnect true
    (Network.mkAllocEnv malloc_ok 1000 lk_alloc 261000) 120 r_transmit true 1050
    lk_free 262144.


Definition transmission_succeeds : App.Action :=
  App.RunNetwork (network_env true true true 0 50).

Definition network_task_init : NetworkTask.TaskState :=
  NetworkTask.mkTaskState 0 Network.network_stats_init (g_system_state_init 262144) [] 0.


(** A state of the application in which the three readiness bits are set and
    the safety task has entered its loop; no alarm is raised. *)
Definition monitoring_started : App.System :=
  App.mkSystem (g_system_state_init 262144) g_thresholds_init ALL_SYSTEMS_READY [] []
    Safety.safety_state_init true Anomaly.detection_state_init
    (Sensor.mkLocals 2.5 45 20 50 2.5 45 60 true) (AnomalyTask.mkLocals 30 true) 6
    Network.network_stats_init 0.

(** Emergency-stop flag, published vibration and recorded activation tick
    after an execution. *)
Definition flag_and_vibration_after (acts : list App.Action) : option (bool * Q * Z) :=
  '(s, _) ← App.run App.sqrt_6 acts monitoring_started;
  Some (emergency_stop (App.g_system_state s),
        vibration (sensors (App.g_system_state s)),
        Safety.emergency_stop_time (App.safety_state s)).


(** The three event counters of the stack monitor. *)
Definition counters (gs : StackMonitor.StackStats_t) : Z * Z * Z :=
  (StackMonitor.warnings_issued gs, StackMonitor.high_usage_events gs,
   StackMonitor.critical_usage_events gs).

(** The monitor after the first sample of the sensor task. *)
Definition one_task (usage0 free0 : Z) : StackMonitor.StackMonitoringSystem_t :=
  fst (StackMonitor.update_stack_monitoring 1000 "SensorTask" 512 free0 usage0
         StackMonitor.stack_monitoring_init).

(** ** Further notions used by the properties of the tasks *)

(** Number of alarms that are set in [after] and were not set in [before]. *)
Definition newly_raised (before after : Safety.SafetyState_t) : Z :=
  (if negb (Safety.vibration_alarm before) && Safety.vibration_alarm after then 1 else 0)
  + (if negb (Safety.temperature_alarm before) && Safety.temperature_alarm after
     then 1 else 0)
  + (if negb (Safety.rpm_alarm before) && Safety.rpm_alarm after then 1 else 0)
  + (if negb (Safety.current_alarm before) && Safety.current_alarm after then 1 else 0).

(** Thresholds under which a reading of zero is critical for the speed only. *)
Definition zero_is_slow_only (th : ThresholdConfig_t) : Prop :=
  (0 <= vibration_critical th)%Q /\ (0 <= temperature_critical th)%Q
  /\ (0 < rpm_min th)%Q /\ (0 <= current_max th)%Q.

(** The sensor task run for a sequence of iterations; the result holds the
    calls made on the event group along the run. *)
Fixpoint sensor_run (es : list Sensor.CycleEnv) (l : Sensor.Locals)
    (g : SystemState_t) : Sensor.Locals * SystemState_t * list EventCall :=
  match es with
  | [] => (l, g, [])
  | e :: rest =>
      let '(l, g, _, calls) := Sensor.sensor_cycle e l g in
      let '(l, g, calls') := sensor_run rest l g in
      (l, g, calls ++ calls')
  end.

(** The range the simulation keeps its base values in: the temperature and
    its target between 40 and 80, the speed between 15 and 25, the current at
    most 90. *)
Definition locals_in_range (l : Sensor.Locals) : Prop :=
  (40 <= Sensor.base_temperature l <= 80)%Q
  /\ (40 <= Sensor.target_temperature l <= 80)%Q
  /\ (15 <= Sensor.base_rpm l <= 25)%Q
  /\ (Sensor.base_current l <= 90)%Q.

(** A reading whose temperature, speed and current are inside the critical
    limits with which the thresholds are initialised. *)
Definition reading_in_range (d : SensorData_t) : Prop :=
  (temperature d <= 80.1)%Q /\ (14.5 <= rpm d <= 25.5)%Q /\ (current d <= 92)%Q.

(** A projection of the shared state that looks neither at the statistics
    nor at the anomaly results. *)
Definition ignores_statistics {A} (P : SystemState_t -> A) : Prop :=
  (forall g v, P (set_mutex_stats g v) = P g)
  /\ (forall g v, P (set_anomalies g v) = P g)
  /\ (forall g v, P (set_event_group_stats g v) = P g)
  /\ (forall g v, P (set_memory_stats g v) = P g)
  /\ (forall g v, P (set_isr_stats g v) = P g).

(** The tasks whose iteration writes the sensor readings, the emergency-stop
    flag and the connection flag of the shared state. *)
Definition writes_sensors (a : App.Action) : bool :=
  match a with
  | App.RunSensor _ | App.RunAnomaly _ => true
  | _ => false
  end.

Definition writes_emergency_stop (a : App.Action) : bool :=
  match a with
  | App.RunSensor _ | App.RunSafety _ => true
  | _ => false
  end.

Definition writes_network_connected (a : App.Action) : bool :=
  match a with
  | App.RunNetwork _ => true
  | _ => false
  end.

(** The sine a sensor iteration is given lies between -1 and 1. *)
Definition plausible_sine (a : App.Action) : Prop :=
  match a with
  | App.RunSensor e => (-1 <= Sensor.cy_sin e <= 1)%Q
  | _ => True
  end.

(** An iteration of the sensor task that dequeues an ISR sample above 80 mm/s
    and acquires the lock to set the emergency stop. *)
Definition sensor_raises_flag (a : App.Action) : Prop :=
  match a with
  | App.RunSensor e => existsb raises_flag (Sensor.cy_isr_items e) = true
  | _ => False
  end.

(** What the simulated plant keeps true of the application: the thresholds
    are the initial ones, every reading published or queued is inside the
    critical limits for temperature, speed and current, and the safety task
    holds at most one alarm. *)
Definition simulated_plant (s : App.System) : Prop :=
  App.g_thresholds s = g_thresholds_init
  /\ reading_in_range (sensors (App.g_system_state s))
  /\ Forall reading_in_range (App.xSensorDataQueue s)
  /\ locals_in_range (App.sensor_locals s)
  /\ Safety.active_alarms (App.safety_state s) <= 1.

(** An action that is not a network iteration whose transmission draws a
    failure ([rand() % 100 < 5]). *)
Definition draws_success (a : App.Action) : Prop :=
  match a with
  | App.RunNetwork e => 5 <= NetworkTask.cy_rand_transmit e mod 100
  | _ => True
  end.

(** The application as [main] leaves it, as far as the start of the safety
    monitoring goes: the connection flag says connected, the network bit of
    the event group is not set, the safety task waits. *)
Definition waiting_for_network (s : App.System) : Prop :=
  network_connected (App.g_system_state s) = true
  /\ Z.testbit (App.xSystemReadyEvents s) 1 = false
  /\ App.safety_monitoring s = false.

(** Every name held by the stack monitor fits the 15 characters that
    [strncpy] copies into an entry, and the table holds at most 8 entries. *)
Definition stack_table_ok (sys : StackMonitor.StackMonitoringSystem_t) : Prop :=
  StackMonitor.monitored_count sys <= StackMonitor.MAX_STACK_MONITORED_TASKS
  /\ Forall (fun t => (String.length (StackMonitor.task_name t) <= 15)%nat)
       (StackMonitor.tasks sys).

(** A sequence of preemptions recorded one after the other; each is given
    by the tick count read, the two task names and the reason. *)
Definition stored_event (x : Z * string * string * string)
  : Preemption.PreemptionEvent_t :=
  let '(now, a, b, r) := x in
  Preemption.mkPreemptionEvent now
    (StackMonitor.strncpy a (StackMonitor.MAX_TASK_NAME_LEN - 1))
    (StackMonitor.strncpy b (StackMonitor.MAX_TASK_NAME_LEN - 1)) (Some r).

Definition record_all (xs : list (Z * string * string * string))
    (log : Preemption.PreemptionLog) : Preemption.PreemptionLog :=
  fold_left
    (fun log x => let '(now, a, b, r) := x in
                  Preemption.record_preemption now a b r log)
    xs log.

Definition shown (ev : Preemption.PreemptionEvent_t) : bool := Preemption.tick ev >? 0.

(** The latencies of the samples an iteration of the sensor task dequeues,
    the smallest of them (from the initial [UINT32_MAX]) and the number of
    samples for which the lock of the statistics is acquired. *)
Definition sample_latency (x : SensorISRData_t * Sensor.DrainEnv) : Z :=
  u32 (Sensor.de_now (snd x) - isr_timestamp (fst x)).

Definition best_latency (items : list (SensorISRData_t * Sensor.DrainEnv)) : Z :=
  fold_right Z.min UINT32_MAX (map sample_latency items).

Definition samples_counted (items : list (SensorISRData_t * Sensor.DrainEnv)) : Z :=
  Z.of_nat (length (List.filter (fun x => Sensor.de_lk_stats (snd x)) items)).

(** The anomaly task before its first iteration. *)
Definition anomaly_task_init : AnomalyTask.TaskState :=
  AnomalyTask.mkTaskState AnomalyTask.locals_init Anomaly.detection_state_init
    (g_system_state_init 262144) [] [].

(** The network task disconnected, with one alert waiting. *)
Definition disconnected_with_alert : NetworkTask.TaskState :=
  NetworkTask.mkTaskState 4 Network.network_stats_init
    (set_network_connected (g_system_state_init 262144) false)
    [mkAnomalyAlert 8 0 2600] 0.

(** The network task connected, with one alert waiting and the vibration
    anomaly flagged. *)
Definition flagged_with_alert : NetworkTask.TaskState :=
  NetworkTask.mkTaskState 0 Network.network_stats_init
    (set_anomalies (g_system_state_init 262144) (mkAnomalyResults true false false 80 3))
    [mkAnomalyAlert 8 0 2600] 0.

(** An iteration of the network task whose transmission fails and whose
    lock acquisition for the connection flag times out. *)
Definition failure_on_lock_timeout : NetworkTask.CycleEnv :=
  NetworkTask.mkCycleEnv true 0 true (Network.mkAllocEnv true 1000 true 261000)
    120 0 false 1050 true 262144.

(** A stack monitor whose table is full, and one that holds the sensor and
    the safety task. *)
Definition full_table : StackMonitor.StackMonitoringSystem_t :=
  StackMonitor.mkStackSystem
    (replicate 8 (StackMonitor.mkTaskMonitor "Worker" 128 100 100 21 21 false 0))
    (StackMonitor.mkStackStats 0 0 0 0 8 8 0 EmptyString).

Definition two_tasks : StackMonitor.StackMonitoringSystem_t :=
  fst (StackMonitor.update_stack_monitoring 1000 "SafetyTask" 1024 900 12
         (one_task 75 128)).

(** Seven preemptions as the safety and the network task record them. *)
Definition seven_preemptions : list (Z * string * string * string) :=
  [(100, "SafetyTask", "SensorTask", "Priority");
   (200, "SafetyTask", "AnomalyTask", "Priority");
   (300, "SafetyTask", "NetworkTask", "Priority");
   (400, "SafetyTask", "DashboardTask", "Priority");
   (500, "SensorTask", "NetworkTask", "Yield");
   (600, "NetworkTask", "DashboardTask", "Critical");
   (700, "SafetyTask", "ALL", "EMERGENCY")]%string.

(** Memory that reads as zero past the histories. *)
Definition zeros_beyond : Anomaly.OutOfBounds :=
  Anomaly.mkOutOfBounds (fun _ => 0%Q) (fun _ => 0%Q) (fun _ => 0%Q)
    (fun _ => 0%Q) (fun _ => 0%Q) (fun _ => 0%Q).

(** The anomaly task run for [n] iterations, every lock acquired, the reads
    past the histories finding zeros. *)
Fixpoint anomaly_cycles (n : nat) (s : AnomalyTask.TaskState) : AnomalyTask.TaskState :=
  match n with
  | O => s
  | S n' =>
      anomaly_cycles n'
        (fst (AnomalyTask.anomaly_cycle_any zeros_beyond App.sqrt_6 (anomaly_env true)
                g_thresholds_init s))
  end.

(** The anomaly task after 101 iterations without a reading in the queue,
    the shared state holding 2 mm/s, 45 C and 20 rpm all along, when the
    sensor task has published and queued a reading with a vibration of
    12 mm/s. *)
Definition late_spike_pending : AnomalyTask.TaskState :=
  let reading := mkSensorData 12 45 20 50 2600 in
  let s :=
    anomaly_cycles 101
      (AnomalyTask.mkTaskState AnomalyTask.locals_init Anomaly.detection_state_init
         (set_sensors (g_system_state_init 262144) (mkSensorData 2 45 20 50 0))
         [] []) in
  AnomalyTask.mkTaskState (AnomalyTask.ts_locals s) (AnomalyTask.ts_detection s)
    (set_sensors (AnomalyTask.ts_shared s) reading) [reading]
    (AnomalyTask.ts_alert_queue s).

(** The anomaly task after 19 iterations without a reading in the queue,
    when a reading waits in the queue. *)
Definition twentieth_sample_pending : AnomalyTask.TaskState :=
  let reading := mkSensorData 2 45 20 50 1900 in
  let s :=
    anomaly_cycles 19
      (AnomalyTask.mkTaskState AnomalyTask.locals_init Anomaly.detection_state_init
         (set_sensors (g_system_state_init 262144) (mkSensorData 2 45 20 50 0))
         [] []) in
  AnomalyTask.mkTaskState (AnomalyTask.ts_locals s) (AnomalyTask.ts_detection s)
    (AnomalyTask.ts_shared s) [reading] (AnomalyTask.ts_alert_queue s).

(** The application as [main] leaves it, the shared state holding a reading
    of 2 mm/s, 45 C, 20 rpm and 50 A. *)
Definition idle_plant : App.System :=
  App.mkSystem (set_sensors (g_system_state_init 262144) (mkSensorData 2 45 20 50 0))
    g_thresholds_init 0 [] []
    Safety.safety_state_init false Anomaly.detection_state_init
    Sensor.locals_init AnomalyTask.locals_init 0 Network.network_stats_init 0.

(** An execution that takes the anomaly task past its 100th sample: 100
    iterations without a reading in the queue, then twice an iteration of the
    sensor task followed by one of the anomaly task. *)
Definition past_the_hundredth_sample : list App.Action :=
  replicate 100 (App.RunAnomaly (anomaly_env true))
  ++ [App.RunSensor (quiet_sensor_cycle []); App.RunAnomaly (anomaly_env true);
      App.RunSensor (quiet_sensor_cycle []); App.RunAnomaly (anomaly_env true)].

(** * Properties *)

Lemma u32_small z : 0 <= z < 2 ^ 32 -> u32 z = z.
Proof. intros H. unfold u32. apply Z.mod_small. exact H. Qed.


Lemma emergency_stop_with_state_mutex_id lk g :
  emergency_stop (with_state_mutex lk (fun g => g) g) = emergency_stop g.
Proof. destruct lk; reflexivity. Qed.

Lemma emergency_stop_with_threshold_mutex lk g :
  emergency_stop (with_threshold_mutex lk g) = emergency_stop g.
Proof. destruct lk; reflexivity. Qed.

Lemma anomalies_with_state_mutex_id lk g :
  anomalies (with_state_mutex lk (fun g => g) g) = anomalies g.
Proof. destruct lk; reflexivity. Qed.

Lemma memory_stats_with_state_mutex lk f g :
  (forall g0, memory_stats (f g0) = memory_stats g0) ->
  memory_stats (with_state_mutex lk f g) = memory_stats g.
Proof. intros Hf. destruct lk; simpl; [rewrite Hf|]; reflexivity. Qed.

(** ** The safety governor *)

Section SafetyGovernor.
Import Safety.

Lemma check_critical_conditions_keeps_flag lk1 lk2 th g ss :
  emergency_stop (snd (fst (check_critical_conditions lk1 lk2 th g ss)))
  = emergency_stop g.
Proof.
  unfold check_critical_conditions.
  destruct (read_sensors lk1 g) as [[[vib temp] r] cur].
  destruct (read_thresholds lk2 th) as [[[[a b] c] d] e].
  repeat match goal with
         | |- context [alarm_block ?c ?s] => destruct (alarm_block c s) as [[? ?] ?]
         end.
  simpl. rewrite emergency_stop_with_threshold_mutex.
  apply emergency_stop_with_state_mutex_id.
Qed.

Lemma check_critical_conditions_keeps_time lk1 lk2 th g ss :
  emergency_stop_time (snd (check_critical_conditions lk1 lk2 th g ss))
  = emergency_stop_time ss.
Proof.
  unfold check_critical_conditions.
  destruct (read_sensors lk1 g) as [[[vib temp] r] cur].
  destruct (read_thresholds lk2 th) as [[[[a b] c] d] e].
  repeat match goal with
         | |- context [alarm_block ?c ?s] => destruct (alarm_block c s) as [[? ?] ?]
         end.
  reflexivity.
Qed.

(** After the check every alarm flag says whether its condition holds on the
    values read; which of the alarms are new shows in the return value only. *)
Lemma check_critical_conditions_flags lk1 lk2 th g ss :
  let '(vib, temp, r, cur) := read_sensors lk1 g in
  let '(vib_crit, temp_crit, r_min, r_max, cur_max) := read_thresholds lk2 th in
  let ss' := snd (check_critical_conditions lk1 lk2 th g ss) in
  vibration_alarm ss' = vibration_critical_now vib vib_crit
  /\ temperature_alarm ss' = temperature_critical_now temp temp_crit
  /\ rpm_alarm ss' = rpm_critical_now r r_min r_max
  /\ current_alarm ss' = current_critical_now cur cur_max.
Proof.
  unfold check_critical_conditions.
  destruct (read_sensors lk1 g) as [[[vib temp] r] cur].
  destruct (read_thresholds lk2 th) as [[[[a b] c] d] e].
  unfold alarm_block.
  destruct (vibration_critical_now vib a), (temperature_critical_now temp b),
    (rpm_critical_now r c d), (current_critical_now cur e),
    (vibration_alarm ss), (temperature_alarm ss), (rpm_alarm ss), (current_alarm ss);
    simpl; repeat split.
Qed.

(** The check reports no new alarm when every condition that holds was
    already latched. *)
Lemma check_critical_conditions_silent_when_latched lk1 lk2 th g ss :
  let '(vib, temp, r, cur) := read_sensors lk1 g in
  let '(vib_crit, temp_crit, r_min, r_max, cur_max) := read_thresholds lk2 th in
  vibration_alarm ss = vibration_critical_now vib vib_crit ->
  temperature_alarm ss = temperature_critical_now temp temp_crit ->
  rpm_alarm ss = rpm_critical_now r r_min r_max ->
  current_alarm ss = current_critical_now cur cur_max ->
  fst (fst (check_critical_conditions lk1 lk2 th g ss)) = false.
Proof.
  unfold check_critical_conditions.
  destruct (read_sensors lk1 g) as [[[vib temp] r] cur].
  destruct (read_thresholds lk2 th) as [[[[a b] c] d] e].
  intros -> -> -> ->. unfold alarm_block.
  destruct (vibration_critical_now vib a), (temperature_critical_now temp b),
    (rpm_critical_now r c d), (current_critical_now cur e); reflexivity.
Qed.

(** The hold time is respected: a clear needs more than 5000 ticks since the
    recorded activation. *)
Lemma clear_only_after_hold e th g ss :
  emergency_stop g = true ->
  emergency_stop (fst (check_emergency_clear e th g ss)) = false ->
  pdMS_TO_TICKS EMERGENCY_STOP_DURATION < u32 (ce_now e - emergency_stop_time ss).
Proof.
  intros Hon Hoff. unfold check_emergency_clear in Hoff.
  destruct (ce_lk_read e); rewrite ?Hon in Hoff.
  - destruct (Z.gtb_spec (u32 (ce_now e - emergency_stop_time ss))
                (pdMS_TO_TICKS EMERGENCY_STOP_DURATION)) as [H|H]; [exact H|].
    simpl in Hoff. congruence.
  - simpl in Hoff. congruence.
Qed.

Lemma check_emergency_clear_keeps_time e th g ss :
  emergency_stop_time (snd (check_emergency_clear e th g ss)) = emergency_stop_time ss.
Proof.
  unfold check_emergency_clear.
  destruct (if ce_lk_read e then emergency_stop g else false); [|reflexivity].
  destruct (_ >? _); [|reflexivity].
  pose proof (check_critical_conditions_keeps_time (ce_lk_state e) (ce_lk_thresholds e) th
                (with_state_mutex (ce_lk_read e) (fun g => g) g) ss) as H.
  destruct (check_critical_conditions _ _ _ _ _) as [[c g1] ss1].
  destruct c; simpl in *; exact H.
Qed.

Lemma check_emergency_clear_never_sets e th g ss :
  emergency_stop (fst (check_emergency_clear e th g ss)) = true ->
  emergency_stop g = true.
Proof.
  unfold check_emergency_clear.
  destruct (ce_lk_read e) eqn:Hlk.
  - destruct (emergency_stop g) eqn:Hg; [reflexivity|].
    simpl. intros H. rewrite Hg in H. exact H.
  - simpl. intros H. exact H.
Qed.


(** When the flag of an active emergency stop goes away: the lock for the
    read is acquired, more than 5000 ticks have passed since the recorded
    activation, the re-check reports no newly raised alarm, and the lock for
    the write is acquired. *)
Lemma check_emergency_clear_flag e th g ss :
  emergency_stop (fst (check_emergency_clear e th g ss))
  = emergency_stop g
    && negb (ce_lk_read e
             && (u32 (ce_now e - emergency_stop_time ss)
                 >? pdMS_TO_TICKS EMERGENCY_STOP_DURATION)
             && negb (fst (fst (check_critical_conditions (ce_lk_state e)
                                  (ce_lk_thresholds e) th
                                  (with_state_mutex (ce_lk_read e) (fun g => g) g) ss)))
             && ce_lk_write e).
Proof.
  unfold check_emergency_clear.
  destruct (ce_lk_read e) eqn:Hread; simpl.
  - destruct (emergency_stop g) eqn:Hg; simpl; [|exact Hg].
    destruct (_ >? _); simpl; [|exact Hg].
    pose proof (check_critical_conditions_keeps_flag (ce_lk_state e)
                  (ce_lk_thresholds e) th
                  (count_system_give (count_system_take g)) ss) as Hkeep.
    destruct (check_critical_conditions _ _ _ _ _) as [[c g1] ss1].
    simpl in *. destruct c; simpl.
    + rewrite Hkeep. exact Hg.
    + destruct (ce_lk_write e); simpl; [reflexivity|].
      rewrite Hkeep. exact Hg.
  - rewrite andb_true_r. reflexivity.
Qed.

(** C1, evaluated on the code: with vibration 11 mm/s and temperature 86 C
    held constant (both above their critical thresholds) and every lock
    acquired, the first cycle latches the emergency stop at tick 20, it is
    still set after cycle 251 (tick 5020), and cycle 252 (tick 5040) clears
    it although both conditions still hold and both alarms are still set:
    the re-check in [check_emergency_clear] uses the return value of
    [check_critical_conditions], which is true for newly raised alarms only. *)
Theorem emergency_stop_cleared_while_conditions_persist :
  let th := g_thresholds_init in
  let run n := safety_run th (periodic_steps overheated_and_shaking n)
                 (g_system_state_init 262144) safety_state_init in
  emergency_stop (fst (run 1%nat)) = true
  /\ emergency_stop_time (snd (run 1%nat)) = 20
  /\ emergency_stop (fst (run 251%nat)) = true
  /\ emergency_stop (fst (run 252%nat)) = false
  /\ vibration_critical_now (vibration (sensors (fst (run 252%nat))))
       (vibration_critical th) = true
  /\ temperature_critical_now (temperature (sensors (fst (run 252%nat))))
       (temperature_critical th) = true
  /\ active_alarms (snd (run 252%nat)) = 2.
Proof. vm_compute. repeat split. Qed.




End SafetyGovernor.

(** ** The anomaly detector: history window *)

Section AnomalyWindow.
Import Anomaly.
Variable sqrtf : Q -> Q.

Lemma mean_loop_out_of_range (arr : list Q) (start : nat) :
  forall (n i : nat) (sum : Q),
    (0 < n)%nat -> (length arr < start + i + n)%nat ->
    mean_loop arr start i n sum = None.
Proof.
  induction n as [|n IH]; intros i sum Hn Hlen; [lia|].
  simpl. destruct (arr !! (start + i)%nat) as [x|] eqn:Hx; [|reflexivity].
  apply lookup_lt_Some in Hx.
  apply IH; lia.
Qed.

Lemma mean_loop_in_range (arr : list Q) (start : nat) :
  forall (n i : nat) (sum : Q),
    (start + i + n <= length arr)%nat ->
    mean_loop arr start i n sum
    = Some (fold_left Qplus (take n (drop (start + i) arr)) sum).
Proof.
  induction n as [|n IH]; intros i sum Hlen; [reflexivity|].
  simpl. destruct (arr !! (start + i)%nat) as [x|] eqn:Hx.
  - rewrite IH by lia.
    rewrite (drop_S _ _ _ Hx). simpl.
    replace (start + S i)%nat with (S (start + i)) by lia. reflexivity.
  - apply lookup_ge_None in Hx. lia.
Qed.

Lemma store_history_index vib temp r ds :
  history_index (store_history vib temp r ds) = u32 (history_index ds + 1).
Proof. reflexivity. Qed.

Lemma store_history_length vib temp r ds :
  length (vibration_history (store_history vib temp r ds))
  = length (vibration_history ds).
Proof. unfold store_history; simpl. apply length_insert. Qed.

Lemma stddev_loop_in_range (arr : list Q) (start : nat) (mean : Q) :
  forall (n i : nat) (sum_sq : Q),
    (start + i + n <= length arr)%nat ->
    stddev_loop arr start i n mean sum_sq
    = Some (fold_left (fun acc x => acc + (x - mean) * (x - mean))%Q
              (take n (drop (start + i) arr)) sum_sq).
Proof.
  induction n as [|n IH]; intros i sum Hlen; [reflexivity|].
  simpl. destruct (arr !! (start + i)%nat) as [x|] eqn:Hx.
  - rewrite IH by lia.
    rewrite (drop_S _ _ _ Hx). simpl.
    replace (start + S i)%nat with (S (start + i)) by lia. reflexivity.
  - apply lookup_ge_None in Hx. lia.
Qed.

Lemma baseline_window_fits (h : Z) :
  0 <= h <= 100 ->
  let '(s, c) := baseline_window h in
  0 <= s /\ 0 <= c /\ s + c = h /\ (h < 20 -> s = 0) /\ (20 <= h -> c = 20).
Proof.
  intros H. unfold baseline_window, BASELINE_WINDOW.
  destruct (Z.ltb_spec h 20).
  - lia.
  - rewrite u32_small by lia. lia.
Qed.

Lemma calculate_mean_in_range arr (s n : nat) :
  (s + n <= length arr)%nat ->
  calculate_mean arr s n
  = Some (fold_left Qplus (take n (drop s arr)) 0 / inject_Z (Z.of_nat n))%Q.
Proof.
  intros H. unfold calculate_mean.
  rewrite mean_loop_in_range by lia. simpl.
  replace (s + 0)%nat with s by lia. reflexivity.
Qed.

Lemma calculate_stddev_in_range arr (s n : nat) (m : Q) :
  (s + n <= length arr)%nat ->
  calculate_stddev sqrtf arr s n m
  = Some (sqrtf (fold_left (fun acc x => acc + (x - m) * (x - m))
                   (take n (drop s arr)) 0 / inject_Z (Z.of_nat n)))%Q.
Proof.
  intros H. unfold calculate_stddev.
  rewrite stddev_loop_in_range by lia. simpl.
  replace (s + 0)%nat with s by lia. reflexivity.
Qed.


Lemma window_of_prefix (l : list Q) (k : nat) (h : Z) :
  h = Z.of_nat (length l) -> 0 < h <= 100 ->
  let '(s, c) := baseline_window h in
  take (Z.to_nat c) (drop (Z.to_nat s) (l ++ replicate k 0%Q)) = most_recent 20 l
  /\ Z.to_nat c = length (most_recent 20 l)
  /\ (Z.to_nat s + Z.to_nat c <= length l)%nat.
Proof.
  intros Hh Hr. unfold most_recent.
  pose proof (baseline_window_fits h ltac:(lia)) as Hw.
  destruct (baseline_window h) as [s c].
  destruct Hw as (Hs & Hc & Hsum & Hlt & Hge).
  rewrite length_drop.
  destruct (Z.lt_ge_cases h 20) as [Hcase|Hcase].
  - specialize (Hlt Hcase). subst s.
    replace (length l - 20)%nat with 0%nat by lia.
    replace (Z.to_nat c) with (length l) by lia.
    change (Z.to_nat 0) with 0%nat. rewrite !drop_0.
    rewrite take_app_length. split; [reflexivity|]. lia.
  - specialize (Hge Hcase). subst c.
    replace (Z.to_nat s) with (length l - 20)%nat by lia.
    rewrite drop_app_le by lia.
    split; [|lia].
    rewrite take_app_le by (rewrite length_drop; lia).
    apply take_ge. rewrite length_drop. lia.
Qed.

Lemma store_appends (l : list Q) (v : Q) (n m : nat) :
  n = length l -> m = length l -> (m < 100)%nat ->
  <[n := v]> (l ++ replicate (100 - m) 0%Q)
  = (l ++ [v]) ++ replicate (100 - S m) 0%Q.
Proof.
  intros -> -> Hlt.
  rewrite insert_app_r_alt by lia.
  rewrite Nat.sub_diag.
  replace (100 - length l)%nat with (S (100 - S (length l))) by lia.
  simpl. rewrite <- app_assoc. reflexivity.
Qed.

Lemma append_sample_before_wrap (ys : list (Q * Q * Q)) (x : Q * Q * Q)
    (ds : DetectionState_t) :
  (length ys < 100)%nat -> histories_hold ys ds ->
  exists ds', append_sample sqrtf x ds = Some ds'
              /\ histories_hold (ys ++ [x]) ds'
              /\ baselines_follow sqrtf (ys ++ [x]) ds'.
Proof.
  intros Hlen (Hidx & Hv & Ht & Hr).
  destruct x as [[v t] r].
  unfold append_sample, update_baselines.
  rewrite store_history_index, Hidx, u32_small by lia.
  set (h := Z.of_nat (length ys) + 1).
  assert (Hh : h = Z.of_nat (length (ys ++ [(v, t, r)]))).
  { rewrite length_app. simpl. lia. }
  assert (Hst : Z.to_nat (store_index (history_index ds)) = length ys).
  { unfold store_index, HISTORY_SIZE. rewrite Hidx, Z.mod_small by lia. lia. }
  assert (Hv' : vibration_history (store_history v t r ds)
                = map vib_of (ys ++ [(v, t, r)])
                  ++ replicate (100 - length (ys ++ [(v, t, r)])) 0%Q).
  { unfold store_history; simpl. rewrite Hst, Hv.
    rewrite (store_appends (map vib_of ys) _ (length ys) (length ys))
      by (rewrite ?length_map; lia).
    rewrite map_app, length_app. simpl.
    replace (length ys + 1)%nat with (S (length ys)) by lia. reflexivity. }
  assert (Ht' : temperature_history (store_history v t r ds)
                = map temp_of (ys ++ [(v, t, r)])
                  ++ replicate (100 - length (ys ++ [(v, t, r)])) 0%Q).
  { unfold store_history; simpl. rewrite Hst, Ht.
    rewrite (store_appends (map temp_of ys) _ (length ys) (length ys))
      by (rewrite ?length_map; lia).
    rewrite map_app, length_app. simpl.
    replace (length ys + 1)%nat with (S (length ys)) by lia. reflexivity. }
  assert (Hr' : rpm_history (store_history v t r ds)
                = map rpm_of (ys ++ [(v, t, r)])
                  ++ replicate (100 - length (ys ++ [(v, t, r)])) 0%Q).
  { unfold store_history; simpl. rewrite Hst, Hr.
    rewrite (store_appends (map rpm_of ys) _ (length ys) (length ys))
      by (rewrite ?length_map; lia).
    rewrite map_app, length_app. simpl.
    replace (length ys + 1)%nat with (S (length ys)) by lia. reflexivity. }
  set (zs := ys ++ [(v, t, r)]) in *.
  assert (Hzs : (length zs <= 100)%nat) by (subst zs; rewrite length_app; simpl; lia).
  pose proof (window_of_prefix (map vib_of zs) (100 - length zs) h
                ltac:(rewrite length_map; lia) ltac:(lia)) as Wv.
  pose proof (window_of_prefix (map temp_of zs) (100 - length zs) h
                ltac:(rewrite length_map; lia) ltac:(lia)) as Wt.
  pose proof (window_of_prefix (map rpm_of zs) (100 - length zs) h
                ltac:(rewrite length_map; lia) ltac:(lia)) as Wr.
  pose proof (baseline_window_fits h ltac:(lia)) as Hw.
  destruct (baseline_window h) as [s c].
  destruct Hw as (Hs & Hc & Hsum & Hwl & Hwg).
  destruct Wv as (Wv1 & Wv2 & Wv3), Wt as (Wt1 & Wt2 & Wt3), Wr as (Wr1 & Wr2 & Wr3).
  destruct (Z.gtb_spec c 0) as [_|?]; [|lia].
  rewrite Hv', Ht', Hr'.
  rewrite !calculate_mean_in_range by (rewrite length_app; lia).
  simpl.
  rewrite !calculate_stddev_in_range by (rewrite length_app; lia).
  simpl.
  eexists. split; [reflexivity|].
  split.
  - repeat split; simpl; assumption.
  - unfold baselines_follow, population_stddev, arithmetic_mean; simpl.
    rewrite Wv1, Wt1, Wr1.
    rewrite <- Wv2, <- Wt2, <- Wr2.
    repeat split; reflexivity.
Qed.


Lemma feed_samples_snoc (xs : list (Q * Q * Q)) (x : Q * Q * Q) :
  forall ds,
    feed_samples sqrtf (xs ++ [x]) ds
    = feed_samples sqrtf xs ds ≫= append_sample sqrtf x.
Proof.
  induction xs as [|y xs IH]; intros ds; simpl.
  - destruct (append_sample sqrtf x ds); reflexivity.
  - destruct (append_sample sqrtf y ds) as [ds'|]; simpl; [apply IH|reflexivity].
Qed.

Lemma histories_hold_init : histories_hold [] detection_state_init.
Proof. repeat split. Qed.

Lemma feed_samples_before_wrap (xs : list (Q * Q * Q)) :
  (length xs <= 100)%nat ->
  exists ds, feed_samples sqrtf xs detection_state_init = Some ds
             /\ histories_hold xs ds
             /\ (xs <> [] -> baselines_follow sqrtf xs ds).
Proof.
  induction xs as [|x xs IH] using rev_ind; intros Hlen.
  - exists detection_state_init. split; [reflexivity|].
    split; [apply histories_hold_init|]. intros H; contradiction.
  - rewrite length_app in Hlen. simpl in Hlen.
    destruct IH as (ds & Hfeed & Hhist & _); [lia|].
    destruct (append_sample_before_wrap xs x ds ltac:(lia) Hhist)
      as (ds' & Happ & Hhist' & Hbase').
    exists ds'. rewrite feed_samples_snoc, Hfeed. simpl.
    split; [exact Happ|]. split; [exact Hhist'|]. intros _; exact Hbase'.
Qed.


Lemma feed_samples_app (xs ys : list (Q * Q * Q)) :
  forall ds,
    feed_samples sqrtf (xs ++ ys) ds
    = feed_samples sqrtf xs ds ≫= feed_samples sqrtf ys.
Proof.
  induction xs as [|x xs IH]; intros ds; simpl.
  - destruct (feed_samples sqrtf ys ds); reflexivity.
  - destruct (append_sample sqrtf x ds) as [ds'|]; simpl; [apply IH|reflexivity].
Qed.

Lemma histories_hold_length ys ds :
  (length ys <= 100)%nat -> histories_hold ys ds ->
  length (vibration_history ds) = 100%nat.
Proof.
  intros Hlen (_ & Hv & _). rewrite Hv, length_app, length_map, length_replicate. lia.
Qed.

(** Past the capacity the window starts at [history_index - 20] and runs over
    the end of the array. *)
Lemma update_baselines_out_of_range (ds : DetectionState_t) :
  length (vibration_history ds) = 100%nat ->
  100 < history_index ds < 2 ^ 32 ->
  update_baselines sqrtf ds = None.
Proof.
  intros Hlen Hidx. unfold update_baselines, baseline_window, BASELINE_WINDOW.
  destruct (Z.ltb_spec (history_index ds) 20) as [?|_]; [lia|].
  rewrite u32_small by lia.
  change (20 >? 0) with true. cbv iota.
  unfold calculate_mean.
  rewrite (mean_loop_out_of_range (vibration_history ds)); [reflexivity|lia|].
  rewrite Hlen. lia.
Qed.

(** C2, on the code: while at most 100 samples have been appended, the
    baseline and the spread of every channel are the mean and the population
    standard deviation of the 20 most recent samples (of all of them while
    fewer than 20 exist); with the 101st sample [update_baselines] reads
    element 100 of a 100-element history, so no baseline is defined from
    then on. *)
Theorem baselines_follow_window_until_wrap_only :
  (forall xs : list (Q * Q * Q),
      (1 <= length xs <= 100)%nat ->
      exists ds, feed_samples sqrtf xs detection_state_init = Some ds
                 /\ baselines_follow sqrtf xs ds)
  /\ (forall xs : list (Q * Q * Q),
         (100 < length xs)%nat ->
         feed_samples sqrtf xs detection_state_init = None).
Proof.
  split.
  - intros xs [Hpos Hle].
    destruct (feed_samples_before_wrap xs Hle) as (ds & Hfeed & _ & Hbase).
    exists ds. split; [exact Hfeed|]. apply Hbase.
    destruct xs; [simpl in Hpos; lia|discriminate].
  - intros xs Hlen.
    rewrite <- (take_drop 100 xs), feed_samples_app.
    destruct (feed_samples_before_wrap (take 100 xs)) as (ds & Hfeed & Hhist & _).
    { rewrite length_take. lia. }
    rewrite Hfeed. simpl.
    destruct (drop 100 xs) as [|x rest] eqn:Hdrop.
    { apply (f_equal length) in Hdrop. rewrite length_drop in Hdrop. simpl in Hdrop. lia. }
    simpl. unfold append_sample. destruct x as [[v t] r].
    rewrite update_baselines_out_of_range; [reflexivity| |].
    + rewrite store_history_length.
      apply (histories_hold_length (take 100 xs)); [rewrite length_take; lia|exact Hhist].
    + rewrite store_history_index.
      destruct Hhist as (Hidx & _). rewrite Hidx, length_take.
      replace (100 `min` length xs)%nat with 100%nat by lia.
      vm_compute. split; reflexivity.
Qed.

(** C3, on the code: the index of the store step is always inside the
    history, and so is every index of the window while at most 100 samples
    have been appended; from the 101st sample on the window's last index
    [history_index - 1] is 100 or more, that element does not exist and
    [update_baselines] reads outside the array. *)
Theorem window_index_leaves_capacity_after_wrap :
  (forall h, 0 <= h -> 0 <= store_index h <= 99)
  /\ (forall h, 0 <= h <= 100 -> Forall (fun i => 0 <= i <= 99) (window_indices h))
  /\ (forall h, 100 < h < 2 ^ 32 -> In (h - 1) (window_indices h) /\ 99 < h - 1)
  /\ (forall ds, length (vibration_history ds) = 100%nat ->
                 100 < history_index ds < 2 ^ 32 ->
                 vibration_history ds !! Z.to_nat (history_index ds - 1) = None
                 /\ update_baselines sqrtf ds = None).
Proof.
  split; [|split; [|split]].
  - intros h Hh. unfold store_index, HISTORY_SIZE.
    pose proof (Z.mod_pos_bound h 100 ltac:(lia)). lia.
  - intros h Hh. unfold window_indices.
    pose proof (baseline_window_fits h Hh) as Hw.
    destruct (baseline_window h) as [s c]. destruct Hw as (Hs & Hc & Hsum & _).
    apply Forall_forall. intros i Hi.
    apply list_elem_of_In, in_map_iff in Hi. destruct Hi as (k & <- & Hk).
    apply in_seq in Hk. lia.
  - intros h Hh. split; [|lia].
    unfold window_indices, baseline_window, BASELINE_WINDOW.
    destruct (Z.ltb_spec h 20) as [?|_]; [lia|].
    rewrite u32_small by lia.
    apply in_map_iff. exists 19%nat. split; [lia|].
    apply in_seq. simpl. lia.
  - intros ds Hlen Hidx. split.
    + apply lookup_ge_None. rewrite Hlen. lia.
    + apply update_baselines_out_of_range; assumption.
Qed.

End AnomalyWindow.

(** 25 steady samples leave baselines over the last 20 of them; 101 steady
    samples leave none. *)
Lemma baselines_follow_window_until_wrap_only_witness :
  feed_samples App.sqrt_6 (replicate 101 steady) Anomaly.detection_state_init = None
  /\ exists ds, feed_samples App.sqrt_6 (replicate 25 steady) Anomaly.detection_state_init
                = Some ds
                /\ baselines_follow App.sqrt_6 (replicate 25 steady) ds.
Proof.
  destruct (baselines_follow_window_until_wrap_only App.sqrt_6) as [Hbefore Hafter].
  split.
  - apply Hafter. vm_compute. lia.
  - apply Hbefore. vm_compute. lia.
Defined.

(** The store index after 100 samples and the window at [history_index] 101. *)
Lemma window_index_leaves_capacity_after_wrap_witness :
  Anomaly.store_index 100 = 0
  /\ Anomaly.window_indices 101
     = [81; 82; 83; 84; 85; 86; 87; 88; 89; 90; 91; 92; 93; 94; 95; 96; 97; 98; 99; 100]
  /\ In 100 (Anomaly.window_indices 101).
Proof.
  destruct (window_index_leaves_capacity_after_wrap App.sqrt_6) as (_ & _ & Hout & _).
  split; [reflexivity|]. split; [reflexivity|].
  apply (Hout 101). vm_compute. split; reflexivity.
Defined.

(** ** The anomaly detector: health score *)

Section HealthScore.
Import Anomaly.
Local Open Scope Q_scope.










End HealthScore.

(** ** The anomaly detector past its histories *)

Section PastTheHistories.
Import Anomaly AnomalyTask App.
Variable sqrtf : Q -> Q.

Lemma mean_loop_refines beyond arr start : forall n i sum r,
  mean_loop arr start i n sum = Some r ->
  mean_loop_any beyond arr start i n sum = r.
Proof.
  induction n as [|n IH]; intros i sum r; simpl.
  - intros H. inversion H. reflexivity.
  - unfold read_any. destruct (arr !! (start + i)%nat) as [x|]; [|discriminate].
    apply IH.
Qed.

Lemma stddev_loop_refines beyond arr start mean : forall n i sum_sq r,
  stddev_loop arr start i n mean sum_sq = Some r ->
  stddev_loop_any beyond arr start i n mean sum_sq = r.
Proof.
  induction n as [|n IH]; intros i sum_sq r; simpl.
  - intros H. inversion H. reflexivity.
  - unfold read_any. destruct (arr !! (start + i)%nat) as [x|]; [|discriminate].
    apply IH.
Qed.

Lemma calculate_mean_refines beyond arr start size r :
  calculate_mean arr start size = Some r ->
  calculate_mean_any beyond arr start size = r.
Proof.
  unfold calculate_mean, calculate_mean_any.
  destruct (mean_loop arr start 0 size 0) as [sum|] eqn:H; simpl; [|discriminate].
  rewrite (mean_loop_refines beyond _ _ _ _ _ _ H).
  intros E. inversion E. reflexivity.
Qed.

Lemma calculate_stddev_refines beyond arr start size mean r :
  calculate_stddev sqrtf arr start size mean = Some r ->
  calculate_stddev_any sqrtf beyond arr start size mean = r.
Proof.
  unfold calculate_stddev, calculate_stddev_any.
  destruct (stddev_loop arr start 0 size mean 0) as [sum|] eqn:H; simpl; [|discriminate].
  rewrite (stddev_loop_refines beyond _ _ _ _ _ _ _ H).
  intros E. inversion E. reflexivity.
Qed.

(** Where [update_baselines] stays inside the histories, the values given
    for the reads past them play no part. *)
Lemma update_baselines_refines oob ds ds' :
  update_baselines sqrtf ds = Some ds' -> update_baselines_any oob sqrtf ds = ds'.
Proof.
  unfold update_baselines, update_baselines_any.
  destruct (baseline_window (history_index ds)) as [start_idx count].
  destruct (count >? 0); [|intros H; inversion H; reflexivity].
  destruct (calculate_mean (vibration_history ds) _ _) as [vb|] eqn:H1; simpl;
    [|discriminate].
  destruct (calculate_mean (temperature_history ds) _ _) as [tb|] eqn:H2; simpl;
    [|discriminate].
  destruct (calculate_mean (rpm_history ds) _ _) as [rb|] eqn:H3; simpl;
    [|discriminate].
  destruct (calculate_stddev _ (vibration_history ds) _ _ _) as [vs|] eqn:H4; simpl;
    [|discriminate].
  destruct (calculate_stddev _ (temperature_history ds) _ _ _) as [ts|] eqn:H5; simpl;
    [|discriminate].
  destruct (calculate_stddev _ (rpm_history ds) _ _ _) as [rs|] eqn:H6; simpl;
    [|discriminate].
  intros H. inversion H; subst. clear H.
  rewrite (calculate_mean_refines (ob_vibration_mean oob) _ _ _ _ H1).
  rewrite (calculate_mean_refines (ob_temperature_mean oob) _ _ _ _ H2).
  rewrite (calculate_mean_refines (ob_rpm_mean oob) _ _ _ _ H3).
  rewrite (calculate_stddev_refines (ob_vibration_stddev oob) _ _ _ _ _ H4).
  rewrite (calculate_stddev_refines (ob_temperature_stddev oob) _ _ _ _ _ H5).
  rewrite (calculate_stddev_refines (ob_rpm_stddev oob) _ _ _ _ _ H6).
  reflexivity.
Qed.

Lemma detect_anomalies_refines oob e th g ds r :
  detect_anomalies sqrtf e th g ds = Some r ->
  detect_anomalies_any oob sqrtf e th g ds = r.
Proof.
  unfold detect_anomalies, detect_anomalies_any.
  destruct (read_current (dt_lk_read e) g) as [[vib temp] rp].
  destruct (update_baselines sqrtf _) as [ds1|] eqn:H; simpl; [|discriminate].
  rewrite (update_baselines_refines oob _ _ H).
  intros E. inversion E. reflexivity.
Qed.

Lemma anomaly_cycle_refines oob e th s r :
  anomaly_cycle sqrtf e th s = Some r -> anomaly_cycle_any oob sqrtf e th s = r.
Proof.
  unfold anomaly_cycle, anomaly_cycle_any.
  destruct (receive_loop _ _ _ _ _) as [[n sq] g].
  destruct (detect_anomalies sqrtf _ _ _ _) as [[g1 ds]|] eqn:H; simpl; [|discriminate].
  rewrite (detect_anomalies_refines oob _ _ _ _ _ H).
  destruct (0 <? n)%nat.
  - destruct (announce_ready _ _ _ _) as [[l1 g2] cs].
    destruct (alert_block _ _ _ _ _) as [g3 aq].
    intros E. inversion E. reflexivity.
  - intros E. inversion E. reflexivity.
Qed.

Lemma step_refines oob a s r :
  step sqrtf a s = Some r -> step_any oob sqrtf a s = r.
Proof.
  destruct a as [e|lk now|e|e|e]; simpl;
    try (intros E; inversion E; reflexivity).
  unfold anomaly_step, anomaly_step_any.
  destruct (anomaly_cycle sqrtf _ _ _) as [[t calls]|] eqn:H; simpl; [|discriminate].
  rewrite (anomaly_cycle_refines oob _ _ _ _ H).
  intros E. inversion E. reflexivity.
Qed.

(** An execution in which no read leaves a history is the same execution
    whatever is given for such reads. *)
Lemma run_refines acts : forall oobs s r,
  run sqrtf acts s = Some r -> run_any oobs sqrtf acts s = r.
Proof.
  induction acts as [|a acts IH]; intros oobs s r; simpl.
  - intros E. inversion E. reflexivity.
  - destruct (step sqrtf a s) as [[s1 c1]|] eqn:H1; simpl; [|discriminate].
    rewrite (step_refines (oobs O) _ _ _ H1).
    destruct (run sqrtf acts s1) as [[s2 c2]|] eqn:H2; simpl; [|discriminate].
    rewrite (IH (fun k => oobs (S k)) _ _ H2).
    intros E. inversion E. reflexivity.
Qed.

End PastTheHistories.

(** ** The anomaly task: alerts *)

Section Alerts.
Import Anomaly AnomalyTask.

Lemma announce_ready_anomalies lk l ds g :
  anomalies (snd (fst (announce_ready lk l ds g))) = anomalies g.
Proof.
  unfold announce_ready. destruct (_ && _); [|reflexivity]. destruct lk; reflexivity.
Qed.

Lemma announce_ready_cycle lk l ds g :
  cycle_count (fst (fst (announce_ready lk l ds g))) = cycle_count l.
Proof. unfold announce_ready. destruct (_ && _); reflexivity. Qed.

Lemma alert_block_anomalies lk now cycle g q :
  anomalies (fst (alert_block lk now cycle g q)) = anomalies g.
Proof.
  unfold alert_block, prepare_alert.
  destruct (cycle mod 2 =? 0); [|reflexivity].
  destruct (lk && _); simpl; apply anomalies_with_state_mutex_id.
Qed.

(** What the alert block leaves in the outbound queue. *)
Lemma alert_block_queue lk now cycle g q :
  snd (alert_block lk now cycle g q)
  = if (cycle mod 2 =? 0) && lk
       && (vibration_anomaly (anomalies g) || temperature_anomaly (anomalies g))
    then fst (xQueueSend ALERT_QUEUE_LENGTH q
                (mkAnomalyAlert (if vibration_anomaly (anomalies g) then 8 else 5)
                   (if vibration_anomaly (anomalies g) then 0 else 1) now))
    else q.
Proof.
  unfold alert_block, prepare_alert.
  destruct (cycle mod 2 =? 0); [|reflexivity].
  destruct lk; [|reflexivity]. simpl.
  destruct (vibration_anomaly (anomalies g) || temperature_anomaly (anomalies g));
    reflexivity.
Qed.

Lemma receive_loop_count n lks : forall k q g,
  (0 < n)%nat ->
  (0 <? fst (fst (receive_loop n lks k q g)))%nat
  = (0 <? k)%nat || match q with [] => false | _ => true end.
Proof.
  induction n as [|n IH]; intros k q g Hn; [lia|].
  destruct q as [|x q]; simpl.
  - rewrite orb_false_r. reflexivity.
  - rewrite orb_true_r. destruct n as [|n].
    + reflexivity.
    + rewrite IH by lia. reflexivity.
Qed.

Lemma anomaly_cycle_alerts sqrtf e th s t calls :
  anomaly_cycle sqrtf e th s = Some (t, calls) ->
  cycle_count (ts_locals t) = u32 (cycle_count (ts_locals s) + 1)
  /\ ts_alert_queue t
     = if received (ts_sensor_queue s)
          && (cycle_count (ts_locals t) mod 2 =? 0) && cy_lk_alert e
          && (vibration_anomaly (anomalies (ts_shared t))
              || temperature_anomaly (anomalies (ts_shared t)))
       then fst (xQueueSend ALERT_QUEUE_LENGTH (ts_alert_queue s)
                   (mkAnomalyAlert
                      (if vibration_anomaly (anomalies (ts_shared t)) then 8 else 5)
                      (if vibration_anomaly (anomalies (ts_shared t)) then 0 else 1)
                      (cy_now e)))
       else ts_alert_queue s.
Proof.
  unfold anomaly_cycle.
  set (c := u32 (cycle_count (ts_locals s) + 1)). simpl.
  match goal with
  | |- context [receive_loop ?n ?a 0 ?q ?g] =>
      pose proof (receive_loop_count n a 0%nat q g) as Hn;
      destruct (receive_loop n a 0 q g) as [[k sq] g1]
  end.
  simpl in Hn.
  rewrite Hn by (destruct (c mod 2 =? 0); lia). clear Hn.
  destruct (detect_anomalies _ _ _ _ _) as [[g2 ds]|]; simpl; [|discriminate].
  fold (received (ts_sensor_queue s)).
  destruct (received (ts_sensor_queue s)).
  - match goal with
    | |- context [announce_ready ?a ?b ?c ?d] =>
        pose proof (announce_ready_anomalies a b c d) as Ha;
        pose proof (announce_ready_cycle a b c d) as Hc;
        destruct (announce_ready a b c d) as [[l1 g3] cs]
    end.
    simpl in Ha, Hc.
    match goal with
    | |- context [alert_block ?a ?b ?c ?d ?q] =>
        pose proof (alert_block_anomalies a b c d q) as Hb;
        pose proof (alert_block_queue a b c d q) as Hq;
        destruct (alert_block a b c d q) as [g4 aq]
    end.
    simpl in Hb, Hq.
    intros H. inversion H; subst. simpl.
    split; [exact Hc|].
    rewrite Hc, Hb. reflexivity.
  - intros H. inversion H; subst. simpl. split; reflexivity.
Qed.

Lemma anomaly_cycle_any_alerts oob sqrtf e th s :
  let t := fst (anomaly_cycle_any oob sqrtf e th s) in
  cycle_count (ts_locals t) = u32 (cycle_count (ts_locals s) + 1)
  /\ ts_alert_queue t
     = if received (ts_sensor_queue s)
          && (cycle_count (ts_locals t) mod 2 =? 0) && cy_lk_alert e
          && (vibration_anomaly (anomalies (ts_shared t))
              || temperature_anomaly (anomalies (ts_shared t)))
       then fst (xQueueSend ALERT_QUEUE_LENGTH (ts_alert_queue s)
                   (mkAnomalyAlert
                      (if vibration_anomaly (anomalies (ts_shared t)) then 8 else 5)
                      (if vibration_anomaly (anomalies (ts_shared t)) then 0 else 1)
                      (cy_now e)))
       else ts_alert_queue s.
Proof.
  unfold anomaly_cycle_any.
  set (c := u32 (cycle_count (ts_locals s) + 1)). simpl.
  match goal with
  | |- context [receive_loop ?n ?a 0 ?q ?g] =>
      pose proof (receive_loop_count n a 0%nat q g) as Hn;
      destruct (receive_loop n a 0 q g) as [[k sq] g1]
  end.
  simpl in Hn.
  rewrite Hn by (destruct (c mod 2 =? 0); lia). clear Hn.
  destruct (detect_anomalies_any _ _ _ _ _ _) as [g2 ds].
  fold (received (ts_sensor_queue s)).
  destruct (received (ts_sensor_queue s)).
  - match goal with
    | |- context [announce_ready ?a ?b ?c ?d] =>
        pose proof (announce_ready_anomalies a b c d) as Ha;
        pose proof (announce_ready_cycle a b c d) as Hc;
        destruct (announce_ready a b c d) as [[l1 g3] cs]
    end.
    simpl in Ha, Hc.
    match goal with
    | |- context [alert_block ?a ?b ?c ?d ?q] =>
        pose proof (alert_block_anomalies a b c d q) as Hb;
        pose proof (alert_block_queue a b c d q) as Hq;
        destruct (alert_block a b c d q) as [g4 aq]
    end.
    simpl in Hb, Hq. simpl.
    split; [exact Hc|].
    rewrite Hc, Hb. subst aq. rewrite Ha, Hc. reflexivity.
  - simpl. split; reflexivity.
Qed.

(** C8 as amended: in every even-numbered cycle of the anomaly task, in
    any state and whatever the detector reads past its histories, in which
    at least one reading was received and the state lock is acquired for the
    check, a flagged vibration or temperature anomaly makes the task send
    exactly one alert, of severity 8 when the vibration anomaly is flagged
    and 5 otherwise, appended when the outbound queue holds fewer than 3
    alerts and dropped when it is full; in an odd-numbered cycle, without a
    reading received, on a lock timeout, or with no anomaly flagged, the
    queue is left as it is. *)
Theorem alert_sent_on_even_cycles_with_data (oob : OutOfBounds) (sqrtf : Q -> Q)
    (e : CycleEnv) (th : ThresholdConfig_t) (s : TaskState) :
  let t := fst (anomaly_cycle_any oob sqrtf e th s) in
  let a := anomalies (ts_shared t) in
  let alert := mkAnomalyAlert (if vibration_anomaly a then 8 else 5)
                 (if vibration_anomaly a then 0 else 1) (cy_now e) in
  (cycle_count (ts_locals t) mod 2 = 0 -> ts_sensor_queue s <> [] ->
   cy_lk_alert e = true ->
   vibration_anomaly a = true \/ temperature_anomaly a = true ->
   ((length (ts_alert_queue s) < ALERT_QUEUE_LENGTH)%nat ->
    ts_alert_queue t = ts_alert_queue s ++ [alert])
   /\ ((ALERT_QUEUE_LENGTH <= length (ts_alert_queue s))%nat ->
       ts_alert_queue t = ts_alert_queue s))
  /\ (cycle_count (ts_locals t) mod 2 <> 0 \/ ts_sensor_queue s = []
      \/ cy_lk_alert e = false
      \/ (vibration_anomaly a = false /\ temperature_anomaly a = false
          /\ rpm_anomaly a = false) ->
      ts_alert_queue t = ts_alert_queue s).
Proof.
  intros t a alert. subst a alert.
  destruct (anomaly_cycle_any_alerts oob sqrtf e th s) as [_ Hq].
  fold t in Hq. rewrite Hq. clear Hq. split.
  - intros Heven Hdata Hlk Hflag.
    assert (Hr : received (ts_sensor_queue s) = true)
      by (destruct (ts_sensor_queue s); [contradiction|reflexivity]).
    rewrite Hr, Hlk.
    destruct (Z.eqb_spec (cycle_count (ts_locals t) mod 2) 0) as [_|?]; [|contradiction].
    assert (Hor : vibration_anomaly (anomalies (ts_shared t))
                  || temperature_anomaly (anomalies (ts_shared t)) = true)
      by (apply orb_true_iff; exact Hflag).
    rewrite Hor. simpl. unfold xQueueSend. split; intros Hlen.
    + destruct (Nat.ltb_spec (length (ts_alert_queue s)) ALERT_QUEUE_LENGTH);
        [reflexivity|lia].
    + destruct (Nat.ltb_spec (length (ts_alert_queue s)) ALERT_QUEUE_LENGTH);
        [lia|reflexivity].
  - intros [Hodd|[Hempty|[Hlk|(Hv & Ht & _)]]].
    + destruct (Z.eqb_spec (cycle_count (ts_locals t) mod 2) 0) as [?|_];
        [contradiction|].
      rewrite andb_false_r. reflexivity.
    + rewrite Hempty. reflexivity.
    + rewrite Hlk, andb_false_r. reflexivity.
    + rewrite Hv, Ht, andb_false_r. reflexivity.
Qed.

End Alerts.

(** Cycle 102 of the anomaly task, which reads past its histories (the
    iteration has no result where such a read is refused): the reading with
    a vibration of 12 mm/s is received and announced by one alert of
    severity 8. *)
Lemma alert_sent_on_even_cycles_with_data_witness :
  let s := late_spike_pending in
  let t := fst (AnomalyTask.anomaly_cycle_any zeros_beyond App.sqrt_6 (anomaly_env true)
                  g_thresholds_init s) in
  Anomaly.history_index (AnomalyTask.ts_detection s) = 101
  /\ AnomalyTask.anomaly_cycle App.sqrt_6 (anomaly_env true) g_thresholds_init s = None
  /\ AnomalyTask.cycle_count (AnomalyTask.ts_locals t) = 102
  /\ AnomalyTask.ts_alert_queue t = [mkAnomalyAlert 8 0 2600].
Proof.
  intros s t.
  split; [vm_compute; reflexivity|].
  split; [vm_compute; reflexivity|].
  split; [vm_compute; reflexivity|].
  destruct (alert_sent_on_even_cycles_with_data zeros_beyond App.sqrt_6
              (anomaly_env true) g_thresholds_init s) as [Hsend _].
  destruct Hsend as [Hfits _].
  - vm_compute. reflexivity.
  - vm_compute. discriminate.
  - reflexivity.
  - left. vm_compute. reflexivity.
  - fold t in Hfits. rewrite Hfits by (vm_compute; lia).
    vm_compute. reflexivity.
Defined.

(** C8 as stated fails: after 25 steady cycles, cycle 26 works on a reading
    with vibration 12 and flags the vibration anomaly, but sends nothing
    when no reading arrived through the queue in that cycle (every lock
    acquired), and sends nothing either when the reading arrived but the
    lock for the alert check times out. *)
Lemma flagged_anomaly_without_alert :
  spike_outcome 12 45 20 false true = Some (26, true, false, false, [])
  /\ spike_outcome 12 45 20 true false = Some (26, true, false, false, []).
Proof. vm_compute. split; reflexivity. Qed.

(** The same cycle with the reading received and the lock acquired sends the
    alert of severity 8. *)
Lemma spike_sends_alert :
  spike_outcome 12 45 20 true true
  = Some (26, true, false, false, [mkAnomalyAlert 8 0 2600]).
Proof. vm_compute. reflexivity. Qed.

(** A speed of 35 rpm (above rpm_max = 30) is flagged in the same cycle, yet
    no alert is sent: the alert check looks at the vibration and the
    temperature flag only. *)
Lemma rpm_anomaly_alone_sends_no_alert :
  spike_outcome 2.5 45 35 true true = Some (26, false, false, true, []).
Proof. vm_compute. reflexivity. Qed.

(** ** The sensor task *)

Section SensorTask.
Import Sensor.

Lemma emergency_stop_with_state_mutex_set lk v g :
  emergency_stop (with_state_mutex lk (fun g => set_emergency_stop g v) g)
  = if lk then v else emergency_stop g.
Proof. destruct lk; reflexivity. Qed.

Lemma drain_item_flag d x :
  emergency_stop (fst (fst (fst (drain_item d x))))
  = emergency_stop (fst (fst (fst d))) || raises_flag x.
Proof.
  destruct d as [[[g n] m] b], x as [item e]. unfold drain_item, raises_flag. simpl.
  destruct (fgt (isr_vibration item) 80), (de_lk_emergency e), (de_lk_stats e);
    simpl; rewrite ?orb_true_r, ?orb_false_r; reflexivity.
Qed.

Lemma drain_fold_flag items : forall d,
  emergency_stop (fst (fst (fst (fold_left drain_item items d))))
  = emergency_stop (fst (fst (fst d))) || existsb raises_flag items.
Proof.
  induction items as [|x items IH]; intros d; simpl.
  - rewrite orb_false_r. reflexivity.
  - rewrite IH, drain_item_flag, orb_assoc. reflexivity.
Qed.

Lemma announce_calibration_flag lk l g :
  emergency_stop (snd (fst (announce_calibration lk l g))) = emergency_stop g.
Proof.
  unfold announce_calibration.
  destruct (negb (sensors_calibrated l) && (cycle_count l >=? 20)); [|reflexivity].
  destruct lk; reflexivity.
Qed.

Lemma sensor_cycle_flag e l g :
  emergency_stop (snd (fst (fst (sensor_cycle e l g))))
  = emergency_stop g || existsb raises_flag (cy_isr_items e).
Proof.
  unfold sensor_cycle.
  match goal with
  | |- context [announce_calibration ?a ?b ?c] =>
      pose proof (announce_calibration_flag a b c) as Ha;
      destruct (announce_calibration a b c) as [[l1 g1] calls]
  end.
  simpl in Ha.
  unfold drain_isr_queue.
  match goal with
  | |- context [fold_left drain_item ?a ?b] =>
      pose proof (drain_fold_flag a b) as Hd;
      destruct (fold_left drain_item a b) as [[[g2 n] m] b2]
  end.
  simpl in Hd. simpl.
  destruct (cy_lk_publish e), (n >? 0), (cy_lk_latency e); simpl;
    rewrite Hd, Ha; reflexivity.
Qed.

End SensorTask.

(** ** Executions of the application *)

Section Application.
Import App.

(** C6 as amended: in an iteration of the sensor task, a drained ISR sample
    with vibration above 80.0 for which the task acquires the state lock
    makes it set the shared emergency-stop flag itself, whatever the alarms
    of the safety governor are; the iteration leaves the governor's state
    (alarm flags, alarm counter, recorded activation tick) as it was.  When
    the lock acquisition times out for every such sample, the flag keeps its
    value. *)
Theorem sensor_task_sets_emergency_stop_directly (e : Sensor.CycleEnv) (s : System) :
  let s' := fst (sensor_step e s) in
  safety_state s' = safety_state s
  /\ (Exists (fun x => fgt (isr_vibration (fst x)) 80 = true
                       /\ Sensor.de_lk_emergency (snd x) = true)
        (Sensor.cy_isr_items e) ->
      emergency_stop (g_system_state s') = true)
  /\ (Forall (fun x => fgt (isr_vibration (fst x)) 80 = true ->
                       Sensor.de_lk_emergency (snd x) = false)
        (Sensor.cy_isr_items e) ->
      emergency_stop (g_system_state s') = emergency_stop (g_system_state s)).
Proof.
  intros s'. subst s'. unfold sensor_step.
  pose proof (sensor_cycle_flag e (sensor_locals s) (g_system_state s)) as H.
  destruct (Sensor.sensor_cycle e (sensor_locals s) (g_system_state s))
    as [[[l g] reading] calls].
  simpl in *. split; [reflexivity|]. rewrite H. split.
  - intros Hex. apply orb_true_iff. right. apply existsb_exists.
    apply Exists_exists in Hex. destruct Hex as (x & Hin & Hv & Hl).
    exists x. split; [apply list_elem_of_In; exact Hin|].
    unfold raises_flag. rewrite Hv, Hl. reflexivity.
  - intros Hall.
    replace (existsb raises_flag (Sensor.cy_isr_items e)) with false;
      [apply orb_false_r|].
    symmetry. apply not_true_is_false. intros Hex.
    apply existsb_exists in Hex. destruct Hex as (x & Hin & Hx).
    rewrite Forall_forall in Hall. specialize (Hall x (proj2 (list_elem_of_In _ _) Hin)).
    unfold raises_flag in Hx. apply andb_true_iff in Hx. destruct Hx as [Hv Hl].
    rewrite (Hall Hv) in Hl. discriminate.
Qed.


(** A sample of 81 drained with the lock acquired sets the flag in a system
    without any alarm. *)
Lemma sensor_task_sets_emergency_stop_directly_witness :
  let e := quiet_sensor_cycle [(mkSensorISRData 81 0 0, Sensor.mkDrainEnv 1 true true)] in
  let s := system_init 262144 in
  Safety.active_alarms (safety_state s) = 0
  /\ emergency_stop (g_system_state (fst (sensor_step e s))) = true
  /\ safety_state (fst (sensor_step e s)) = safety_state s.
Proof.
  intros e s.
  destruct (sensor_task_sets_emergency_stop_directly e s) as (Hsafe & Hset & _).
  split; [reflexivity|]. split; [|exact Hsafe].
  apply Hset. apply Exists_cons_hd. split; reflexivity.
Defined.

(** C6 as stated fails: a sample with vibration 81 is drained, the lock
    acquisition times out, and the flag is not set. *)
Lemma sample_above_80_lost_on_lock_timeout :
  let e := quiet_sensor_cycle [(mkSensorISRData 81 0 0, Sensor.mkDrainEnv 1 false true)] in
  let s := system_init 262144 in
  fgt 81 80 = true
  /\ emergency_stop (g_system_state (fst (sensor_step e s))) = false.
Proof. vm_compute. split; reflexivity. Qed.

(** The flag set by the sensor task carries no activation tick: with the
    recorded tick still 0 at tick 6120, the next safety cycle finds the hold
    time elapsed, raises the vibration alarm in its own check, finds no newer
    alarm in the re-check and clears the flag 20 ticks after it was set,
    with the vibration still at 81. *)
Lemma flag_set_by_sensor_task_cleared_at_once :
  let shock := RunSensor (quiet_sensor_cycle
                            [(mkSensorISRData 81 6099 0, Sensor.mkDrainEnv 6100 true true)]) in
  flag_and_vibration_after [shock] = Some (true, 81%Q, 0)
  /\ flag_and_vibration_after [shock; RunSafety (prompt_cycle 6120)]
     = Some (false, 81%Q, 0).
Proof. vm_compute. split; reflexivity. Qed.

(** *** Readiness bits *)





Lemma announce_calibration_cases lk l g :
  let r := Sensor.announce_calibration lk l g in
  (snd r = [] /\ Sensor.sensors_calibrated (fst (fst r)) = Sensor.sensors_calibrated l)
  \/ (snd r = [SetBits SENSORS_CALIBRATED_BIT]
      /\ Sensor.sensors_calibrated l = false
      /\ Sensor.sensors_calibrated (fst (fst r)) = true).
Proof.
  unfold Sensor.announce_calibration.
  destruct (Sensor.sensors_calibrated l) eqn:Hc; simpl.
  - left. split; [reflexivity|exact Hc].
  - destruct (Sensor.cycle_count l >=? 20); simpl.
    + right. repeat split.
    + left. split; [reflexivity|exact Hc].
Qed.

Lemma sensor_cycle_calls e l g :
  let r := Sensor.sensor_cycle e l g in
  (snd r = [] /\ Sensor.sensors_calibrated (fst (fst (fst r))) = Sensor.sensors_calibrated l)
  \/ (snd r = [SetBits SENSORS_CALIBRATED_BIT]
      /\ Sensor.sensors_calibrated l = false
      /\ Sensor.sensors_calibrated (fst (fst (fst r))) = true).
Proof.
  unfold Sensor.sensor_cycle.
  match goal with
  | |- context [Sensor.announce_calibration ?a ?b ?c] =>
      pose proof (announce_calibration_cases a b c) as Ha;
      destruct (Sensor.announce_calibration a b c) as [[l1 g1] calls]
  end.
  destruct (Sensor.drain_isr_queue _ _ _) as [[[g2 n] m] b2].
  simpl in *. exact Ha.
Qed.



Lemma announce_ready_cases lk l ds g :
  let r := AnomalyTask.announce_ready lk l ds g in
  (snd r = []
   /\ AnomalyTask.anomaly_ready (fst (fst r)) = AnomalyTask.anomaly_ready l)
  \/ (snd r = [SetBits ANOMALY_READY_BIT]
      /\ AnomalyTask.anomaly_ready l = false
      /\ AnomalyTask.anomaly_ready (fst (fst r)) = true).
Proof.
  unfold AnomalyTask.announce_ready.
  destruct (AnomalyTask.anomaly_ready l) eqn:Hc; simpl.
  - left. split; [reflexivity|exact Hc].
  - destruct (Anomaly.history_index ds >=? Anomaly.BASELINE_WINDOW); simpl.
    + right. repeat split.
    + left. split; [reflexivity|exact Hc].
Qed.

Lemma anomaly_cycle_any_calls oob sqrtf e th s :
  let r := AnomalyTask.anomaly_cycle_any oob sqrtf e th s in
  (snd r = []
   /\ AnomalyTask.anomaly_ready (AnomalyTask.ts_locals (fst r))
      = AnomalyTask.anomaly_ready (AnomalyTask.ts_locals s))
  \/ (snd r = [SetBits ANOMALY_READY_BIT]
      /\ AnomalyTask.anomaly_ready (AnomalyTask.ts_locals s) = false
      /\ AnomalyTask.anomaly_ready (AnomalyTask.ts_locals (fst r)) = true).
Proof.
  unfold AnomalyTask.anomaly_cycle_any.
  destruct (AnomalyTask.receive_loop _ _ _ _ _) as [[n sq] g].
  destruct (Anomaly.detect_anomalies_any _ _ _ _ _ _) as [g1 ds].
  destruct (0 <? n)%nat.
  - match goal with
    | |- context [AnomalyTask.announce_ready ?a ?b ?c ?d] =>
        pose proof (announce_ready_cases a b c d) as Ha;
        destruct (AnomalyTask.announce_ready a b c d) as [[l1 g2] cs]
    end.
    destruct (AnomalyTask.alert_block _ _ _ _ _) as [g3 aq].
    simpl in *. exact Ha.
  - simpl. left. split; reflexivity.
Qed.

















End Application.

(** ** The network task: packet accounting *)

Section PacketAccounting.
Import Network NetworkTask.


Lemma transmit_packet_memory r lk now size ns g :
  memory_stats (snd (fst (transmit_packet r lk now size ns g))) = memory_stats g.
Proof.
  unfold transmit_packet. destruct (r mod 100 >=? 5); simpl; [reflexivity|].
  apply memory_stats_with_state_mutex. intros; reflexivity.
Qed.





End PacketAccounting.

(** ** The stack monitor *)

Section StackHysteresis.
Import StackMonitor.
Local Open Scope string_scope.

Lemma find_monitor_bound l name : forall i0 i,
  find_monitor l name i0 = Some i -> (i0 <= i < i0 + length l)%nat.
Proof.
  induction l as [|t l IH]; intros i0 i; simpl; [discriminate|].
  destruct (strncmp_eq (task_name t) name MAX_TASK_NAME_LEN).
  - intros H. inversion H. lia.
  - intros H. apply IH in H. lia.
Qed.

Lemma update_monitor_cases now name free usage t gs :
  let r := update_monitor now name free usage t gs in
  let t' := fst (fst r) in
  let gs' := snd (fst r) in
  let msgs := snd r in
  (warning_issued t = false -> 85 <= usage ->
     warning_issued t' = true
     /\ counters gs' = (u32 (warnings_issued gs + 1), high_usage_events gs,
                        u32 (critical_usage_events gs + 1))
     /\ msgs = [StackCritical name usage free])
  /\ (warning_issued t = false -> 70 <= usage < 85 ->
     warning_issued t' = true
     /\ counters gs' = (u32 (warnings_issued gs + 1), u32 (high_usage_events gs + 1),
                        critical_usage_events gs)
     /\ msgs = [StackWarning name usage free])
  /\ (warning_issued t = false -> usage < 70 ->
     warning_issued t' = false /\ counters gs' = counters gs /\ msgs = [])
  /\ (warning_issued t = true -> 60 <= usage ->
     warning_issued t' = true /\ counters gs' = counters gs /\ msgs = [])
  /\ (warning_issued t = true -> usage < 60 ->
     warning_issued t' = false /\ counters gs' = counters gs
     /\ msgs = [StackRecovery name usage]).
Proof.
  unfold update_monitor, counters.
  destruct (warning_issued t); simpl;
    destruct (Z.geb_spec usage 85), (Z.geb_spec usage 70), (Z.ltb_spec usage 60);
    simpl; repeat split; intros; try reflexivity; try discriminate; try lia.
Qed.


(** What one check does to the entry of a registered task, by the state of
    its warning latch and the usage found: with the latch clear, a usage of
    85% or more counts a critical event, one from 70% to 84% a high-usage
    event, each with one warning, and sets the latch; with the latch set
    nothing is counted, whatever the usage; a usage below 60% resets the
    latch. *)
Lemma registered_task_check_cases (now : Z) (name : string)
    (size free usage : Z) (sys : StackMonitoringSystem_t) (i : nat)
    (t : TaskStackMonitor_t) :
  find_monitor (tasks sys) name 0 = Some i ->
  tasks sys !! i = Some t ->
  let r := update_stack_monitoring now name size free usage sys in
  let gs := global_stats sys in
  let gs' := global_stats (fst r) in
  exists t', tasks (fst r) !! i = Some t'
  /\ (warning_issued t = false -> 85 <= usage ->
       warning_issued t' = true
       /\ counters gs' = (u32 (warnings_issued gs + 1), high_usage_events gs,
                          u32 (critical_usage_events gs + 1))
       /\ snd r = [StackCritical name usage free])
  /\ (warning_issued t = false -> 70 <= usage < 85 ->
       warning_issued t' = true
       /\ counters gs' = (u32 (warnings_issued gs + 1), u32 (high_usage_events gs + 1),
                          critical_usage_events gs)
       /\ snd r = [StackWarning name usage free])
  /\ (warning_issued t = false -> usage < 70 ->
       warning_issued t' = false /\ counters gs' = counters gs /\ snd r = [])
  /\ (warning_issued t = true -> 60 <= usage ->
       warning_issued t' = true /\ counters gs' = counters gs /\ snd r = [])
  /\ (warning_issued t = true -> usage < 60 ->
       warning_issued t' = false /\ counters gs' = counters gs
       /\ snd r = [StackRecovery name usage]).
Proof.
  intros Hfind Hlook r gs gs'. subst r gs gs'.
  unfold update_stack_monitoring. rewrite Hfind, Hlook.
  pose proof (update_monitor_cases now name free usage t
                (count_check (global_stats sys))) as H.
  destruct (update_monitor now name free usage t (count_check (global_stats sys)))
    as [[t' gs'] msgs].
  simpl in *. exists t'. split.
  - apply list_lookup_insert_eq. apply lookup_lt_Some in Hlook. exact Hlook.
  - exact H.
Qed.

(** C9, the divergence: [critical_usage_events] is documented in
    system_state.h as the times the stack exceeded 85%, and an escalation to
    critical is to be counted at 85%.  The branch that counts it is guarded
    by the same latch as the branch for 70%: once the warning latch of a
    task is set, a check that finds its usage at 85% or more prints nothing,
    counts no critical event, leaves the other counters as they are and keeps
    the latch set. *)
Theorem critical_usage_not_counted_while_latched (now : Z) (name : string)
    (size free usage : Z) (sys : StackMonitoringSystem_t) (i : nat)
    (t : TaskStackMonitor_t) :
  find_monitor (tasks sys) name 0 = Some i ->
  tasks sys !! i = Some t ->
  warning_issued t = true ->
  85 <= usage ->
  let r := update_stack_monitoring now name size free usage sys in
  snd r = []
  /\ critical_usage_events (global_stats (fst r))
     = critical_usage_events (global_stats sys)
  /\ counters (global_stats (fst r)) = counters (global_stats sys)
  /\ exists t', tasks (fst r) !! i = Some t' /\ warning_issued t' = true.
Proof.
  intros Hfind Hlook Hlatch Husage r.
  destruct (registered_task_check_cases now name size free usage sys i t Hfind Hlook)
    as (t' & Ht' & _ & _ & _ & Hset & _).
  destruct (Hset Hlatch ltac:(lia)) as (Hw & Hc & Hm).
  fold r in Ht', Hw, Hc, Hm.
  split; [exact Hm|]. split; [|split; [exact Hc|exists t'; split; assumption]].
  unfold counters in Hc. congruence.
Qed.

(** The sensor task at 75% and then at 90% of its stack: the second check
    counts nothing. *)
Lemma critical_usage_not_counted_while_latched_witness :
  let r := update_stack_monitoring 2000 "SensorTask" 512 51 90 (one_task 75 128) in
  counters (global_stats (one_task 75 128)) = (1, 1, 0)
  /\ snd r = []
  /\ critical_usage_events (global_stats (fst r)) = 0.
Proof.
  intros r.
  destruct (critical_usage_not_counted_while_latched 2000 "SensorTask" 512 51 90
              (one_task 75 128) 0%nat
              (mkTaskMonitor "SensorTask" 512 128 128 75 75 true 1000))
    as (Hm & Hc & _).
  - reflexivity.
  - reflexivity.
  - reflexivity.
  - lia.
  - split; [reflexivity|]. split; [exact Hm|]. fold r in Hc. rewrite Hc. reflexivity.
Defined.

(** A rise to 75% followed by a fall to 55%: one warning, one recovery. *)
Lemma rise_to_75_then_fall_to_55 :
  let r := feed_usage "SensorTask" 512 [(1000, 128, 75); (2000, 230, 55)]
             stack_monitoring_init in
  snd r = [StackWarning "SensorTask" 75 128; StackRecovery "SensorTask" 55]
  /\ counters (global_stats (fst r)) = (1, 1, 0).
Proof. vm_compute. split; reflexivity. Qed.

(** Oscillating between 65% and 75% repeats no warning. *)
Lemma oscillation_between_65_and_75 :
  let r := feed_usage "SensorTask" 512
             [(1000, 128, 75); (2000, 179, 65); (3000, 128, 75); (4000, 179, 65);
              (5000, 128, 75)] stack_monitoring_init in
  snd r = [StackWarning "SensorTask" 75 128]
  /\ counters (global_stats (fst r)) = (1, 1, 0).
Proof. vm_compute. split; reflexivity. Qed.

(** A task whose usage rises through 75%, 90%, 95%, 99% and 100% gets the
    one warning of the first sample and no critical event is counted, while
    a task whose first sample is at 90% is counted as critical. *)
Lemma escalation_to_critical_not_counted :
  let rising := feed_usage "SensorTask" 512
                  [(1000, 128, 75); (2000, 51, 90); (3000, 25, 95); (4000, 5, 99);
                   (5000, 0, 100)] stack_monitoring_init in
  let direct := feed_usage "SensorTask" 512 [(1000, 51, 90)] stack_monitoring_init in
  snd rising = [StackWarning "SensorTask" 75 128]
  /\ counters (global_stats (fst rising)) = (1, 1, 0)
  /\ critical_usage_events (global_stats (fst rising)) = 0
  /\ snd direct = [StackCritical "SensorTask" 90 51]
  /\ counters (global_stats (fst direct)) = (1, 0, 1).
Proof. vm_compute. repeat split. Qed.

End StackHysteresis.

(** * Further properties of the tasks *)

Lemma u32_add_idemp a b : u32 (u32 a + b) = u32 (a + b).
Proof. unfold u32. apply Zplus_mod_idemp_l. Qed.

Lemma fgt_false_of_le a b : (a <= b)%Q -> fgt a b = false.
Proof.
  intros H. unfold fgt. apply negb_false_iff. apply Qle_bool_iff. exact H.
Qed.

Lemma flt_true_of_lt a b : (a < b)%Q -> flt a b = true.
Proof.
  intros H. unfold flt. apply negb_true_iff.
  destruct (Qle_bool b a) eqn:E; [|reflexivity].
  apply Qle_bool_iff in E. exfalso. apply (Qlt_not_le _ _ H E).
Qed.

Section SafetyEdges.
Import Safety.

(** X1: [check_critical_conditions] returns true exactly when it set an
    alarm that was not set before, and the alarm counter grows by the number
    of alarms newly set (and is left alone when there is none). *)
Theorem check_counts_newly_raised_alarms (lk1 lk2 : bool) (th : ThresholdConfig_t)
    (g : SystemState_t) (ss : SafetyState_t) :
  let r := check_critical_conditions lk1 lk2 th g ss in
  let k := newly_raised ss (snd r) in
  fst (fst r) = (0 <? k)
  /\ alarm_count (snd r) = if k =? 0 then alarm_count ss else u32 (alarm_count ss + k).
Proof.
  unfold check_critical_conditions.
  destruct (read_sensors lk1 g) as [[[vib temp] r] cur].
  destruct (read_thresholds lk2 th) as [[[[a b] c] d] e].
  unfold alarm_block, newly_raised.
  destruct (vibration_critical_now vib a), (temperature_critical_now temp b),
    (rpm_critical_now r c d), (current_critical_now cur e),
    (vibration_alarm ss), (temperature_alarm ss), (rpm_alarm ss), (current_alarm ss);
    cbn [negb andb fst snd alarm_count vibration_alarm temperature_alarm rpm_alarm current_alarm Z.add Z.eqb Z.ltb Z.compare Pos.add Pos.succ Pos.compare Pos.compare_cont];
    (split; [reflexivity|]); try reflexivity;
    repeat (rewrite <- !Z.add_assoc; rewrite u32_add_idemp);
    f_equal; lia.
Qed.

(** X2: when the acquisition of the state lock times out, the check works on
    readings of zero: under thresholds for which zero is too slow a speed
    (the initial ones and the fallback ones are such) the speed alarm is set
    and the other three alarms are cleared, whatever the published readings
    are. *)
Theorem lock_timeout_raises_speed_alarm (lk2 : bool) (th : ThresholdConfig_t)
    (g : SystemState_t) (ss : SafetyState_t) :
  zero_is_slow_only th ->
  let ss' := snd (check_critical_conditions false lk2 th g ss) in
  rpm_alarm ss' = true /\ vibration_alarm ss' = false
  /\ temperature_alarm ss' = false /\ current_alarm ss' = false.
Proof.
  intros (Hv & Ht & Hr & Hc).
  pose proof (check_critical_conditions_flags false lk2 th g ss) as H.
  simpl in H.
  unfold read_thresholds in H.
  destruct lk2.
  - destruct H as (H1 & H2 & H3 & H4). simpl.
    rewrite H1, H2, H3, H4.
    unfold vibration_critical_now, temperature_critical_now, rpm_critical_now,
      current_critical_now.
    rewrite (flt_true_of_lt _ _ Hr), (fgt_false_of_le _ _ Hv),
      (fgt_false_of_le _ _ Ht), (fgt_false_of_le _ _ Hc).
    repeat split.
  - destruct H as (H1 & H2 & H3 & H4). simpl.
    rewrite H1, H2, H3, H4. repeat split.
Qed.

Lemma lock_timeout_raises_speed_alarm_witness :
  let ss' := snd (check_critical_conditions false true g_thresholds_init
                    (g_system_state_init 262144) safety_state_init) in
  rpm_alarm ss' = true /\ vibration_alarm ss' = false
  /\ temperature_alarm ss' = false /\ current_alarm ss' = false.
Proof.
  apply (lock_timeout_raises_speed_alarm true g_thresholds_init
           (g_system_state_init 262144) safety_state_init).
  unfold zero_is_slow_only. simpl.
  split; [lra|]. split; [lra|]. split; lra.
Defined.

Lemma check_and_trigger_keeps_set_flag e th g ss :
  emergency_stop g = true ->
  emergency_stop (fst (check_and_trigger e th g ss)) = true.
Proof.
  intros Hg. unfold check_and_trigger.
  pose proof (check_critical_conditions_keeps_flag (cy_lk_state e)
                (cy_lk_thresholds e) th g ss) as Hk.
  destruct (check_critical_conditions _ _ _ _ _) as [[c g1] ss1].
  simpl in Hk. destruct c; [|simpl; congruence].
  destruct (active_alarms ss1 >=? 2); [|simpl; congruence].
  unfold trigger_emergency_stop. simpl.
  destruct (cy_lk_trigger e); simpl; [reflexivity|congruence].
Qed.

(** X3: a safety cycle that finds the emergency stop set and leaves it
    cleared has read, in its clear check, a tick count more than 5000 ticks
    past the recorded activation tick. *)
Theorem safety_cycle_clears_only_after_hold (e : CycleEnv) (th : ThresholdConfig_t)
    (g : SystemState_t) (ss : SafetyState_t) :
  emergency_stop g = true ->
  emergency_stop (fst (safety_cycle e th g ss)) = false ->
  5000 < u32 (ce_now (cy_clear e) - emergency_stop_time (snd (safety_cycle e th g ss))).
Proof.
  intros Hon Hoff. unfold safety_cycle in *.
  pose proof (check_and_trigger_keeps_set_flag e th g ss Hon) as Hk.
  destruct (check_and_trigger e th g ss) as [g1 ss1]. simpl in Hk.
  rewrite check_emergency_clear_keeps_time.
  apply (clear_only_after_hold (cy_clear e) th g1 ss1 Hk Hoff).
Qed.

Lemma safety_cycle_clears_only_after_hold_witness :
  let g := set_emergency_stop (g_system_state_init 262144) true in
  5000 < u32 (ce_now (cy_clear (prompt_cycle 6000))
              - emergency_stop_time
                  (snd (safety_cycle (prompt_cycle 6000) g_thresholds_init g
                          safety_state_init))).
Proof.
  intros g. apply safety_cycle_clears_only_after_hold; vm_compute; reflexivity.
Defined.

End SafetyEdges.

Section SafetyTrigger.
Import Safety.

(** X4: the safety task sets the emergency stop only on two alarms.  A
    cycle that finds the flag clear and leaves it set has seen its check
    report a newly raised alarm with at least two alarms active, has acquired
    the lock for the write, and has recorded the tick count read by the
    trigger as activation time. *)
Theorem emergency_stop_set_only_with_two_alarms (e : CycleEnv)
    (th : ThresholdConfig_t) (g : SystemState_t) (ss : SafetyState_t) :
  emergency_stop g = false ->
  emergency_stop (fst (safety_cycle e th g ss)) = true ->
  let checked := check_critical_conditions (cy_lk_state e) (cy_lk_thresholds e) th g ss in
  fst (fst checked) = true
  /\ 2 <= active_alarms (snd checked)
  /\ cy_lk_trigger e = true
  /\ emergency_stop_time (snd (safety_cycle e th g ss)) = cy_trigger_now e.
Proof.
  intros Hoff Hon. cbv zeta.
  unfold safety_cycle, check_and_trigger in *.
  pose proof (check_critical_conditions_keeps_flag (cy_lk_state e)
                (cy_lk_thresholds e) th g ss) as Hk.
  destruct (check_critical_conditions _ _ _ g ss) as [[c g1] ss1].
  cbn [fst snd] in *.
  destruct c.
  - destruct (Z.geb_spec (active_alarms ss1) 2) as [Hge|Hlt].
    + unfold trigger_emergency_stop in *.
      rewrite check_emergency_clear_keeps_time.
      apply check_emergency_clear_never_sets in Hon.
      destruct (cy_lk_trigger e); [repeat split; assumption|].
      simpl in Hon. congruence.
    + apply check_emergency_clear_never_sets in Hon. congruence.
  - apply check_emergency_clear_never_sets in Hon. congruence.
Qed.

Lemma emergency_stop_set_only_with_two_alarms_witness :
  let e := prompt_cycle 20 in
  let g := set_sensors (g_system_state_init 262144) overheated_and_shaking in
  let checked := check_critical_conditions (cy_lk_state e) (cy_lk_thresholds e)
                   g_thresholds_init g safety_state_init in
  fst (fst checked) = true
  /\ 2 <= active_alarms (snd checked)
  /\ cy_lk_trigger e = true
  /\ emergency_stop_time (snd (safety_cycle e g_thresholds_init g safety_state_init))
     = cy_trigger_now e.
Proof.
  intros e g.
  apply emergency_stop_set_only_with_two_alarms; vm_compute; reflexivity.
Defined.

End SafetyTrigger.

(** ** The simulation of the sensor task *)

Section SensorSimulation.
Import Sensor.

Lemma rand_fraction_bounds (r : Z) :
  (0 <= inject_Z (r mod 1000) <= 999)%Q.
Proof.
  pose proof (Z.mod_pos_bound r 1000 ltac:(lia)) as H.
  split.
  - change 0%Q with (inject_Z 0). rewrite <- Zle_Qle. lia.
  - change 999%Q with (inject_Z 999). rewrite <- Zle_Qle. lia.
Qed.

Lemma read_sensor_with_noise_bounds (r : Z) (base_value noise_level : Q) :
  (0 <= noise_level)%Q ->
  (base_value - noise_level <= read_sensor_with_noise r base_value noise_level
   <= base_value + noise_level)%Q.
Proof.
  intros Hn. unfold read_sensor_with_noise.
  pose proof (rand_fraction_bounds r) as [H0 H1].
  set (x := inject_Z (r mod 1000)) in *. clearbody x.
  assert (E : (x / 1000 == x * (1 # 1000))%Q) by reflexivity.
  rewrite E. clear E.
  assert (Hlo : (0 <= (x * (1 # 1000) - 0.5 + 0.5) * noise_level)%Q)
    by (apply Qmult_le_0_compat; [lra|exact Hn]).
  assert (Hhi : (0 <= (0.5 - (x * (1 # 1000) - 0.5)) * noise_level)%Q)
    by (apply Qmult_le_0_compat; [lra|exact Hn]).
  split; lra.
Qed.

(** X5: [read_sensor_with_noise] stays within [noise_level] of the base
    value, whatever [rand()] returns. *)
Theorem read_sensor_with_noise_within_noise_level (r : Z) (base_value noise_level : Q) :
  (0 <= noise_level)%Q ->
  (base_value - noise_level <= read_sensor_with_noise r base_value noise_level
   <= base_value + noise_level)%Q.
Proof. apply read_sensor_with_noise_bounds. Qed.

Lemma read_sensor_with_noise_within_noise_level_witness :
  (45 - 0.1 <= read_sensor_with_noise 250 45 0.1 <= 45 + 0.1)%Q.
Proof. apply read_sensor_with_noise_within_noise_level. lra. Defined.

Lemma simulate_drift_bounds (cur target rate : Q) :
  (0 <= rate <= 1)%Q ->
  ((cur <= target -> cur <= simulate_drift cur target rate <= target)
   /\ (target <= cur -> target <= simulate_drift cur target rate <= cur))%Q.
Proof.
  intros [H0 H1]. unfold simulate_drift.
  split; intros H.
  - assert (Ha : (0 <= (target - cur) * rate)%Q)
      by (apply Qmult_le_0_compat; lra).
    assert (Hb : (0 <= (target - cur) * (1 - rate))%Q)
      by (apply Qmult_le_0_compat; lra).
    split; lra.
  - assert (Ha : (0 <= (cur - target) * rate)%Q)
      by (apply Qmult_le_0_compat; lra).
    assert (Hb : (0 <= (cur - target) * (1 - rate))%Q)
      by (apply Qmult_le_0_compat; lra).
    split; lra.
Qed.

(** X6: [simulate_drift] with a rate between 0 and 1 moves the value towards
    the target without passing it. *)
Theorem simulate_drift_stays_between (cur target rate : Q) :
  (0 <= rate <= 1)%Q ->
  ((cur <= target -> cur <= simulate_drift cur target rate <= target)
   /\ (target <= cur -> target <= simulate_drift cur target rate <= cur))%Q.
Proof. apply simulate_drift_bounds. Qed.

Lemma simulate_drift_stays_between_witness :
  ((2.5 <= 9 -> 2.5 <= simulate_drift 2.5 9 0.02 <= 9)
   /\ (9 <= 2.5 -> 9 <= simulate_drift 2.5 9 0.02 <= 2.5))%Q.
Proof. apply simulate_drift_stays_between. split; lra. Defined.

End SensorSimulation.

Section SensorCycle.
Import Sensor.

Lemma drain_fold_vibration items : forall d : DrainState,
  snd (fold_left drain_item items d)
  = match last items with
    | Some x => isr_vibration (fst x)
    | None => snd d
    end.
Proof.
  induction items as [|x rest IH]; intros d; [reflexivity|].
  simpl fold_left. rewrite IH, last_cons.
  destruct (last rest); [reflexivity|].
  destruct d as [[[g n] m] b], x as [i e]. reflexivity.
Qed.

Lemma drain_fold_sensors items : forall d : DrainState,
  sensors (fst (fst (fst (fold_left drain_item items d))))
  = sensors (fst (fst (fst d))).
Proof.
  induction items as [|x rest IH]; intros d; [reflexivity|].
  simpl fold_left. rewrite IH.
  destruct d as [[[g n] m] b], x as [i e]. simpl.
  destruct (fgt (isr_vibration i) 80), (de_lk_emergency e), (de_lk_stats e);
    reflexivity.
Qed.

Lemma sensor_cycle_locals e l g :
  let l' := fst (fst (fst (sensor_cycle e l g))) in
  cycle_count l' = u32 (cycle_count l + 1)
  /\ sensors_calibrated l'
     = sensors_calibrated l || (u32 (cycle_count l + 1) >=? 20)
  /\ base_rpm l' = (15 + (cy_sin e * 0.5 + 0.5) * 10)%Q
  /\ base_current l' = (40 + (15 + (cy_sin e * 0.5 + 0.5) * 10) * 2)%Q
  /\ base_temperature l'
     = simulate_drift (base_temperature l) (target_temperature l') 0.01
  /\ (target_temperature l' = target_temperature l
      \/ target_temperature l'
         = (40 + inject_Z (cy_rand_target_temperature e mod 400) / 10)%Q).
Proof.
  unfold sensor_cycle, announce_calibration. cbn [cycle_count sensors_calibrated negb].
  destruct (sensors_calibrated l); cbn [negb andb orb];
    [|destruct (u32 (cycle_count l + 1) >=? 20)];
    destruct (drain_isr_queue _ _ _) as [[[g2 n] m] b2];
    cbn [fst snd cycle_count sensors_calibrated base_rpm base_current
           base_temperature target_temperature];
    (repeat split; try reflexivity);
    destruct ((u32 (cycle_count l + 1) mod 50 =? 0) && (cy_rand_change e mod 100 <? 30));
    auto.
Qed.

Lemma sensor_cycle_event_calls e l g :
  snd (sensor_cycle e l g)
  = if negb (sensors_calibrated l) && (u32 (cycle_count l + 1) >=? 20)
    then [SetBits SENSORS_CALIBRATED_BIT] else [].
Proof.
  unfold sensor_cycle, announce_calibration. cbn [cycle_count sensors_calibrated negb].
  destruct (sensors_calibrated l); cbn [negb andb orb];
    [|destruct (u32 (cycle_count l + 1) >=? 20)];
    destruct (drain_isr_queue _ _ _) as [[[g2 n] m] b2]; reflexivity.
Qed.

Lemma announce_calibration_sensors lk l g :
  sensors (snd (fst (announce_calibration lk l g))) = sensors g.
Proof.
  unfold announce_calibration.
  destruct (negb (sensors_calibrated l) && (cycle_count l >=? 20)); [|reflexivity].
  destruct lk; reflexivity.
Qed.

Lemma announce_calibration_base lk l g :
  let l' := fst (fst (announce_calibration lk l g)) in
  base_vibration l' = base_vibration l
  /\ base_temperature l' = base_temperature l
  /\ base_rpm l' = base_rpm l
  /\ base_current l' = base_current l.
Proof.
  unfold announce_calibration.
  destruct (negb (sensors_calibrated l) && (cycle_count l >=? 20));
    repeat split.
Qed.

Lemma sensor_cycle_reading (e : CycleEnv) (l : Locals) (g : SystemState_t) :
  let r := sensor_cycle e l g in
  let reading := snd (fst r) in
  vibration reading
  = match last (cy_isr_items e) with
    | Some x => isr_vibration (fst x)
    | None => base_vibration l
    end
  /\ temperature reading
     = read_sensor_with_noise (cy_rand_temperature e) (base_temperature l)
         TEMPERATURE_DRIFT
  /\ rpm reading = read_sensor_with_noise (cy_rand_rpm e) (base_rpm l) RPM_VARIATION
  /\ current reading = read_sensor_with_noise (cy_rand_current e) (base_current l) 2
  /\ timestamp reading = cy_now e
  /\ sensors (snd (fst (fst r))) = if cy_lk_publish e then reading else sensors g.
Proof.
  unfold sensor_cycle.
  match goal with
  | |- context [announce_calibration ?a ?b ?c] =>
      pose proof (announce_calibration_sensors a b c) as Hs;
      pose proof (announce_calibration_base a b c) as (Hv & Ht & Hr & Hc);
      destruct (announce_calibration a b c) as [[l1 g1] calls]
  end.
  cbn [fst snd base_vibration base_temperature base_rpm base_current] in *.
  unfold drain_isr_queue.
  match goal with
  | |- context [fold_left drain_item ?a ?b] =>
      pose proof (drain_fold_vibration a b) as Hd;
      pose proof (drain_fold_sensors a b) as Hq;
      destruct (fold_left drain_item a b) as [[[g2 n] m] b2]
  end.
  cbn [fst snd] in *.
  rewrite Hd, Hv, Ht, Hr, Hc.
  repeat split.
  destruct (cy_lk_publish e), (n >? 0), (cy_lk_latency e); cbn;
    try reflexivity; rewrite ?Hq, ?Hs; reflexivity.
Qed.

(** X7: the reading an iteration of the sensor task hands to the queue
    carries the vibration of the last ISR sample dequeued in the iteration
    (the samples before it are dropped), and the base vibration when the ISR
    queue was empty; the other channels are the base values with noise.  The
    shared state holds that reading when the lock was acquired and its old
    one otherwise. *)
Theorem sensor_reading_carries_last_isr_sample (e : CycleEnv) (l : Locals)
    (g : SystemState_t) :
  let r := sensor_cycle e l g in
  let reading := snd (fst r) in
  vibration reading
  = match last (cy_isr_items e) with
    | Some x => isr_vibration (fst x)
    | None => base_vibration l
    end
  /\ temperature reading
     = read_sensor_with_noise (cy_rand_temperature e) (base_temperature l)
         TEMPERATURE_DRIFT
  /\ rpm reading = read_sensor_with_noise (cy_rand_rpm e) (base_rpm l) RPM_VARIATION
  /\ current reading = read_sensor_with_noise (cy_rand_current e) (base_current l) 2
  /\ timestamp reading = cy_now e
  /\ sensors (snd (fst (fst r))) = if cy_lk_publish e then reading else sensors g.
Proof. apply sensor_cycle_reading. Qed.

Lemma sensor_run_calibrated es : forall l g,
  sensors_calibrated l = true -> snd (sensor_run es l g) = [].
Proof.
  induction es as [|e rest IH]; intros l g Hc; [reflexivity|].
  simpl.
  pose proof (sensor_cycle_locals e l g) as (_ & Hcal & _).
  pose proof (sensor_cycle_event_calls e l g) as Hcalls.
  destruct (sensor_cycle e l g) as [[[l1 g1] rd] calls].
  cbn [fst snd] in *. rewrite Hc in *. simpl in Hcal, Hcalls.
  specialize (IH l1 g1 Hcal).
  destruct (sensor_run rest l1 g1) as [[l2 g2] calls2].
  simpl in *. subst. reflexivity.
Qed.

Lemma sensor_run_counting es : forall (k : nat) l g,
  sensors_calibrated l = false -> cycle_count l = Z.of_nat k -> (k < 20)%nat ->
  snd (sensor_run es l g)
  = if (k + length es <? 20)%nat then [] else [SetBits SENSORS_CALIBRATED_BIT].
Proof.
  induction es as [|e rest IH]; intros k l g Hc Hk Hlt.
  - simpl. rewrite Nat.add_0_r.
    destruct (Nat.ltb_spec k 20); [reflexivity|lia].
  - simpl.
    pose proof (sensor_cycle_locals e l g) as (Hcnt & Hcal & _).
    pose proof (sensor_cycle_event_calls e l g) as Hcalls.
    destruct (sensor_cycle e l g) as [[[l1 g1] rd] calls].
    cbn [fst snd] in *. rewrite Hc, Hk in *.
    assert (Hu : u32 (Z.of_nat k + 1) = Z.of_nat (S k))
      by (rewrite u32_small; lia).
    rewrite Hu in *. cbn [negb andb orb] in *.
    destruct (Z.geb_spec (Z.of_nat (S k)) 20) as [Hge|Hsmall].
    + pose proof (sensor_run_calibrated rest l1 g1 Hcal) as Hrest.
      destruct (sensor_run rest l1 g1) as [[l2 g2] calls2].
      simpl in *. subst.
      destruct (Nat.ltb_spec (k + S (length rest)) 20); [lia|reflexivity].
    + specialize (IH (S k) l1 g1 Hcal Hcnt ltac:(lia)).
      destruct (sensor_run rest l1 g1) as [[l2 g2] calls2].
      simpl in *. subst.
      replace (k + S (length rest))%nat with (S (k + length rest)) by lia.
      reflexivity.
Qed.

(** X8: from its initial state the sensor task announces its calibration in
    its twentieth iteration and in no other one: a run of fewer than twenty
    iterations makes no call on the event group, a longer run makes exactly
    the one call that sets the sensor bit. *)
Theorem calibration_announced_in_twentieth_iteration (es : list CycleEnv)
    (g : SystemState_t) :
  snd (sensor_run es locals_init g)
  = if (length es <? 20)%nat then [] else [SetBits SENSORS_CALIBRATED_BIT].
Proof.
  apply (sensor_run_counting es 0 locals_init g); [reflexivity|reflexivity|lia].
Qed.

Lemma sensor_cycle_range (e : CycleEnv) (l : Locals) (g : SystemState_t) :
  (-1 <= cy_sin e <= 1)%Q -> locals_in_range l ->
  locals_in_range (fst (fst (fst (sensor_cycle e l g))))
  /\ reading_in_range (snd (fst (sensor_cycle e l g))).
Proof.
  intros [Hs0 Hs1] ((Ht0 & Ht1) & (Hg0 & Hg1) & (Hr0 & Hr1) & Hc).
  pose proof (sensor_cycle_locals e l g) as (_ & _ & Hrpm & Hcur & Htemp & Htarget).
  pose proof (sensor_cycle_reading e l g)
    as (_ & Hrt & Hrr & Hrc & _).
  cbv zeta in *.
  split.
  - unfold locals_in_range. rewrite Hrpm, Hcur, Htemp.
    assert (Htg : (40 <= target_temperature (fst (fst (fst (sensor_cycle e l g))))
                   <= 80)%Q).
    { destruct Htarget as [->| ->]; [split; assumption|].
      pose proof (Z.mod_pos_bound (cy_rand_target_temperature e) 400 ltac:(lia)) as Hm.
      set (z := cy_rand_target_temperature e mod 400) in *.
      assert (H0 : (0 <= inject_Z z)%Q)
        by (change 0%Q with (inject_Z 0); rewrite <- Zle_Qle; lia).
      assert (H1 : (inject_Z z <= 399)%Q)
        by (change 399%Q with (inject_Z 399); rewrite <- Zle_Qle; lia).
      clearbody z.
      assert (E : (inject_Z z / 10 == inject_Z z * (1 # 10))%Q) by reflexivity.
      rewrite E. split; lra. }
    set (tg := target_temperature (fst (fst (fst (sensor_cycle e l g))))) in *.
    clearbody tg.
    pose proof (simulate_drift_bounds (base_temperature l) tg 0.01
                  ltac:(split; lra)) as [Hup Hdown].
    repeat split; lra.
  - unfold reading_in_range. rewrite Hrt, Hrr, Hrc.
    pose proof (read_sensor_with_noise_bounds (cy_rand_temperature e)
                  (base_temperature l) TEMPERATURE_DRIFT ltac:(unfold TEMPERATURE_DRIFT; lra))
      as [_ Ha].
    pose proof (read_sensor_with_noise_bounds (cy_rand_rpm e)
                  (base_rpm l) RPM_VARIATION ltac:(unfold RPM_VARIATION; lra))
      as [Hb0 Hb1].
    pose proof (read_sensor_with_noise_bounds (cy_rand_current e)
                  (base_current l) 2 ltac:(lra)) as [_ Hd].
    unfold TEMPERATURE_DRIFT, RPM_VARIATION in *.
    repeat split; lra.
Qed.

(** X9: while the base values are in the simulation's range and the sine
    the task computes lies between -1 and 1, an iteration keeps them in the
    range and hands over a reading whose temperature is at most 80.1, whose
    speed is between 14.5 and 25.5 and whose current is at most 92. *)
Theorem sensor_cycle_keeps_simulated_range (e : CycleEnv) (l : Locals)
    (g : SystemState_t) :
  (-1 <= cy_sin e <= 1)%Q -> locals_in_range l ->
  locals_in_range (fst (fst (fst (sensor_cycle e l g))))
  /\ reading_in_range (snd (fst (sensor_cycle e l g))).
Proof. apply sensor_cycle_range. Qed.

Lemma sensor_cycle_keeps_simulated_range_witness :
  let r := sensor_cycle (quiet_sensor_cycle []) locals_init (g_system_state_init 262144) in
  locals_in_range (fst (fst (fst r))) /\ reading_in_range (snd (fst r)).
Proof.
  intros r. apply sensor_cycle_keeps_simulated_range.
  - simpl. split; lra.
  - unfold locals_in_range. simpl.
    split; [split; lra|]. split; [split; lra|]. split; [split; lra|lra].
Defined.

End SensorCycle.

Section SensorDrain.
Import Sensor.

Lemma fold_right_min_assoc a m l :
  fold_right Z.min (Z.min a m) l = Z.min a (fold_right Z.min m l).
Proof. induction l as [|x l IH]; simpl; [reflexivity|]. rewrite IH. lia. Qed.

Lemma isr_stats_with_state_mutex lk f g :
  (forall g0, isr_stats (f g0) = isr_stats g0) ->
  isr_stats (with_state_mutex lk f g) = isr_stats g.
Proof. intros Hf. destruct lk; simpl; [rewrite Hf|]; reflexivity. Qed.

Lemma drain_fold_account items : forall (g : SystemState_t) (n m : Z) (b : Q),
  0 <= processed_count (isr_stats g) < 2 ^ 32 ->
  let d := fold_left drain_item items (g, n, m, b) in
  snd (fst (fst d)) = n + Z.of_nat (length items)
  /\ snd (fst d) = fold_right Z.min m (map sample_latency items)
  /\ processed_count (isr_stats (fst (fst (fst d))))
     = u32 (processed_count (isr_stats g) + samples_counted items)
  /\ interrupt_count (isr_stats (fst (fst (fst d)))) = interrupt_count (isr_stats g)
  /\ last_latency_us (isr_stats (fst (fst (fst d)))) = last_latency_us (isr_stats g).
Proof.
  induction items as [|x rest IH]; intros g n m b Hp.
  - cbv zeta. cbn [fold_left fst snd map fold_right length].
    unfold samples_counted. cbn [List.filter length].
    change (Z.of_nat 0) with 0. rewrite !Z.add_0_r, u32_small by exact Hp.
    repeat split.
  - cbv zeta. simpl fold_left.
    destruct x as [i e].
    set (g1 := if fgt (isr_vibration i) 80
               then with_state_mutex (de_lk_emergency e)
                      (fun g => set_emergency_stop g true) g
               else g).
    assert (Hg1 : isr_stats g1 = isr_stats g).
    { unfold g1. destruct (fgt (isr_vibration i) 80); [|reflexivity].
      apply isr_stats_with_state_mutex. reflexivity. }
    set (g2 := with_state_mutex (de_lk_stats e) count_processed g1).
    assert (Hg2 : processed_count (isr_stats g2)
                  = (if de_lk_stats e then u32 (processed_count (isr_stats g) + 1)
                     else processed_count (isr_stats g))
                  /\ interrupt_count (isr_stats g2) = interrupt_count (isr_stats g)
                  /\ last_latency_us (isr_stats g2) = last_latency_us (isr_stats g)).
    { unfold g2. destruct (de_lk_stats e); cbn; rewrite Hg1; repeat split. }
    destruct Hg2 as (Hpc & Hic & Hll).
    assert (Hrange : 0 <= processed_count (isr_stats g2) < 2 ^ 32).
    { rewrite Hpc. destruct (de_lk_stats e); [|exact Hp].
      unfold u32. apply Z.mod_pos_bound. lia. }
    change (drain_item (g, n, m, b) (i, e))
      with (g2, n + 1,
            (if u32 (de_now e - isr_timestamp i) <? m
             then u32 (de_now e - isr_timestamp i) else m),
            isr_vibration i).
    specialize (IH g2 (n + 1)
                  (if u32 (de_now e - isr_timestamp i) <? m
                   then u32 (de_now e - isr_timestamp i) else m)
                  (isr_vibration i) Hrange).
    cbv zeta in IH. destruct IH as (H1 & H2 & H3 & H4 & H5).
    rewrite H1, H2, H3, H4, H5, Hic, Hll.
    repeat split.
    + simpl length. lia.
    + simpl. change (sample_latency (i, e)) with (u32 (de_now e - isr_timestamp i)).
      set (lat := u32 (de_now e - isr_timestamp i)).
      replace (if lat <? m then lat else m) with (Z.min lat m)
        by (destruct (Z.ltb_spec lat m); lia).
      apply fold_right_min_assoc.
    + rewrite Hpc. unfold samples_counted. simpl List.filter.
      destruct (de_lk_stats e); simpl length.
      * rewrite u32_add_idemp. f_equal. lia.
      * reflexivity.
Qed.

(** X10: the sensor task's account of the interrupt samples.  An iteration
    dequeues every sample, counts as processed those for which it acquires
    the lock of the statistics, never touches the interrupt counter, and,
    when it dequeued a sample and acquires the lock for the latency, reports
    250 microseconds if the smallest latency is at most one tick and that
    latency times 1000 otherwise. *)
Theorem sensor_task_accounts_for_interrupt_samples (e : CycleEnv) (l : Locals)
    (g : SystemState_t) :
  0 <= processed_count (isr_stats g) < 2 ^ 32 ->
  let s' := isr_stats (snd (fst (fst (sensor_cycle e l g)))) in
  let items := cy_isr_items e in
  processed_count s' = u32 (processed_count (isr_stats g) + samples_counted items)
  /\ interrupt_count s' = interrupt_count (isr_stats g)
  /\ last_latency_us s'
     = if (0 <? length items)%nat && cy_lk_latency e
       then (if best_latency items <=? 1 then 250 else u32 (best_latency items * 1000))
       else last_latency_us (isr_stats g).
Proof.
  intros Hp. cbv zeta. unfold sensor_cycle.
  match goal with
  | |- context [announce_calibration ?a ?b ?c] =>
      assert (Ha : isr_stats (snd (fst (announce_calibration a b c))) = isr_stats g);
      [unfold announce_calibration;
       destruct (negb _ && _); [|reflexivity];
       apply isr_stats_with_state_mutex; reflexivity|];
      destruct (announce_calibration a b c) as [[l1 g1] calls]
  end.
  cbn [fst snd] in Ha. unfold drain_isr_queue.
  rewrite <- Ha in Hp.
  pose proof (drain_fold_account (cy_isr_items e) g1 0 UINT32_MAX (base_vibration l1) Hp)
    as H.
  cbv zeta in H.
  destruct (fold_left drain_item _ _) as [[[g2 n] m] b2].
  cbn [fst snd] in H. destruct H as (Hn & Hm & Hpc & Hic & Hll).
  fold (best_latency (cy_isr_items e)) in Hm.
  cbn [fst snd].
  rewrite isr_stats_with_state_mutex by reflexivity.
  rewrite Ha in Hpc, Hic, Hll.
  subst n m.
  destruct (cy_isr_items e) as [|x rest] eqn:Hitems.
  - cbn [length]. change (0 + Z.of_nat 0 >? 0) with false.
    cbn. rewrite Hpc, Hic, Hll. repeat split.
  - assert (Hpos : (0 + Z.of_nat (length (x :: rest)) >? 0) = true)
      by (simpl length; apply Z.gtb_lt; lia).
    rewrite Hpos. cbn [length Nat.ltb Nat.leb andb].
    destruct (cy_lk_latency e); cbn; rewrite ?Hpc, ?Hic, ?Hll; repeat split.
Qed.

Lemma sensor_task_accounts_for_interrupt_samples_witness :
  let e := quiet_sensor_cycle [(mkSensorISRData 3 90 0, mkDrainEnv 95 true true)] in
  let s' := isr_stats (snd (fst (fst (sensor_cycle e locals_init
                                        (g_system_state_init 262144))))) in
  processed_count s' = 1 /\ last_latency_us s' = 5000.
Proof.
  intros e s'.
  destruct (sensor_task_accounts_for_interrupt_samples e locals_init
              (g_system_state_init 262144)) as (Hp & _ & Hl).
  - vm_compute. split; [discriminate|reflexivity].
  - subst s'. split; [exact Hp|exact Hl].
Defined.

End SensorDrain.

(** ** Which task writes which field *)

Lemma sensors_ignores_statistics : ignores_statistics sensors.
Proof. repeat split. Qed.

Lemma emergency_stop_ignores_statistics : ignores_statistics emergency_stop.
Proof. repeat split. Qed.

Lemma network_connected_ignores_statistics : ignores_statistics network_connected.
Proof. repeat split. Qed.

Section Frames.
Context {A : Type} (P : SystemState_t -> A) (HP : ignores_statistics P).

Lemma with_state_mutex_frame lk f g :
  (forall g0, P (f g0) = P g0) -> P (with_state_mutex lk f g) = P g.
Proof.
  destruct HP as (Hm & _). intros Hf.
  unfold with_state_mutex, count_system_give, count_system_take, count_system_timeout.
  destruct lk; rewrite ?Hm, ?Hf, ?Hm; reflexivity.
Qed.

Lemma with_threshold_mutex_frame lk g : P (with_threshold_mutex lk g) = P g.
Proof.
  destruct HP as (Hm & _).
  unfold with_threshold_mutex, count_threshold_give, count_threshold_take,
    count_threshold_timeout.
  destruct lk; rewrite ?Hm; reflexivity.
Qed.

Lemma note_bits_set_frame bits g : P (note_bits_set bits g) = P g.
Proof. destruct HP as (_ & _ & He & _). apply He. Qed.

Lemma note_bits_cleared_frame bits g : P (note_bits_cleared bits g) = P g.
Proof. destruct HP as (_ & _ & He & _). apply He. Qed.

Lemma check_critical_conditions_frame lk1 lk2 th g ss :
  P (snd (fst (Safety.check_critical_conditions lk1 lk2 th g ss))) = P g.
Proof.
  unfold Safety.check_critical_conditions.
  destruct (Safety.read_sensors lk1 g) as [[[vib temp] r] cur].
  destruct (Safety.read_thresholds lk2 th) as [[[[a b] c] d] e].
  repeat match goal with
         | |- context [Safety.alarm_block ?c ?s] =>
             destruct (Safety.alarm_block c s) as [[? ?] ?]
         end.
  simpl. rewrite with_threshold_mutex_frame.
  apply with_state_mutex_frame. reflexivity.
Qed.

Lemma safety_cycle_frame e th g ss :
  (forall g0 v, P (set_emergency_stop g0 v) = P g0) ->
  P (fst (Safety.safety_cycle e th g ss)) = P g.
Proof.
  intros Hset. unfold Safety.safety_cycle, Safety.check_and_trigger.
  pose proof (check_critical_conditions_frame (Safety.cy_lk_state e)
                (Safety.cy_lk_thresholds e) th g ss) as H1.
  destruct (Safety.check_critical_conditions _ _ _ g ss) as [[c g1] ss1].
  simpl in H1.
  assert (H2 : forall p : SystemState_t * Safety.SafetyState_t,
             P (fst p) = P g ->
             P (fst (let '(g0, ss0) := p in
                     Safety.check_emergency_clear (Safety.cy_clear e) th g0 ss0)) = P g).
  { intros [g2 ss2] Hg2. simpl in Hg2. unfold Safety.check_emergency_clear.
    set (g3 := with_state_mutex _ (fun g => g) g2).
    assert (Hg3 : P g3 = P g)
      by (unfold g3; rewrite with_state_mutex_frame; [exact Hg2|reflexivity]).
    clearbody g3.
    destruct (if Safety.ce_lk_read (Safety.cy_clear e) then emergency_stop g2 else false);
      [|exact Hg3].
    destruct (_ >? _); [|exact Hg3].
    pose proof (check_critical_conditions_frame
                  (Safety.ce_lk_state (Safety.cy_clear e))
                  (Safety.ce_lk_thresholds (Safety.cy_clear e)) th g3 ss2) as H3.
    destruct (Safety.check_critical_conditions _ _ _ g3 ss2) as [[c4 g4] ss4].
    simpl in H3. destruct c4; simpl; [congruence|].
    rewrite with_state_mutex_frame; [congruence|]. intros g0. apply Hset. }
  apply H2.
  destruct c; [|exact H1].
  destruct (Safety.active_alarms ss1 >=? 2); [|exact H1].
  unfold Safety.trigger_emergency_stop. simpl.
  rewrite with_state_mutex_frame; [exact H1|]. intros g0. apply Hset.
Qed.

Lemma announce_calibration_frame lk l g :
  P (snd (fst (Sensor.announce_calibration lk l g))) = P g.
Proof.
  unfold Sensor.announce_calibration.
  destruct (negb (Sensor.sensors_calibrated l) && (Sensor.cycle_count l >=? 20));
    [|reflexivity].
  simpl. apply with_state_mutex_frame. intros g0. apply note_bits_set_frame.
Qed.

Lemma drain_fold_frame items :
  (forall g0 v, P (set_emergency_stop g0 v) = P g0) ->
  forall d : Sensor.DrainState,
    P (fst (fst (fst (fold_left Sensor.drain_item items d)))) = P (fst (fst (fst d))).
Proof.
  intros Hset. induction items as [|x rest IH]; intros d; [reflexivity|].
  simpl fold_left. rewrite IH.
  destruct d as [[[g n] m] b], x as [i e]. simpl.
  rewrite with_state_mutex_frame.
  - destruct (fgt (isr_vibration i) 80); [|reflexivity].
    apply with_state_mutex_frame. intros g0. apply Hset.
  - intros g0. unfold Sensor.count_processed. destruct HP as (_ & _ & _ & _ & Hi).
    apply Hi.
Qed.

Lemma sensor_cycle_frame e l g :
  (forall g0 v, P (set_emergency_stop g0 v) = P g0) ->
  (forall g0 v, P (set_sensors g0 v) = P g0) ->
  P (snd (fst (fst (Sensor.sensor_cycle e l g)))) = P g.
Proof.
  intros Hstop Hsens. unfold Sensor.sensor_cycle.
  match goal with
  | |- context [Sensor.announce_calibration ?a ?b ?c] =>
      pose proof (announce_calibration_frame a b c) as Ha;
      destruct (Sensor.announce_calibration a b c) as [[l1 g1] calls]
  end.
  simpl in Ha. unfold Sensor.drain_isr_queue.
  match goal with
  | |- context [fold_left Sensor.drain_item ?a ?b] =>
      pose proof (drain_fold_frame a Hstop b) as Hd;
      destruct (fold_left Sensor.drain_item a b) as [[[g2 n] m] b2]
  end.
  simpl in Hd. cbn [fst snd].
  rewrite with_state_mutex_frame by (intros g0; apply Hsens).
  destruct (n >? 0); [|congruence].
  rewrite with_state_mutex_frame; [congruence|].
  intros g0. unfold Sensor.set_last_latency.
  destruct HP as (_ & _ & _ & _ & Hi). apply Hi.
Qed.

Lemma receive_loop_frame n lks :
  (forall g0 v, P (set_sensors g0 v) = P g0) ->
  forall k q g, P (snd (AnomalyTask.receive_loop n lks k q g)) = P g.
Proof.
  intros Hsens. induction n as [|n IH]; intros k q g; [reflexivity|].
  simpl. destruct q as [|x q']; [reflexivity|].
  simpl. rewrite IH. apply with_state_mutex_frame. intros g0. apply Hsens.
Qed.

Lemma score_and_publish_frame e th vib temp r ds g :
  P (Anomaly.score_and_publish e th vib temp r ds g) = P g.
Proof.
  unfold Anomaly.score_and_publish.
  rewrite with_state_mutex_frame.
  - rewrite with_state_mutex_frame by reflexivity.
    apply with_threshold_mutex_frame.
  - intros g0. unfold Anomaly.publish_results.
    destruct (Anomaly.anomaly_flags _ _ _ _ _) as [[[a b] c] d].
    destruct HP as (_ & Ha & _). apply Ha.
Qed.

Lemma detect_anomalies_frame sqrtf e th g ds g' ds' :
  Anomaly.detect_anomalies sqrtf e th g ds = Some (g', ds') -> P g' = P g.
Proof.
  unfold Anomaly.detect_anomalies.
  destruct (Anomaly.read_current _ g) as [[vib temp] r].
  destruct (Anomaly.update_baselines _ _) as [ds1|]; simpl; [|discriminate].
  intros H. inversion H; subst.
  rewrite score_and_publish_frame.
  apply with_state_mutex_frame. reflexivity.
Qed.

Lemma detect_anomalies_any_frame oob sqrtf e th g ds :
  P (fst (Anomaly.detect_anomalies_any oob sqrtf e th g ds)) = P g.
Proof.
  unfold Anomaly.detect_anomalies_any.
  destruct (Anomaly.read_current _ g) as [[vib temp] r]. simpl.
  rewrite score_and_publish_frame.
  apply with_state_mutex_frame. reflexivity.
Qed.

Lemma announce_ready_frame lk l ds g :
  P (snd (fst (AnomalyTask.announce_ready lk l ds g))) = P g.
Proof.
  unfold AnomalyTask.announce_ready.
  destruct (negb _ && _); [|reflexivity].
  simpl. apply with_state_mutex_frame. intros g0. apply note_bits_set_frame.
Qed.

Lemma alert_block_frame lk now cycle g q :
  P (fst (AnomalyTask.alert_block lk now cycle g q)) = P g.
Proof.
  unfold AnomalyTask.alert_block, AnomalyTask.prepare_alert.
  destruct (cycle mod 2 =? 0); [|reflexivity].
  destruct (lk && _); simpl; apply with_state_mutex_frame; reflexivity.
Qed.

Lemma anomaly_cycle_any_after_receive oob sqrtf e th s :
  let t := fst (AnomalyTask.anomaly_cycle_any oob sqrtf e th s) in
  let n := if u32 (AnomalyTask.cycle_count (AnomalyTask.ts_locals s) + 1) mod 2 =? 0
           then 1%nat else 2%nat in
  let r := AnomalyTask.receive_loop n (AnomalyTask.cy_lk_receive e) 0
             (AnomalyTask.ts_sensor_queue s) (AnomalyTask.ts_shared s) in
  P (AnomalyTask.ts_shared t) = P (snd r)
  /\ AnomalyTask.ts_sensor_queue t = snd (fst r)
  /\ AnomalyTask.ts_detection t
     = snd (Anomaly.detect_anomalies_any oob sqrtf (AnomalyTask.cy_detect e) th
              (snd r) (AnomalyTask.ts_detection s)).
Proof.
  unfold AnomalyTask.anomaly_cycle_any. cbn [AnomalyTask.cycle_count].
  cbv zeta.
  destruct (AnomalyTask.receive_loop _ _ 0%nat _ _) as [[k sq] g1].
  cbn [fst snd].
  pose proof (detect_anomalies_any_frame oob sqrtf (AnomalyTask.cy_detect e) th g1
                (AnomalyTask.ts_detection s)) as Hg2.
  destruct (Anomaly.detect_anomalies_any _ _ _ _ g1 _) as [g2 ds2].
  cbn [fst snd] in *.
  destruct (0 <? k)%nat.
  - match goal with
    | |- context [AnomalyTask.announce_ready ?a ?b ?c ?d] =>
        pose proof (announce_ready_frame a b c d) as Ha;
        destruct (AnomalyTask.announce_ready a b c d) as [[l3 g3] calls3]
    end.
    simpl in Ha.
    match goal with
    | |- context [AnomalyTask.alert_block ?a ?b ?c ?d ?q] =>
        pose proof (alert_block_frame a b c d q) as Hb;
        destruct (AnomalyTask.alert_block a b c d q) as [g4 aq4]
    end.
    simpl in Hb. simpl.
    repeat split. congruence.
  - simpl. repeat split. congruence.
Qed.

Lemma anomaly_cycle_any_frame oob sqrtf e th s :
  (forall g0 v, P (set_sensors g0 v) = P g0) ->
  P (AnomalyTask.ts_shared (fst (AnomalyTask.anomaly_cycle_any oob sqrtf e th s)))
  = P (AnomalyTask.ts_shared s).
Proof.
  intros Hsens.
  destruct (anomaly_cycle_any_after_receive oob sqrtf e th s) as (Hp & _).
  rewrite Hp. apply receive_loop_frame. exact Hsens.
Qed.

Lemma check_network_reconnect_frame a b c g :
  (forall g0 v, P (set_network_connected g0 v) = P g0) ->
  P (fst (NetworkTask.check_network_reconnect a b c g)) = P g.
Proof.
  intros Hset. unfold NetworkTask.check_network_reconnect.
  assert (H0 : P (with_state_mutex a (fun g => g) g) = P g)
    by (apply with_state_mutex_frame; reflexivity).
  destruct (negb _); [|exact H0].
  destruct (b mod 100 <? 50); [|exact H0].
  simpl. rewrite with_state_mutex_frame; [exact H0|].
  intros g0. rewrite note_bits_set_frame. apply Hset.
Qed.

Lemma transmit_packet_frame r lk now size ns g :
  (forall g0 v, P (set_network_connected g0 v) = P g0) ->
  P (snd (fst (NetworkTask.transmit_packet r lk now size ns g))) = P g.
Proof.
  intros Hset. unfold NetworkTask.transmit_packet.
  destruct (r mod 100 >=? 5); [reflexivity|].
  simpl. apply with_state_mutex_frame.
  intros g0. rewrite note_bits_cleared_frame. apply Hset.
Qed.

Lemma allocate_packet_frame e type live g :
  P (snd (Network.allocate_packet e type live g)) = P g.
Proof.
  destruct HP as (_ & _ & _ & Hmem & _).
  unfold Network.allocate_packet.
  destruct (Network.al_malloc_ok e); simpl.
  - unfold Network.update_memory_stats_alloc. apply with_state_mutex_frame.
    intros g0. apply Hmem.
  - unfold Network.update_memory_stats_failure. apply with_state_mutex_frame.
    intros g0. apply Hmem.
Qed.

Lemma free_packet_frame lk free p live g :
  P (snd (Network.free_packet lk free p live g)) = P g.
Proof.
  destruct HP as (_ & _ & _ & Hmem & _).
  unfold Network.free_packet. destruct p; [|reflexivity].
  simpl. unfold Network.update_memory_stats_free. apply with_state_mutex_frame.
  intros g0. apply Hmem.
Qed.

Lemma network_cycle_frame e s :
  (forall g0 v, P (set_network_connected g0 v) = P g0) ->
  P (NetworkTask.ts_shared (fst (fst (NetworkTask.network_cycle e s))))
  = P (NetworkTask.ts_shared s).
Proof.
  intros Hset. unfold NetworkTask.network_cycle.
  destruct (xQueueReceive (NetworkTask.ts_alert_queue s)) as [alert aq].
  assert (H1 : forall p : SystemState_t * list EventCall,
             P (fst p) = P (NetworkTask.ts_shared s) ->
             forall ns,
             P (NetworkTask.ts_shared
                  (fst (fst (let '(g, calls) := p in
                     if negb (network_connected g)
                     then (NetworkTask.mkTaskState
                             (u32 (NetworkTask.ts_cycle_count s + 1)) ns g aq
                             (NetworkTask.ts_heap_live s), calls,
                           NetworkTask.SkippedDisconnected)
                     else
                       let packet_type :=
                         NetworkTask.choose_packet_type
                           (u32 (NetworkTask.ts_cycle_count s + 1))
                           match alert with Some _ => 1 | None => 0 end g in
                       let '(packet, live, g0) :=
                         Network.allocate_packet (NetworkTask.cy_alloc e) packet_type
                           (NetworkTask.ts_heap_live s) g in
                       match packet with
                       | None =>
                           (NetworkTask.mkTaskState
                              (u32 (NetworkTask.ts_cycle_count s + 1)) ns g0 aq live,
                            calls, NetworkTask.SkippedAllocationFailed)
                       | Some p0 =>
                           let '(success, ns0, g1, calls') :=
                             NetworkTask.transmit_packet (NetworkTask.cy_rand_transmit e)
                               (NetworkTask.cy_lk_transmit e)
                               (NetworkTask.cy_transmit_now e)
                               (NetworkTask.cy_content_size e) ns g0 in
                           let '(live0, g2) :=
                             Network.free_packet (NetworkTask.cy_lk_free e)
                               (NetworkTask.cy_free_heap e) (Some p0) live g1 in
                           (NetworkTask.mkTaskState
                              (u32 (NetworkTask.ts_cycle_count s + 1)) ns0 g2 aq live0,
                            calls ++ calls', NetworkTask.Transmitted success)
                       end))))
             = P (NetworkTask.ts_shared s)).
  { intros [g1 calls1] Hg1 ns. simpl in Hg1.
    destruct (negb (network_connected g1)); [exact Hg1|].
    cbv zeta.
    match goal with
    | |- context [Network.allocate_packet ?a ?b ?c ?d] =>
        pose proof (allocate_packet_frame a b c d) as Ha;
        destruct (Network.allocate_packet a b c d) as [[pk live] g2]
    end.
    simpl in Ha. destruct pk as [p0|]; [|simpl; congruence].
    match goal with
    | |- context [NetworkTask.transmit_packet ?a ?b ?c ?d ?x ?y] =>
        pose proof (transmit_packet_frame a b c d x y Hset) as Ht;
        destruct (NetworkTask.transmit_packet a b c d x y) as [[[ok ns3] g3] calls3]
    end.
    simpl in Ht.
    match goal with
    | |- context [Network.free_packet ?a ?b ?c ?d ?x] =>
        pose proof (free_packet_frame a b c d x) as Hf;
        destruct (Network.free_packet a b c d x) as [live4 g4]
    end.
    simpl in Hf. simpl. congruence. }
  apply H1.
  destruct (negb (network_connected (NetworkTask.ts_shared s))); [|reflexivity].
  apply check_network_reconnect_frame. exact Hset.
Qed.

End Frames.

Section Ownership.
Import App.

Lemma safety_wait_step_frame {A} (P : SystemState_t -> A) lk now s :
  ignores_statistics P ->
  P (g_system_state (safety_wait_step lk now s)) = P (g_system_state s).
Proof.
  intros HP. unfold safety_wait_step.
  destruct (negb (safety_monitoring s) && _); [|reflexivity].
  simpl. apply with_state_mutex_frame; [exact HP|].
  intros g0. unfold note_wait. destruct HP as (_ & _ & He & _). apply He.
Qed.

Lemma safety_step_frame {A} (P : SystemState_t -> A) e s :
  ignores_statistics P ->
  (forall g0 v, P (set_emergency_stop g0 v) = P g0) ->
  P (g_system_state (safety_step e s)) = P (g_system_state s).
Proof.
  intros HP Hset. unfold safety_step.
  destruct (safety_monitoring s); [|reflexivity].
  pose proof (safety_cycle_frame P HP e (g_thresholds s) (g_system_state s)
                (safety_state s) Hset) as H.
  destruct (Safety.safety_cycle _ _ _ _) as [g1 ss1]. exact H.
Qed.

Lemma sensor_step_frame {A} (P : SystemState_t -> A) e s :
  ignores_statistics P ->
  (forall g0 v, P (set_emergency_stop g0 v) = P g0) ->
  (forall g0 v, P (set_sensors g0 v) = P g0) ->
  P (g_system_state (fst (sensor_step e s))) = P (g_system_state s).
Proof.
  intros HP H1 H2. unfold sensor_step.
  pose proof (sensor_cycle_frame P HP e (sensor_locals s) (g_system_state s) H1 H2) as H.
  destruct (Sensor.sensor_cycle _ _ _) as [[[l g] rd] calls]. exact H.
Qed.

Lemma anomaly_step_any_frame {A} (P : SystemState_t -> A) oob sqrtf e s :
  ignores_statistics P ->
  (forall g0 v, P (set_sensors g0 v) = P g0) ->
  P (g_system_state (fst (anomaly_step_any oob sqrtf e s))) = P (g_system_state s).
Proof.
  intros HP Hset. unfold anomaly_step_any.
  match goal with
  | |- context [AnomalyTask.anomaly_cycle_any ?a ?b ?c ?d ?x] =>
      pose proof (anomaly_cycle_any_frame P HP a b c d x Hset) as H;
      destruct (AnomalyTask.anomaly_cycle_any a b c d x) as [t c0]
  end.
  exact H.
Qed.

Lemma network_step_frame {A} (P : SystemState_t -> A) e s :
  ignores_statistics P ->
  (forall g0 v, P (set_network_connected g0 v) = P g0) ->
  P (g_system_state (fst (network_step e s))) = P (g_system_state s).
Proof.
  intros HP Hset. unfold network_step.
  match goal with
  | |- context [NetworkTask.network_cycle ?a ?b] =>
      pose proof (network_cycle_frame P HP a b Hset) as H;
      destruct (NetworkTask.network_cycle a b) as [[t c] o]
  end.
  exact H.
Qed.

Lemma step_any_keeps_thresholds oob sqrtf a s :
  g_thresholds (fst (step_any oob sqrtf a s)) = g_thresholds s.
Proof.
  destruct a as [e|lk now|e|e|e]; simpl.
  - unfold sensor_step.
    destruct (Sensor.sensor_cycle _ _ _) as [[[l g] rd] c]. reflexivity.
  - unfold safety_wait_step. destruct (negb _ && _); reflexivity.
  - unfold safety_step.
    destruct (safety_monitoring s); [|reflexivity].
    destruct (Safety.safety_cycle _ _ _ _); reflexivity.
  - unfold anomaly_step_any.
    destruct (AnomalyTask.anomaly_cycle_any _ _ _ _ _) as [t c]. reflexivity.
  - unfold network_step.
    destruct (NetworkTask.network_cycle _ _) as [[t c] o]. reflexivity.
Qed.

(** X11: which task writes which field.  No action changes the thresholds;
    the sensor readings are written by the sensor and the anomaly task only,
    the emergency-stop flag by the sensor and the safety task only, the
    connection flag by the network task only.  This holds for every action
    in every state, whatever the anomaly task reads past its histories. *)
Theorem tasks_write_their_own_fields (oob : Anomaly.OutOfBounds) (sqrtf : Q -> Q)
    (a : Action) (s : System) :
  let s' := fst (step_any oob sqrtf a s) in
  g_thresholds s' = g_thresholds s
  /\ (writes_sensors a = false ->
      sensors (g_system_state s') = sensors (g_system_state s))
  /\ (writes_emergency_stop a = false ->
      emergency_stop (g_system_state s') = emergency_stop (g_system_state s))
  /\ (writes_network_connected a = false ->
      network_connected (g_system_state s') = network_connected (g_system_state s)).
Proof.
  intros s'. subst s'. split; [apply step_any_keeps_thresholds|].
  destruct a as [e|lk now|e|e|e]; simpl.
  - repeat split; try discriminate. intros _.
    apply sensor_step_frame;
      [exact network_connected_ignores_statistics|reflexivity|reflexivity].
  - repeat split; intros _; apply safety_wait_step_frame.
    + exact sensors_ignores_statistics.
    + exact emergency_stop_ignores_statistics.
    + exact network_connected_ignores_statistics.
  - repeat split; try discriminate; intros _;
      apply safety_step_frame; try reflexivity.
    + exact sensors_ignores_statistics.
    + exact network_connected_ignores_statistics.
  - repeat split; try discriminate; intros _.
    + apply (anomaly_step_any_frame emergency_stop);
        [exact emergency_stop_ignores_statistics|reflexivity].
    + apply (anomaly_step_any_frame network_connected);
        [exact network_connected_ignores_statistics|reflexivity].
  - repeat split; try discriminate; intros _;
      apply network_step_frame; try reflexivity.
    + exact sensors_ignores_statistics.
    + exact emergency_stop_ignores_statistics.
Qed.

(** The 101st iteration of the anomaly task, which reads past its histories,
    leaves the emergency-stop flag and the connection flag as they are. *)
Lemma tasks_write_their_own_fields_witness :
  let s := fst (run_any (fun _ => zeros_beyond) sqrt_6
                  (replicate 100 (RunAnomaly (anomaly_env true))) idle_plant) in
  let a := RunAnomaly (anomaly_env true) in
  let s' := fst (step_any zeros_beyond sqrt_6 a s) in
  step sqrt_6 a s = None
  /\ g_thresholds s' = g_thresholds s
  /\ emergency_stop (g_system_state s') = emergency_stop (g_system_state s)
  /\ network_connected (g_system_state s') = network_connected (g_system_state s).
Proof.
  intros s a s'.
  split; [vm_compute; reflexivity|].
  destruct (tasks_write_their_own_fields zeros_beyond sqrt_6 a s) as (Ht & _ & He & Hn).
  split; [exact Ht|].
  split; [apply He; reflexivity|apply Hn; reflexivity].
Defined.

End Ownership.

(** ** The safety rule in the simulated plant *)

Section SimulatedPlant.
Import App.

Lemma flt_false_of_le a b : (b <= a)%Q -> flt a b = false.
Proof.
  intros H. unfold flt. apply negb_false_iff. apply Qle_bool_iff. exact H.
Qed.

Lemma one_alarm_at_most lk1 lk2 g ss :
  reading_in_range (sensors g) ->
  Safety.active_alarms
    (snd (Safety.check_critical_conditions lk1 lk2 g_thresholds_init g ss)) <= 1.
Proof.
  intros (Ht & (Hr0 & Hr1) & Hc).
  pose proof (check_critical_conditions_flags lk1 lk2 g_thresholds_init g ss) as H.
  assert (Hth : Safety.read_thresholds lk2 g_thresholds_init = (10, 85, 10, 30, 100)%Q)
    by (destruct lk2; reflexivity).
  rewrite Hth in H. unfold Safety.read_sensors in H.
  unfold Safety.active_alarms.
  destruct lk1.
  - destruct H as (_ & H2 & H3 & H4). cbv zeta. rewrite H2, H3, H4.
    unfold Safety.temperature_critical_now, Safety.rpm_critical_now,
      Safety.current_critical_now.
    rewrite (fgt_false_of_le (temperature (sensors g)) 85) by lra.
    rewrite (flt_false_of_le (rpm (sensors g)) 10) by lra.
    rewrite (fgt_false_of_le (rpm (sensors g)) 30) by lra.
    rewrite (fgt_false_of_le (current (sensors g)) 100) by lra.
    simpl. destruct (Safety.vibration_alarm _); lia.
  - destruct H as (H1 & H2 & H3 & H4). cbv zeta. rewrite H1, H2, H3, H4.
    vm_compute. discriminate.
Qed.

Lemma safety_cycle_in_simulated_plant e g ss :
  reading_in_range (sensors g) ->
  Safety.active_alarms (snd (Safety.safety_cycle e g_thresholds_init g ss)) <= 1
  /\ (emergency_stop (fst (Safety.safety_cycle e g_thresholds_init g ss)) = true ->
      emergency_stop g = true).
Proof.
  intros Hr. unfold Safety.safety_cycle, Safety.check_and_trigger.
  pose proof (one_alarm_at_most (Safety.cy_lk_state e) (Safety.cy_lk_thresholds e)
                g ss Hr) as H1.
  pose proof (check_critical_conditions_frame sensors sensors_ignores_statistics
                (Safety.cy_lk_state e) (Safety.cy_lk_thresholds e)
                g_thresholds_init g ss) as Hs.
  pose proof (check_critical_conditions_keeps_flag (Safety.cy_lk_state e)
                (Safety.cy_lk_thresholds e) g_thresholds_init g ss) as Hf.
  destruct (Safety.check_critical_conditions _ _ _ g ss) as [[c g1] ss1].
  simpl in H1, Hs, Hf.
  assert (Hno : (if c then
                   if Safety.active_alarms ss1 >=? 2
                   then Safety.trigger_emergency_stop (Safety.cy_lk_trigger e)
                          (Safety.cy_trigger_now e) g1 ss1
                   else (g1, ss1)
                 else (g1, ss1)) = (g1, ss1)).
  { destruct c; [|reflexivity].
    destruct (Z.geb_spec (Safety.active_alarms ss1) 2); [lia|reflexivity]. }
  rewrite Hno. clear Hno.
  split.
  - unfold Safety.check_emergency_clear.
    destruct (if Safety.ce_lk_read (Safety.cy_clear e) then emergency_stop g1 else false);
      [|exact H1].
    destruct (_ >? _); [|exact H1].
    match goal with
    | |- context [Safety.check_critical_conditions ?a ?b ?th ?x ?y] =>
        pose proof (one_alarm_at_most a b x y) as H2;
        destruct (Safety.check_critical_conditions a b th x y) as [[c3 g3] ss3]
    end.
    simpl in H2.
    assert (H3 : Safety.active_alarms ss3 <= 1).
    { apply H2.
      rewrite (with_state_mutex_frame sensors sensors_ignores_statistics)
        by reflexivity.
      rewrite Hs. exact Hr. }
    destruct c3; exact H3.
  - intros H. apply check_emergency_clear_never_sets in H. congruence.
Qed.

Lemma receive_loop_readings (R : SensorData_t -> Prop) n lks : forall k q g,
  Forall R q -> R (sensors g) ->
  R (sensors (snd (AnomalyTask.receive_loop n lks k q g)))
  /\ Forall R (snd (fst (AnomalyTask.receive_loop n lks k q g))).
Proof.
  induction n as [|n IH]; intros k q g Hq Hg; [split; assumption|].
  simpl. destruct q as [|x q']; [split; [assumption|constructor]|].
  simpl. inversion Hq; subst. apply IH; [assumption|].
  destruct (lks k); simpl; assumption.
Qed.

Lemma simulated_plant_step oob sqrtf a s :
  simulated_plant s -> plausible_sine a ->
  simulated_plant (fst (step_any oob sqrtf a s))
  /\ (emergency_stop (g_system_state (fst (step_any oob sqrtf a s))) = true ->
      emergency_stop (g_system_state s) = true \/ sensor_raises_flag a).
Proof.
  intros (Hth & Hsens & Hq & Hloc & Hal) Hsin.
  destruct a as [e|lk now|e|e|e]; simpl in Hsin |- *.
  - unfold sensor_step.
    pose proof (sensor_cycle_range e (sensor_locals s) (g_system_state s) Hsin Hloc)
      as [Hl' Hrd].
    pose proof (sensor_cycle_reading e (sensor_locals s) (g_system_state s))
      as (_ & _ & _ & _ & _ & Hpub).
    pose proof (sensor_cycle_flag e (sensor_locals s) (g_system_state s)) as Hflag.
    destruct (Sensor.sensor_cycle _ _ _) as [[[l g] rd] c].
    cbn [fst snd] in *.
    split.
    + unfold simulated_plant. cbn [g_thresholds g_system_state xSensorDataQueue
                                     sensor_locals safety_state].
      refine (conj Hth (conj _ (conj _ (conj Hl' Hal)))).
      * rewrite Hpub. destruct (Sensor.cy_lk_publish e); [exact Hrd|exact Hsens].
      * unfold xQueueSend. destruct (_ <? _)%nat; simpl; [|exact Hq].
        apply Forall_app. split; [exact Hq|]. constructor; [exact Hrd|constructor].
    + cbn. rewrite Hflag. intros Hor. apply orb_true_iff in Hor.
      destruct Hor; [left|right]; assumption.
  - pose proof (safety_wait_step_frame sensors lk now s sensors_ignores_statistics) as H1.
    pose proof (safety_wait_step_frame emergency_stop lk now s
                  emergency_stop_ignores_statistics) as H2.
    split; [|rewrite H2; auto].
    unfold simulated_plant. rewrite H1.
    unfold safety_wait_step. destruct (negb _ && _); simpl;
      exact (conj Hth (conj Hsens (conj Hq (conj Hloc Hal)))).
  - pose proof (safety_step_frame sensors e s sensors_ignores_statistics
                  ltac:(reflexivity)) as H1.
    unfold simulated_plant. rewrite H1.
    unfold safety_step. destruct (safety_monitoring s).
    + pose proof (safety_cycle_in_simulated_plant e (g_system_state s)
                    (safety_state s) Hsens) as [Ha Hb].
      rewrite Hth.
      destruct (Safety.safety_cycle _ _ _ _) as [g1 ss1]. simpl in *.
      split; [exact (conj eq_refl (conj Hsens (conj Hq (conj Hloc Ha))))|auto].
    + split; [exact (conj Hth (conj Hsens (conj Hq (conj Hloc Hal))))|auto].
  - unfold anomaly_step_any.
    match goal with
    | |- context [AnomalyTask.anomaly_cycle_any ?a ?b ?c ?d ?x] =>
        pose proof (anomaly_cycle_any_after_receive sensors sensors_ignores_statistics
                      a b c d x) as (Hs' & Hq' & _);
        pose proof (anomaly_cycle_any_frame emergency_stop
                      emergency_stop_ignores_statistics a b c d x ltac:(reflexivity))
          as He;
        destruct (AnomalyTask.anomaly_cycle_any a b c d x) as [t c0]
    end.
    cbn [fst snd AnomalyTask.ts_shared AnomalyTask.ts_sensor_queue
           AnomalyTask.ts_locals] in *.
    match type of Hs' with
    | _ = sensors (snd (AnomalyTask.receive_loop ?n ?lks ?k ?q ?g)) =>
        pose proof (receive_loop_readings reading_in_range n lks k q g Hq Hsens)
          as [Hr1 Hr2]
    end.
    split; [|cbn; rewrite He; auto].
    unfold simulated_plant. cbn [g_thresholds g_system_state xSensorDataQueue
                                   sensor_locals safety_state].
    rewrite Hs', Hq'.
    exact (conj Hth (conj Hr1 (conj Hr2 (conj Hloc Hal)))).
  - pose proof (network_step_frame sensors e s sensors_ignores_statistics
                  ltac:(reflexivity)) as H1.
    pose proof (network_step_frame emergency_stop e s emergency_stop_ignores_statistics
                  ltac:(reflexivity)) as H2.
    split; [|rewrite H2; auto].
    unfold simulated_plant. rewrite H1.
    unfold network_step.
    destruct (NetworkTask.network_cycle _ _) as [[t c] o].
    simpl.
    exact (conj Hth (conj Hsens (conj Hq (conj Hloc Hal)))).
Qed.

Lemma simulated_plant_init initial_free : simulated_plant (system_init initial_free).
Proof.
  unfold simulated_plant, reading_in_range, locals_in_range. simpl.
  repeat split; try constructor; try (unfold Qle; simpl; lia).
  vm_compute. discriminate.
Qed.

Lemma simulated_plant_idle : simulated_plant idle_plant.
Proof.
  unfold simulated_plant, reading_in_range, locals_in_range. simpl.
  repeat split; try constructor; try (unfold Qle; simpl; lia).
  vm_compute. discriminate.
Qed.

Lemma plausible_past_the_hundredth_sample :
  Forall plausible_sine past_the_hundredth_sample.
Proof.
  apply Forall_app. split; [apply Forall_replicate; exact I|].
  repeat (apply List.Forall_cons; [first [exact I | simpl; split; lra]|]).
  apply List.Forall_nil.
Qed.

(** X12: in the simulated plant the two-alarm rule of the safety task never
    fires.  When every sensor iteration is given a sine between -1 and 1,
    then along every execution, whatever the anomaly task reads past its
    histories, every published or queued reading stays inside the critical
    limits for temperature, speed and current, the safety task never holds
    more than one alarm, and the emergency stop is set at the end of the
    execution only if it was set at its start or the sensor task dequeued an
    ISR sample above 80 mm/s. *)
Theorem safety_rule_never_fires_in_simulation (sqrtf : Q -> Q) (acts : list Action) :
  forall (oobs : nat -> Anomaly.OutOfBounds) (s : System),
  simulated_plant s -> Forall plausible_sine acts ->
  let s' := fst (run_any oobs sqrtf acts s) in
  simulated_plant s'
  /\ (emergency_stop (g_system_state s') = true ->
      emergency_stop (g_system_state s) = true \/ Exists sensor_raises_flag acts).
Proof.
  induction acts as [|a rest IH]; intros oobs s Hs Hsin.
  - simpl. split; [exact Hs|auto].
  - inversion Hsin as [|? ? Ha Hrest]; subst. simpl.
    destruct (simulated_plant_step (oobs O) sqrtf a s Hs Ha) as [Hs1 He1].
    destruct (step_any (oobs O) sqrtf a s) as [s1 c1].
    cbn [fst snd] in Hs1, He1.
    destruct (IH (fun k => oobs (S k)) s1 Hs1 Hrest) as [Hs2 He2].
    destruct (run_any (fun k => oobs (S k)) sqrtf rest s1) as [s2 c2].
    cbn [fst snd] in *.
    split; [exact Hs2|].
    intros He. destruct (He2 He) as [Hb|Hb].
    + destruct (He1 Hb) as [Hc|Hc]; [left; exact Hc|].
      right. apply Exists_cons_hd. exact Hc.
    + right. apply Exists_cons_tl. exact Hb.
Qed.

(** The execution that takes the anomaly task past its 100th sample keeps
    the plant inside its limits and the emergency stop unset. *)
Lemma safety_rule_never_fires_in_simulation_witness :
  let s' := fst (run_any (fun _ => zeros_beyond) sqrt_6 past_the_hundredth_sample
                   idle_plant) in
  run sqrt_6 past_the_hundredth_sample idle_plant = None
  /\ simulated_plant s'
  /\ emergency_stop (g_system_state s') = false.
Proof.
  intros s'.
  split; [vm_compute; reflexivity|].
  split; [|vm_compute; reflexivity].
  apply (safety_rule_never_fires_in_simulation sqrt_6 past_the_hundredth_sample
           (fun _ => zeros_beyond) idle_plant simulated_plant_idle
           plausible_past_the_hundredth_sample).
Defined.

End SimulatedPlant.

(** ** The start of the safety monitoring *)

Section ReadinessGate.
Import App.

Lemma network_cycle_connected_success e t :
  network_connected (NetworkTask.ts_shared t) = true ->
  5 <= NetworkTask.cy_rand_transmit e mod 100 ->
  snd (fst (NetworkTask.network_cycle e t)) = []
  /\ network_connected (NetworkTask.ts_shared (fst (fst (NetworkTask.network_cycle e t))))
     = true.
Proof.
  intros Hc Hr. unfold NetworkTask.network_cycle.
  destruct (xQueueReceive (NetworkTask.ts_alert_queue t)) as [alert aq].
  rewrite Hc. cbn [negb]. rewrite Hc. cbn [negb]. cbv zeta.
  match goal with
  | |- context [Network.allocate_packet ?a ?b ?c ?d] =>
      pose proof (allocate_packet_frame network_connected
                    network_connected_ignores_statistics a b c d) as Ha;
      destruct (Network.allocate_packet a b c d) as [[pk live] g2]
  end.
  simpl in Ha. destruct pk as [p0|]; [|simpl; split; [reflexivity|congruence]].
  unfold NetworkTask.transmit_packet.
  destruct (Z.geb_spec (NetworkTask.cy_rand_transmit e mod 100) 5) as [_|?]; [|lia].
  match goal with
  | |- context [Network.free_packet ?a ?b ?c ?d ?x] =>
      pose proof (free_packet_frame network_connected
                    network_connected_ignores_statistics a b c d x) as Hf;
      destruct (Network.free_packet a b c d x) as [live4 g4]
  end.
  simpl in Hf. simpl. split; [reflexivity|congruence].
Qed.

Lemma not_all_ready bits :
  Z.testbit bits 1 = false -> (Z.land bits ALL_SYSTEMS_READY =? ALL_SYSTEMS_READY) = false.
Proof.
  intros H. apply Z.eqb_neq. intros E.
  assert (Ht : Z.testbit (Z.land bits ALL_SYSTEMS_READY) 1 = true)
    by (rewrite E; reflexivity).
  rewrite Z.land_spec, H in Ht. discriminate.
Qed.

Lemma waiting_for_network_step oob sqrtf a s :
  waiting_for_network s -> draws_success a ->
  waiting_for_network (fst (step_any oob sqrtf a s)).
Proof.
  intros (Hc & Hb & Hm) Hd.
  destruct a as [e|lk now|e|e|e]; simpl in Hd |- *.
  - pose proof (sensor_step_frame network_connected e s
                  network_connected_ignores_statistics ltac:(reflexivity)
                  ltac:(reflexivity)) as Hn.
    unfold sensor_step in *.
    pose proof (sensor_cycle_calls e (sensor_locals s) (g_system_state s)) as Hcalls.
    destruct (Sensor.sensor_cycle _ _ _) as [[[l g] rd] c].
    simpl in Hcalls.
    unfold waiting_for_network.
    cbn [fst g_system_state xSystemReadyEvents safety_monitoring] in *.
    refine (conj _ (conj _ Hm)); [congruence|].
    destruct Hcalls as [[-> _]|(-> & _)]; [exact Hb|].
    unfold apply_calls. cbn [fold_left apply_call].
    unfold xEventGroupSetBits. rewrite Z.lor_spec, Hb. reflexivity.
  - unfold safety_wait_step.
    rewrite (not_all_ready _ Hb), andb_false_r.
    exact (conj Hc (conj Hb Hm)).
  - unfold safety_step. rewrite Hm.
    exact (conj Hc (conj Hb Hm)).
  - pose proof (anomaly_step_any_frame network_connected oob sqrtf e s
                  network_connected_ignores_statistics ltac:(reflexivity)) as Hn.
    unfold anomaly_step_any in *.
    match goal with
    | |- context [AnomalyTask.anomaly_cycle_any ?a ?b ?c ?d ?x] =>
        pose proof (anomaly_cycle_any_calls a b c d x) as Hcalls;
        destruct (AnomalyTask.anomaly_cycle_any a b c d x) as [t c0]
    end.
    unfold waiting_for_network.
    cbn [fst snd g_system_state xSystemReadyEvents safety_monitoring] in *.
    refine (conj _ (conj _ Hm)); [congruence|].
    destruct Hcalls as [[-> _]|(-> & _)]; [exact Hb|].
    unfold apply_calls. cbn [fold_left apply_call].
    unfold xEventGroupSetBits. rewrite Z.lor_spec, Hb. reflexivity.
  - unfold network_step.
    match goal with
    | |- context [NetworkTask.network_cycle ?a ?b] =>
        pose proof (network_cycle_connected_success a b Hc Hd) as [Hcalls Hn];
        destruct (NetworkTask.network_cycle a b) as [[t c] o]
    end.
    simpl in Hcalls, Hn. subst c.
    unfold waiting_for_network. simpl.
    exact (conj Hn (conj Hb Hm)).
Qed.

Lemma waiting_for_network_init initial_free :
  waiting_for_network (system_init initial_free).
Proof. repeat split. Qed.

Lemma waiting_for_network_idle : waiting_for_network idle_plant.
Proof. repeat split. Qed.

(** X13: the safety task starts monitoring only after a transmission has
    failed.  [main] leaves the connection flag set and the network bit of
    the event group unset, and the bit is set by a reconnection only; so
    along every execution in which no transmission draws a failure, whatever
    the anomaly task reads past its histories, the network bit stays unset
    and the safety task stays in its wait for the three readiness bits. *)
Theorem monitoring_waits_for_a_failed_transmission (sqrtf : Q -> Q)
    (acts : list Action) :
  forall (oobs : nat -> Anomaly.OutOfBounds) (s : System),
  waiting_for_network s -> Forall draws_success acts ->
  waiting_for_network (fst (run_any oobs sqrtf acts s)).
Proof.
  induction acts as [|a rest IH]; intros oobs s Hs Hd.
  - exact Hs.
  - inversion Hd as [|? ? Ha Hrest]; subst. simpl.
    pose proof (waiting_for_network_step (oobs O) sqrtf a s Hs Ha) as H1.
    destruct (step_any (oobs O) sqrtf a s) as [s1 c1].
    cbn [fst] in H1.
    pose proof (IH (fun k => oobs (S k)) s1 H1 Hrest) as H2.
    destruct (run_any (fun k => oobs (S k)) sqrtf rest s1) as [s2 c2].
    exact H2.
Qed.

(** After 104 actions the anomaly bit is set; a successful transmission and
    the wait of the safety task later, the safety task still waits. *)
Lemma monitoring_waits_for_a_failed_transmission_witness :
  let acts := past_the_hundredth_sample
              ++ [transmission_succeeds; SafetyWait true 20500;
                  RunSafety (prompt_cycle 20520)] in
  let s' := fst (run_any (fun _ => zeros_beyond) sqrt_6 acts idle_plant) in
  Z.testbit (xSystemReadyEvents s') 2 = true
  /\ waiting_for_network s'.
Proof.
  intros acts s'.
  split; [vm_compute; reflexivity|].
  assert (Hok : Forall draws_success acts).
  { apply Forall_app. split.
    - apply Forall_app. split; [apply Forall_replicate; exact I|].
      repeat (apply List.Forall_cons; [exact I|]). apply List.Forall_nil.
    - apply List.Forall_cons; [vm_compute; discriminate|].
      repeat (apply List.Forall_cons; [exact I|]). apply List.Forall_nil. }
  apply (monitoring_waits_for_a_failed_transmission sqrt_6 acts (fun _ => zeros_beyond)
           idle_plant waiting_for_network_idle Hok).
Defined.

End ReadinessGate.

(** ** The iteration of the anomaly task *)

Section AnomalyCycle.
Import Anomaly AnomalyTask.

Lemma receive_loop_queue n lks : forall k q g,
  snd (fst (receive_loop n lks k q g)) = drop n q.
Proof.
  induction n as [|n IH]; intros k q g; [reflexivity|].
  simpl. destruct q as [|x q']; [reflexivity|].
  simpl. apply IH.
Qed.

Lemma update_baselines_keeps_histories sqrtf ds ds' :
  update_baselines sqrtf ds = Some ds' ->
  history_index ds' = history_index ds
  /\ vibration_history ds' = vibration_history ds
  /\ temperature_history ds' = temperature_history ds
  /\ rpm_history ds' = rpm_history ds.
Proof.
  unfold update_baselines.
  destruct (baseline_window (history_index ds)) as [s0 c0].
  destruct (c0 >? 0); [|intros H; inversion H; subst; repeat split].
  destruct (calculate_mean (vibration_history ds) _ _); simpl; [|discriminate].
  destruct (calculate_mean (temperature_history ds) _ _); simpl; [|discriminate].
  destruct (calculate_mean (rpm_history ds) _ _); simpl; [|discriminate].
  destruct (calculate_stddev _ (vibration_history ds) _ _ _); simpl; [|discriminate].
  destruct (calculate_stddev _ (temperature_history ds) _ _ _); simpl; [|discriminate].
  destruct (calculate_stddev _ (rpm_history ds) _ _ _); simpl; [|discriminate].
  intros H; inversion H; subst; repeat split.
Qed.

Lemma update_baselines_any_keeps_histories oob sqrtf ds :
  let ds' := update_baselines_any oob sqrtf ds in
  history_index ds' = history_index ds
  /\ vibration_history ds' = vibration_history ds
  /\ temperature_history ds' = temperature_history ds
  /\ rpm_history ds' = rpm_history ds.
Proof.
  unfold update_baselines_any.
  destruct (baseline_window (history_index ds)) as [s0 c0].
  destruct (c0 >? 0); repeat split.
Qed.

Lemma detect_anomalies_store sqrtf e th g ds g' ds' :
  detect_anomalies sqrtf e th g ds = Some (g', ds') ->
  let i := Z.to_nat (store_index (history_index ds)) in
  history_index ds' = u32 (history_index ds + 1)
  /\ vibration_history ds'
     = <[i := if dt_lk_read e then vibration (sensors g) else 0%Q]> (vibration_history ds)
  /\ temperature_history ds'
     = <[i := if dt_lk_read e then temperature (sensors g) else 0%Q]>
         (temperature_history ds)
  /\ rpm_history ds'
     = <[i := if dt_lk_read e then rpm (sensors g) else 0%Q]> (rpm_history ds).
Proof.
  unfold detect_anomalies, read_current.
  destruct (dt_lk_read e).
  - destruct (update_baselines _ _) as [ds1|] eqn:Hu; simpl; [|discriminate].
    intros H. inversion H; subst.
    apply update_baselines_keeps_histories in Hu.
    destruct Hu as (-> & -> & -> & ->). repeat split.
  - destruct (update_baselines _ _) as [ds1|] eqn:Hu; simpl; [|discriminate].
    intros H. inversion H; subst.
    apply update_baselines_keeps_histories in Hu.
    destruct Hu as (-> & -> & -> & ->). repeat split.
Qed.

Lemma detect_anomalies_any_store oob sqrtf e th g ds :
  let ds' := snd (detect_anomalies_any oob sqrtf e th g ds) in
  let i := Z.to_nat (store_index (history_index ds)) in
  history_index ds' = u32 (history_index ds + 1)
  /\ vibration_history ds'
     = <[i := if dt_lk_read e then vibration (sensors g) else 0%Q]> (vibration_history ds)
  /\ temperature_history ds'
     = <[i := if dt_lk_read e then temperature (sensors g) else 0%Q]>
         (temperature_history ds)
  /\ rpm_history ds'
     = <[i := if dt_lk_read e then rpm (sensors g) else 0%Q]> (rpm_history ds).
Proof.
  unfold detect_anomalies_any, read_current.
  destruct (dt_lk_read e); cbn [snd].
  - match goal with
    | |- context [update_baselines_any ?a ?b ?c] =>
        destruct (update_baselines_any_keeps_histories a b c) as (-> & -> & -> & ->)
    end.
    repeat split.
  - match goal with
    | |- context [update_baselines_any ?a ?b ?c] =>
        destruct (update_baselines_any_keeps_histories a b c) as (-> & -> & -> & ->)
    end.
    repeat split.
Qed.

Lemma announce_ready_event_calls lk l ds g :
  snd (announce_ready lk l ds g)
  = if negb (anomaly_ready l) && (history_index ds >=? BASELINE_WINDOW)
    then [SetBits ANOMALY_READY_BIT] else [].
Proof.
  unfold announce_ready. destruct (negb _ && _); reflexivity.
Qed.

Lemma anomaly_cycle_anatomy sqrtf e th s t calls :
  anomaly_cycle sqrtf e th s = Some (t, calls) ->
  let n := if u32 (cycle_count (ts_locals s) + 1) mod 2 =? 0 then 1%nat else 2%nat in
  let g0 := snd (receive_loop n (cy_lk_receive e) 0 (ts_sensor_queue s) (ts_shared s)) in
  exists g1,
    detect_anomalies sqrtf (cy_detect e) th g0 (ts_detection s)
    = Some (g1, ts_detection t)
    /\ anomalies (ts_shared t) = anomalies g1
    /\ sensors (ts_shared t) = sensors g0
    /\ ts_sensor_queue t = drop n (ts_sensor_queue s)
    /\ calls = if received (ts_sensor_queue s) && negb (anomaly_ready (ts_locals s))
                  && (history_index (ts_detection t) >=? 20)
               then [SetBits ANOMALY_READY_BIT] else [].
Proof.
  unfold anomaly_cycle.
  set (c := u32 (cycle_count (ts_locals s) + 1)). cbn [cycle_count anomaly_ready].
  intros H. cbv zeta.
  match goal with
  | |- context [receive_loop ?n ?a 0 ?q ?g] =>
      pose proof (receive_loop_count n a 0%nat q g) as Hn;
      pose proof (receive_loop_queue n a 0%nat q g) as Hq
  end.
  destruct (receive_loop _ _ 0%nat _ _) as [[k sq] g0].
  cbn [fst snd] in *.
  rewrite Hn in H by (destruct (c mod 2 =? 0); lia). clear Hn.
  fold (received (ts_sensor_queue s)) in H.
  destruct (detect_anomalies _ _ _ g0 _) as [[g1 ds1]|] eqn:Hd; simpl in H;
    [|discriminate].
  pose proof (detect_anomalies_frame sensors sensors_ignores_statistics
                _ _ _ _ _ _ _ Hd) as Hs1.
  exists g1.
  destruct (received (ts_sensor_queue s)).
  - match type of H with
    | context [announce_ready ?a ?b ?c ?d] =>
        pose proof (announce_ready_anomalies a b c d) as Ha;
        pose proof (announce_ready_frame sensors sensors_ignores_statistics a b c d)
          as Hsa;
        pose proof (announce_ready_event_calls a b c d) as Hca;
        destruct (announce_ready a b c d) as [[l3 g3] calls3]
    end.
    cbn [fst snd anomaly_ready] in Ha, Hsa, Hca.
    match type of H with
    | context [alert_block ?a ?b ?c ?d ?q] =>
        pose proof (alert_block_anomalies a b c d q) as Hb;
        pose proof (alert_block_frame sensors sensors_ignores_statistics a b c d q)
          as Hsb;
        destruct (alert_block a b c d q) as [g4 aq4]
    end.
    cbn [fst snd] in Hb, Hsb. inversion H; subst. cbn.
    repeat split; congruence.
  - inversion H; subst. cbn. repeat split; congruence.
Qed.

Lemma anomaly_cycle_any_anatomy oob sqrtf e th s :
  let r := anomaly_cycle_any oob sqrtf e th s in
  let t := fst r in
  let n := if u32 (cycle_count (ts_locals s) + 1) mod 2 =? 0 then 1%nat else 2%nat in
  let g0 := snd (receive_loop n (cy_lk_receive e) 0 (ts_sensor_queue s) (ts_shared s)) in
  ts_detection t
  = snd (detect_anomalies_any oob sqrtf (cy_detect e) th g0 (ts_detection s))
  /\ sensors (ts_shared t) = sensors g0
  /\ ts_sensor_queue t = drop n (ts_sensor_queue s)
  /\ snd r = if received (ts_sensor_queue s) && negb (anomaly_ready (ts_locals s))
                && (history_index (ts_detection t) >=? 20)
             then [SetBits ANOMALY_READY_BIT] else [].
Proof.
  unfold anomaly_cycle_any.
  set (c := u32 (cycle_count (ts_locals s) + 1)). cbn [cycle_count anomaly_ready].
  cbv zeta.
  match goal with
  | |- context [receive_loop ?n ?a 0 ?q ?g] =>
      pose proof (receive_loop_count n a 0%nat q g) as Hn;
      pose proof (receive_loop_queue n a 0%nat q g) as Hq
  end.
  destruct (receive_loop _ _ 0%nat _ _) as [[k sq] g0].
  cbn [fst snd] in *.
  rewrite Hn by (destruct (c mod 2 =? 0); lia). clear Hn.
  fold (received (ts_sensor_queue s)).
  pose proof (detect_anomalies_any_frame sensors sensors_ignores_statistics oob sqrtf
                (cy_detect e) th g0 (ts_detection s)) as Hs1.
  destruct (detect_anomalies_any _ _ _ _ g0 _) as [g1 ds1].
  cbn [fst snd] in *.
  destruct (received (ts_sensor_queue s)).
  - match goal with
    | |- context [announce_ready ?a ?b ?c ?d] =>
        pose proof (announce_ready_frame sensors sensors_ignores_statistics a b c d)
          as Hsa;
        pose proof (announce_ready_event_calls a b c d) as Hca;
        destruct (announce_ready a b c d) as [[l3 g3] calls3]
    end.
    cbn [fst snd anomaly_ready] in Hsa, Hca.
    match goal with
    | |- context [alert_block ?a ?b ?c ?d ?q] =>
        pose proof (alert_block_frame sensors sensors_ignores_statistics a b c d q)
          as Hsb;
        destruct (alert_block a b c d q) as [g4 aq4]
    end.
    cbn [fst snd] in Hsb. cbn.
    repeat split; try congruence. exact Hca.
  - cbn. repeat split; congruence.
Qed.

(** X14: every iteration of the anomaly task stores one sample, with or
    without a new reading, in every state and whatever it reads past its
    histories: it takes one reading from the sensor queue in an
    even-numbered iteration and up to two in an odd-numbered one, then writes
    the reading the shared state holds at that moment (zeros when the lock is
    not acquired) at index [history_index % 100] of the three histories and
    advances the index by one. *)
Theorem anomaly_cycle_stores_one_sample (oob : OutOfBounds) (sqrtf : Q -> Q)
    (e : CycleEnv) (th : ThresholdConfig_t) (s : TaskState) :
  let t := fst (anomaly_cycle_any oob sqrtf e th s) in
  let n := if u32 (cycle_count (ts_locals s) + 1) mod 2 =? 0 then 1%nat else 2%nat in
  let i := Z.to_nat (store_index (history_index (ts_detection s))) in
  let stored := if dt_lk_read (cy_detect e) then sensors (ts_shared t)
                else mkSensorData 0 0 0 0 0 in
  ts_sensor_queue t = drop n (ts_sensor_queue s)
  /\ history_index (ts_detection t) = u32 (history_index (ts_detection s) + 1)
  /\ vibration_history (ts_detection t)
     = <[i := vibration stored]> (vibration_history (ts_detection s))
  /\ temperature_history (ts_detection t)
     = <[i := temperature stored]> (temperature_history (ts_detection s))
  /\ rpm_history (ts_detection t)
     = <[i := rpm stored]> (rpm_history (ts_detection s)).
Proof.
  destruct (anomaly_cycle_any_anatomy oob sqrtf e th s) as (Hd & Hs & Hq & _).
  cbv zeta in *. rewrite Hs, Hd.
  match goal with
  | |- context [detect_anomalies_any ?a ?b ?c ?d ?g ?x] =>
      destruct (detect_anomalies_any_store a b c d g x) as (Hi & Hv & Ht & Hr)
  end.
  cbv zeta in *.
  split; [exact Hq|]. split; [exact Hi|].
  rewrite Hv, Ht, Hr. destruct (dt_lk_read (cy_detect e)); repeat split.
Qed.

(** The 102nd iteration takes the queued reading and stores its vibration
    of 12 mm/s at index 1, over the second sample. *)
Lemma anomaly_cycle_stores_one_sample_witness :
  let s := late_spike_pending in
  let t := fst (anomaly_cycle_any zeros_beyond App.sqrt_6 (anomaly_env true)
                  g_thresholds_init s) in
  history_index (ts_detection s) = 101
  /\ ts_sensor_queue s = [mkSensorData 12 45 20 50 2600]
  /\ ts_sensor_queue t = []
  /\ history_index (ts_detection t) = 102
  /\ vibration_history (ts_detection t)
     = <[1%nat := 12%Q]> (vibration_history (ts_detection s)).
Proof.
  intros s t.
  split; [vm_compute; reflexivity|].
  split; [vm_compute; reflexivity|].
  destruct (anomaly_cycle_stores_one_sample zeros_beyond App.sqrt_6 (anomaly_env true)
              g_thresholds_init s) as (Hq & Hi & Hv & _).
  fold t in Hq, Hi, Hv.
  split; [rewrite Hq; vm_compute; reflexivity|].
  split; [rewrite Hi; vm_compute; reflexivity|].
  rewrite Hv. vm_compute. reflexivity.
Defined.

(** X15: in every state the anomaly task announces its readiness in an
    iteration exactly when it received a reading in it, has not announced
    before and holds at least 20 samples after the store; the announcement
    is the one call that sets the anomaly bit. *)
Theorem readiness_announced_with_data_and_twenty_samples (oob : OutOfBounds)
    (sqrtf : Q -> Q) (e : CycleEnv) (th : ThresholdConfig_t) (s : TaskState) :
  let r := anomaly_cycle_any oob sqrtf e th s in
  snd r = if received (ts_sensor_queue s) && negb (anomaly_ready (ts_locals s))
             && (history_index (ts_detection (fst r)) >=? 20)
          then [SetBits ANOMALY_READY_BIT] else [].
Proof.
  destruct (anomaly_cycle_any_anatomy oob sqrtf e th s) as (_ & _ & _ & Hc).
  exact Hc.
Qed.

(** With 19 samples stored, no announcement made and a reading in the
    queue, the iteration stores the 20th sample and announces the
    readiness. *)
Lemma readiness_announced_with_data_and_twenty_samples_witness :
  let s := twentieth_sample_pending in
  let r := anomaly_cycle_any zeros_beyond App.sqrt_6 (anomaly_env true)
             g_thresholds_init s in
  history_index (ts_detection s) = 19
  /\ anomaly_ready (ts_locals s) = false
  /\ history_index (ts_detection (fst r)) = 20
  /\ snd r = [SetBits ANOMALY_READY_BIT].
Proof.
  intros s r.
  split; [vm_compute; reflexivity|].
  split; [vm_compute; reflexivity|].
  split; [vm_compute; reflexivity|].
  pose proof (readiness_announced_with_data_and_twenty_samples zeros_beyond App.sqrt_6
                (anomaly_env true) g_thresholds_init s) as H.
  cbv zeta in H. fold r in H. rewrite H. vm_compute. reflexivity.
Defined.

Lemma anomalies_with_state_mutex lk f g :
  (forall g0, anomalies (f g0) = anomalies g0) ->
  anomalies (with_state_mutex lk f g) = anomalies g.
Proof. intros Hf. destruct lk; simpl; [rewrite Hf|]; reflexivity. Qed.

Lemma score_and_publish_flags e th vib temp r ds g :
  dt_lk_publish e = true ->
  let a := anomalies (score_and_publish e th vib temp r ds g) in
  let '(v, t, p, count) :=
    anomaly_flags vib temp r (read_warning_thresholds (dt_lk_thresholds e) th) ds in
  vibration_anomaly a = v /\ temperature_anomaly a = t /\ rpm_anomaly a = p
  /\ anomaly_count a
     = if count >? 0 then u32 (anomaly_count (anomalies g) + count)
       else anomaly_count (anomalies g).
Proof.
  intros Hp. unfold score_and_publish. rewrite Hp.
  destruct (anomaly_flags _ _ _ _ _) as [[[v t] p] count].
  cbn [with_state_mutex]. unfold publish_results.
  cbn [count_system_give count_system_take set_mutex_stats set_anomalies anomalies
         vibration_anomaly temperature_anomaly rpm_anomaly anomaly_count mutex_stats].
  rewrite anomalies_with_state_mutex_id.
  assert (Ht : anomalies (with_threshold_mutex (dt_lk_thresholds e) g) = anomalies g)
    by (destruct (dt_lk_thresholds e); reflexivity).
  rewrite Ht. repeat split.
Qed.

(** X16: during the warm-up no anomaly is flagged, whatever the reading.
    While fewer than 20 samples were stored before an iteration, the
    iteration (with the lock for the results acquired) publishes the three
    flags as false, leaves the anomaly counter as it is and queues no
    alert. *)
Theorem no_anomaly_flagged_during_warm_up (sqrtf : Q -> Q) (e : CycleEnv)
    (th : ThresholdConfig_t) (s t : TaskState) (calls : list EventCall) :
  anomaly_cycle sqrtf e th s = Some (t, calls) ->
  0 <= history_index (ts_detection s) < 20 ->
  dt_lk_publish (cy_detect e) = true ->
  let a := anomalies (ts_shared t) in
  vibration_anomaly a = false /\ temperature_anomaly a = false
  /\ rpm_anomaly a = false
  /\ ts_alert_queue t = ts_alert_queue s.
Proof.
  intros H Hidx Hp.
  destruct (anomaly_cycle_anatomy _ _ _ _ _ _ H) as (g1 & Hd & Ha & _).
  pose proof (detect_anomalies_store _ _ _ _ _ _ _ Hd) as (Hi & _).
  rewrite u32_small in Hi by lia.
  unfold detect_anomalies in Hd.
  destruct (read_current _ _) as [[vib temp] r].
  destruct (update_baselines _ _) as [ds1|]; simpl in Hd; [|discriminate].
  inversion Hd; subst. clear Hd.
  pose proof (score_and_publish_flags (cy_detect e) th vib temp r (ts_detection t)
                (with_state_mutex (dt_lk_read (cy_detect e)) (fun g => g)
                   (snd (receive_loop
                           (if u32 (cycle_count (ts_locals s) + 1) mod 2 =? 0
                            then 1%nat else 2%nat) (cy_lk_receive e) 0
                           (ts_sensor_queue s) (ts_shared s)))) Hp) as Hf.
  cbv zeta in Hf. unfold anomaly_flags in Hf.
  destruct (read_warning_thresholds _ _) as [[[w1 w2] w3] w4].
  destruct (Z.gtb_spec (history_index (ts_detection t)) BASELINE_WINDOW) as [Hgt|_];
    [unfold BASELINE_WINDOW in Hgt; lia|].
  destruct Hf as (Hv & Ht & Hr & _).
  cbv zeta. rewrite Ha, Hv, Ht, Hr.
  repeat split.
  destruct (anomaly_cycle_alerts _ _ _ _ _ _ H) as (_ & Hq).
  rewrite Hq, Ha, Hv, Ht. rewrite !andb_false_r. reflexivity.
Qed.

Lemma no_anomaly_flagged_during_warm_up_witness :
  exists t calls,
    anomaly_cycle App.sqrt_6 (anomaly_env true) g_thresholds_init anomaly_task_init
    = Some (t, calls)
    /\ vibration_anomaly (anomalies (ts_shared t)) = false
    /\ ts_alert_queue t = [].
Proof.
  eexists. eexists.
  match goal with
  | |- ?c = Some (?t, ?calls) /\ _ =>
      assert (Hc : c = Some (t, calls)) by (vm_compute; reflexivity)
  end.
  split; [exact Hc|].
  destruct (no_anomaly_flagged_during_warm_up _ _ _ _ _ _ Hc) as (Hv & _ & _ & Hq).
  - vm_compute. split; [discriminate|reflexivity].
  - reflexivity.
  - split; [exact Hv|exact Hq].
Defined.

End AnomalyCycle.

(** ** The network task at its edges *)

Section NetworkEdges.
Import Network NetworkTask.

Lemma usize_small z : 0 <= z < 2 ^ 64 -> usize z = z.
Proof. intros H. unfold usize. apply Z.mod_small. exact H. Qed.

Lemma usize_add_sub b size : 0 <= b < 2 ^ 64 -> usize (usize (b + size) - size) = b.
Proof.
  intros H. unfold usize.
  rewrite Zminus_mod_idemp_l.
  replace (b + size - size) with b by lia.
  apply Z.mod_small. exact H.
Qed.

Lemma track_minimum_cases current_free minimum :
  0 <= current_free -> 0 <= minimum ->
  track_minimum current_free minimum
  = if minimum =? 0 then current_free else Z.min current_free minimum.
Proof.
  intros H0 H1. unfold track_minimum.
  destruct (Z.ltb_spec current_free minimum) as [Hlt|Hge].
  - destruct (Z.eqb_spec minimum 0) as [->|Hm]; [lia|].
    destruct (Z.eqb_spec current_free 0) as [->|Hc]; simpl; [lia|].
    lia.
  - destruct (Z.eqb_spec minimum 0) as [->|Hm]; simpl.
    + destruct (Z.gtb_spec current_free 0); lia.
    + lia.
Qed.

(** X17: the heap minimum kept by the allocation and the release helper is
    the least free-heap value seen, except that a recorded minimum of zero is
    replaced by the next value read: an exhausted heap is not remembered. *)
Theorem heap_minimum_forgets_exhaustion (current_free size : Z) (g : SystemState_t) :
  0 <= current_free -> 0 <= minimum_heap_free (memory_stats g) ->
  let m := minimum_heap_free (memory_stats g) in
  let expected := if m =? 0 then current_free else Z.min current_free m in
  minimum_heap_free (memory_stats (update_memory_stats_alloc true current_free size g))
  = expected
  /\ minimum_heap_free (memory_stats (update_memory_stats_free true current_free size g))
     = expected
  /\ current_heap_free (memory_stats (update_memory_stats_alloc true current_free size g))
     = current_free
  /\ current_heap_free (memory_stats (update_memory_stats_free true current_free size g))
     = current_free.
Proof.
  intros H0 H1. cbv zeta.
  rewrite <- (track_minimum_cases current_free _ H0 H1).
  repeat split.
Qed.

Lemma heap_minimum_forgets_exhaustion_witness :
  let g := set_memory_stats (g_system_state_init 262144)
             (mkMemoryStats 3 3 1 0 524 0 0 0) in
  minimum_heap_free (memory_stats (update_memory_stats_alloc true 261000 268 g))
  = 261000.
Proof.
  intros g.
  destruct (heap_minimum_forgets_exhaustion 261000 268 g) as (H & _).
  - vm_compute. discriminate.
  - vm_compute. discriminate.
  - exact H.
Defined.

(** X18: a disconnected network task that does not reconnect in an iteration
    (the draw fails, or the lock for the connection flag is not acquired)
    skips the transmission: it allocates nothing and sends nothing.  It has
    taken one alert from the queue all the same and counted it as sent. *)
Theorem alert_consumed_while_disconnected (e : CycleEnv) (s : TaskState) :
  network_connected (ts_shared s) = false ->
  cy_lk_reconnect_write e = false \/ 50 <= cy_rand_reconnect e mod 100 ->
  let r := network_cycle e s in
  let s' := fst (fst r) in
  snd r = SkippedDisconnected
  /\ ts_alert_queue s' = tail (ts_alert_queue s)
  /\ anomaly_alerts_sent (ts_stats s')
     = match ts_alert_queue s with
       | [] => anomaly_alerts_sent (ts_stats s)
       | _ :: _ => u32 (anomaly_alerts_sent (ts_stats s) + 1)
       end
  /\ packets_sent (ts_stats s') = packets_sent (ts_stats s)
  /\ packets_failed (ts_stats s') = packets_failed (ts_stats s)
  /\ memory_stats (ts_shared s') = memory_stats (ts_shared s)
  /\ ts_heap_live s' = ts_heap_live s.
Proof.
  intros Hc Hno. unfold network_cycle.
  rewrite Hc. cbn [negb].
  assert (Hrec : exists g1 calls,
             check_network_reconnect (cy_lk_reconnect_read e) (cy_rand_reconnect e)
               (cy_lk_reconnect_write e) (ts_shared s) = (g1, calls)
             /\ network_connected g1 = false
             /\ memory_stats g1 = memory_stats (ts_shared s)).
  { unfold check_network_reconnect. rewrite Hc.
    assert (Hw : negb (if cy_lk_reconnect_read e then false else false) = true)
      by (destruct (cy_lk_reconnect_read e); reflexivity).
    rewrite Hw.
    destruct (Z.ltb_spec (cy_rand_reconnect e mod 100) 50) as [Hlt|Hge].
    - destruct Hno as [Hlk|?]; [|lia]. rewrite Hlk.
      eexists _, _. split; [reflexivity|].
      destruct (cy_lk_reconnect_read e); simpl; split; (exact Hc || reflexivity).
    - eexists _, _. split; [reflexivity|].
      destruct (cy_lk_reconnect_read e); simpl; split; (exact Hc || reflexivity). }
  destruct Hrec as (g1 & calls & -> & Hc1 & Hm1).
  destruct (ts_alert_queue s) as [|a q]; simpl; rewrite Hc1; simpl;
    repeat split; exact Hm1.
Qed.

Lemma alert_consumed_while_disconnected_witness :
  let r := network_cycle (network_env true true true 99 50) disconnected_with_alert in
  snd r = SkippedDisconnected
  /\ ts_alert_queue (fst (fst r)) = []
  /\ anomaly_alerts_sent (ts_stats (fst (fst r))) = 1.
Proof.
  intros r.
  destruct (alert_consumed_while_disconnected (network_env true true true 99 50)
              disconnected_with_alert) as (H1 & H2 & H3 & _).
  - reflexivity.
  - right. vm_compute. discriminate.
  - subst r. split; [exact H1|]. split; [exact H2|exact H3].
Defined.

Lemma network_cycle_connected e s :
  network_connected (ts_shared s) = true ->
  network_cycle e s
  = let cycle := u32 (ts_cycle_count s + 1) in
    let '(alert, aq) := xQueueReceive (ts_alert_queue s) in
    let alerts_processed := match alert with Some _ => 1 | None => 0 end in
    let ns := match alert with
              | Some _ => count_alert_received (ts_stats s)
              | None => ts_stats s
              end in
    let g := ts_shared s in
    let packet_type := choose_packet_type cycle alerts_processed g in
    let '(packet, live, g) :=
      allocate_packet (cy_alloc e) packet_type (ts_heap_live s) g in
    match packet with
    | None => (mkTaskState cycle ns g aq live, [], SkippedAllocationFailed)
    | Some p =>
        let '(success, ns, g, calls') :=
          transmit_packet (cy_rand_transmit e) (cy_lk_transmit e)
            (cy_transmit_now e) (cy_content_size e) ns g in
        let '(live, g) := free_packet (cy_lk_free e) (cy_free_heap e) (Some p) live g in
        (mkTaskState cycle ns g aq live, calls', Transmitted success)
    end.
Proof.
  intros Hc. unfold network_cycle.
  destruct (xQueueReceive (ts_alert_queue s)) as [alert aq].
  rewrite Hc. cbn [negb]. rewrite Hc. cbn [negb]. reflexivity.
Qed.

(** X19: a failed transmission whose lock acquisition times out clears the
    network bit of the event group and leaves the connection flag set.  The
    task then sees itself connected and does not try to reconnect: its next
    iteration makes no call on the event group unless its transmission fails
    as well. *)
Theorem failed_transmission_on_lock_timeout_keeps_flag (e : CycleEnv) (s : TaskState) :
  network_connected (ts_shared s) = true ->
  al_malloc_ok (cy_alloc e) = true ->
  cy_rand_transmit e mod 100 < 5 ->
  cy_lk_transmit e = false ->
  let r := network_cycle e s in
  let s' := fst (fst r) in
  snd (fst r) = [ClearBits NETWORK_CONNECTED_BIT]
  /\ snd r = Transmitted false
  /\ network_connected (ts_shared s') = true
  /\ (forall e2, 5 <= cy_rand_transmit e2 mod 100 ->
                 snd (fst (network_cycle e2 s')) = []).
Proof.
  intros Hc Hm Hr Hlk.
  assert (H3 : snd (fst (network_cycle e s)) = [ClearBits NETWORK_CONNECTED_BIT]
               /\ snd (network_cycle e s) = Transmitted false
               /\ network_connected (ts_shared (fst (fst (network_cycle e s)))) = true).
  { rewrite (network_cycle_connected e s Hc).
    destruct (xQueueReceive (ts_alert_queue s)) as [alert aq]. cbv zeta.
    unfold allocate_packet. rewrite Hm.
    unfold transmit_packet.
    destruct (Z.geb_spec (cy_rand_transmit e mod 100) 5) as [?|_]; [lia|].
    rewrite Hlk. unfold free_packet.
    cbn [fst snd ts_shared].
    repeat split.
    destruct (cy_lk_free e), (al_lk (cy_alloc e)); exact Hc. }
  destruct H3 as (H1 & H2 & H3).
  cbv zeta. repeat split; try assumption.
  intros e2 He2.
  apply (network_cycle_connected_success e2 _ H3 He2).
Qed.

Lemma failed_transmission_on_lock_timeout_keeps_flag_witness :
  let r := network_cycle failure_on_lock_timeout network_task_init in
  snd (fst r) = [ClearBits NETWORK_CONNECTED_BIT]
  /\ network_connected (ts_shared (fst (fst r))) = true.
Proof.
  intros r.
  destruct (failed_transmission_on_lock_timeout_keeps_flag failure_on_lock_timeout
              network_task_init) as (H1 & _ & H3 & _).
  - reflexivity.
  - reflexivity.
  - vm_compute. reflexivity.
  - reflexivity.
  - subst r. split; [exact H1|exact H3].
Defined.

(** X20: the byte accounting of an iteration that transmits.  With the
    lock acquired at the allocation, the allocation and release counters
    grow by one each, the peak is the larger of the old peak and the byte
    count after the allocation, and the byte count returns to its old value
    when the lock is acquired at the release too; when it is not, the byte
    count stays raised by the packet size. *)
Theorem byte_accounting_of_a_transmission (e : CycleEnv) (s : TaskState) :
  network_connected (ts_shared s) = true ->
  al_malloc_ok (cy_alloc e) = true ->
  al_lk (cy_alloc e) = true ->
  0 <= bytes_allocated (memory_stats (ts_shared s)) < 2 ^ 64 ->
  let m := memory_stats (ts_shared s) in
  let m' := memory_stats (ts_shared (fst (fst (network_cycle e s)))) in
  let size :=
    packet_size_of
      (choose_packet_type (u32 (ts_cycle_count s + 1))
         (match ts_alert_queue s with [] => 0 | _ :: _ => 1 end) (ts_shared s)) in
  let raised := usize (bytes_allocated m + size) in
  allocations m' = u32 (allocations m + 1)
  /\ peak_usage m' = Z.max (peak_usage m) raised
  /\ (cy_lk_free e = true ->
      bytes_allocated m' = bytes_allocated m
      /\ deallocations m' = u32 (deallocations m + 1))
  /\ (cy_lk_free e = false ->
      bytes_allocated m' = raised /\ deallocations m' = deallocations m).
Proof.
  intros Hc Hm Hlk Hb. cbv zeta.
  rewrite (network_cycle_connected e s Hc).
  assert (Hpeak : forall b p, (if b >? p then b else p) = Z.max p b).
  { intros b p. destruct (Z.gtb_spec b p); lia. }
  destruct (ts_alert_queue s) as [|a q]; cbn [xQueueReceive]; cbv zeta;
    unfold allocate_packet; rewrite Hm, Hlk;
    match goal with
    | |- context [transmit_packet ?a ?b ?c ?d ?x ?y] =>
        pose proof (transmit_packet_memory a b c d x y) as Ht;
        destruct (transmit_packet a b c d x y) as [[[ok ns3] g3] calls3]
    end;
    cbn [fst snd] in Ht;
    unfold free_packet, update_memory_stats_free;
    cbn [pk_size fst snd ts_shared];
    destruct (cy_lk_free e); cbn [with_state_mutex];
    cbn; rewrite Ht; cbn; rewrite Hpeak;
    repeat split; try discriminate;
    apply usize_add_sub; exact Hb.
Qed.

Lemma byte_accounting_of_a_transmission_witness :
  let m' := memory_stats
              (ts_shared (fst (fst (network_cycle (network_env true true true 0 50)
                                      network_task_init)))) in
  allocations m' = 1 /\ bytes_allocated m' = 0 /\ deallocations m' = 1.
Proof.
  intros m'.
  destruct (byte_accounting_of_a_transmission (network_env true true true 0 50)
              network_task_init) as (Ha & _ & Hfree & _).
  - reflexivity.
  - reflexivity.
  - reflexivity.
  - vm_compute. split; [discriminate|reflexivity].
  - destruct (Hfree eq_refl) as [Hb Hd].
    subst m'. split; [exact Ha|]. split; [exact Hb|exact Hd].
Defined.

(** X21: what [anomaly_alerts_sent] counts.  In an iteration whose
    transmission succeeds the counter grows by one for the alert taken from
    the queue, if there was one, and by one more when any of the three
    anomaly flags is set: a flagged anomaly is counted at every successful
    transmission without any alert, and a dequeued alert can count twice.
    The packet counter grows by one and the byte counter by the content
    size. *)
Theorem alerts_sent_counts_dequeues_and_flagged_transmissions (e : CycleEnv)
    (s : TaskState) :
  network_connected (ts_shared s) = true ->
  al_malloc_ok (cy_alloc e) = true ->
  5 <= cy_rand_transmit e mod 100 ->
  0 <= anomaly_alerts_sent (ts_stats s) < 2 ^ 32 ->
  let a := anomalies (ts_shared s) in
  let dequeued := match ts_alert_queue s with [] => 0 | _ :: _ => 1 end in
  let flagged :=
    if vibration_anomaly a || temperature_anomaly a || rpm_anomaly a then 1 else 0 in
  let ns' := ts_stats (fst (fst (network_cycle e s))) in
  snd (network_cycle e s) = Transmitted true
  /\ anomaly_alerts_sent ns' = u32 (anomaly_alerts_sent (ts_stats s) + dequeued + flagged)
  /\ packets_sent ns' = u32 (packets_sent (ts_stats s) + 1)
  /\ bytes_sent ns' = u32 (bytes_sent (ts_stats s) + cy_content_size e)
  /\ packets_failed ns' = packets_failed (ts_stats s).
Proof.
  intros Hc Hm Hr Ha. cbv zeta.
  rewrite (network_cycle_connected e s Hc).
  destruct (ts_alert_queue s) as [|x q]; cbn [xQueueReceive]; cbv zeta;
    unfold allocate_packet; rewrite Hm;
    unfold transmit_packet;
    (destruct (Z.geb_spec (cy_rand_transmit e mod 100) 5) as [_|?]; [|lia]);
    unfold free_packet; cbn [fst snd ts_stats ts_shared anomaly_alerts_sent
                               packets_sent bytes_sent packets_failed
                               count_alert_received];
    unfold update_memory_stats_alloc;
    rewrite (anomalies_with_state_mutex (al_lk (cy_alloc e)))
      by (intros g0; reflexivity);
    destruct (vibration_anomaly (anomalies (ts_shared s))
              || temperature_anomaly (anomalies (ts_shared s))
              || rpm_anomaly (anomalies (ts_shared s)));
    repeat split;
    rewrite ?u32_add_idemp, ?Z.add_0_r; try reflexivity;
    try (rewrite <- Z.add_assoc; reflexivity);
    rewrite u32_small; lia.
Qed.

Lemma alerts_sent_counts_dequeues_and_flagged_transmissions_witness :
  let r := network_cycle (network_env true true true 0 50) flagged_with_alert in
  snd r = Transmitted true /\ anomaly_alerts_sent (ts_stats (fst (fst r))) = 2.
Proof.
  intros r.
  destruct (alerts_sent_counts_dequeues_and_flagged_transmissions
              (network_env true true true 0 50) flagged_with_alert)
    as (H1 & H2 & _).
  - reflexivity.
  - reflexivity.
  - vm_compute. discriminate.
  - vm_compute. split; [discriminate|reflexivity].
  - subst r. split; [exact H1|exact H2].
Defined.

End NetworkEdges.

(** ** The table of the stack monitor *)

Section StackTable.
Import StackMonitor.

Lemma substring_0_all (s : string) : forall n,
  (String.length s <= n)%nat -> substring 0 n s = s.
Proof.
  induction s as [|c s IH]; intros n H.
  - destruct n; reflexivity.
  - destruct n; simpl in H; [lia|].
    simpl. rewrite IH by lia. reflexivity.
Qed.

Lemma length_substring_0 (s : string) : forall n,
  String.length (substring 0 n s) = Nat.min n (String.length s).
Proof.
  induction s as [|c s IH]; intros n.
  - destruct n; reflexivity.
  - destruct n; simpl; [reflexivity|]. rewrite IH. reflexivity.
Qed.

Lemma strncmp_eq_refl_short name :
  strncmp_eq (strncpy name (MAX_TASK_NAME_LEN - 1)) name MAX_TASK_NAME_LEN
  = (String.length name <=? 15)%nat.
Proof.
  unfold strncmp_eq, strncpy, MAX_TASK_NAME_LEN.
  change (16 - 1)%nat with 15%nat.
  destruct (Nat.leb_spec (String.length name) 15) as [Hle|Hgt].
  - rewrite !(substring_0_all name) by lia. apply String.eqb_refl.
  - apply String.eqb_neq. intros E.
    apply (f_equal String.length) in E.
    rewrite !length_substring_0 in E. lia.
Qed.

Lemma strncmp_eq_long stored name :
  (String.length stored <= 15)%nat -> (16 <= String.length name)%nat ->
  strncmp_eq stored name MAX_TASK_NAME_LEN = false.
Proof.
  intros Hs Hn. unfold strncmp_eq, MAX_TASK_NAME_LEN.
  apply String.eqb_neq. intros E.
  apply (f_equal String.length) in E.
  rewrite !length_substring_0 in E. lia.
Qed.

Lemma find_monitor_app_none l name t : forall i0,
  find_monitor l name i0 = None ->
  find_monitor (l ++ [t]) name i0
  = if strncmp_eq (task_name t) name MAX_TASK_NAME_LEN
    then Some (i0 + length l)%nat else None.
Proof.
  induction l as [|x l IH]; intros i0 H; simpl in *.
  - rewrite Nat.add_0_r. reflexivity.
  - destruct (strncmp_eq (task_name x) name MAX_TASK_NAME_LEN); [discriminate|].
    rewrite IH by exact H. replace (S i0 + length l)%nat with (i0 + S (length l))%nat by lia.
    reflexivity.
Qed.

Lemma update_monitor_fields now name free usage t gs :
  let t' := fst (fst (update_monitor now name free usage t gs)) in
  task_name t' = task_name t
  /\ stack_size_words t' = stack_size_words t
  /\ current_high_water t' = free
  /\ usage_percent t' = usage
  /\ last_check_time t' = now
  /\ minimum_high_water t' = Z.min free (minimum_high_water t)
  /\ peak_usage_percent t' = Z.max usage (peak_usage_percent t).
Proof.
  unfold update_monitor.
  assert (Hmin : (if free <? minimum_high_water t then free else minimum_high_water t)
                 = Z.min free (minimum_high_water t))
    by (destruct (Z.ltb_spec free (minimum_high_water t)); lia).
  assert (Hmax : (if usage >? peak_usage_percent t then usage else peak_usage_percent t)
                 = Z.max usage (peak_usage_percent t))
    by (destruct (Z.gtb_spec usage (peak_usage_percent t)); lia).
  rewrite Hmin, Hmax.
  destruct ((usage >=? 85) && negb (warning_issued t));
    [|destruct ((usage >=? 70) && negb (warning_issued t))];
    cbn [fst snd]; destruct (usage <? 60); cbn [andb];
    try destruct (warning_issued t); cbn; repeat split.
Qed.

Lemma update_monitor_global now name free usage t gs :
  let gs' := snd (fst (update_monitor now name free usage t gs)) in
  proactive_checks gs' = proactive_checks gs
  /\ tasks_monitored gs' = tasks_monitored gs
  /\ overflow_events gs' = overflow_events gs.
Proof.
  unfold update_monitor.
  destruct ((usage >=? 85) && negb (warning_issued t));
    [|destruct ((usage >=? 70) && negb (warning_issued t))];
    cbn [fst snd]; destruct (usage <? 60); cbn [andb];
    try destruct (warning_issued t); cbn; repeat split.
Qed.

(** X22: a check of a task that has an entry keeps the entry's name and
    stack size (the size passed is ignored), records the free words, the
    usage and the tick, and keeps the extremes: the minimum of the free words
    never rises and the peak of the usage never falls. *)
Theorem stack_entry_keeps_its_extremes (now : Z) (name : string)
    (size free usage : Z) (sys : StackMonitoringSystem_t) (i : nat)
    (t : TaskStackMonitor_t) :
  find_monitor (tasks sys) name 0 = Some i ->
  tasks sys !! i = Some t ->
  let sys' := fst (update_stack_monitoring now name size free usage sys) in
  exists t', tasks sys' !! i = Some t'
  /\ length (tasks sys') = length (tasks sys)
  /\ task_name t' = task_name t
  /\ stack_size_words t' = stack_size_words t
  /\ current_high_water t' = free
  /\ usage_percent t' = usage
  /\ last_check_time t' = now
  /\ minimum_high_water t' = Z.min free (minimum_high_water t)
  /\ peak_usage_percent t' = Z.max usage (peak_usage_percent t).
Proof.
  intros Hf Ht. unfold update_stack_monitoring. rewrite Hf, Ht.
  pose proof (update_monitor_fields now name free usage t
                (count_check (global_stats sys))) as H.
  destruct (update_monitor _ _ _ _ _ _) as [[t' gs'] msgs].
  cbn [fst snd tasks] in *.
  exists t'. split.
  - apply list_lookup_insert_eq. apply lookup_lt_Some in Ht. exact Ht.
  - split; [apply length_insert|exact H].
Qed.

Lemma stack_entry_keeps_its_extremes_witness :
  exists t',
    tasks (fst (update_stack_monitoring 2000 "SensorTask" 512 230 55 (one_task 75 128)))
      !! 0%nat = Some t'
    /\ minimum_high_water t' = 128
    /\ peak_usage_percent t' = 75.
Proof.
  destruct (stack_entry_keeps_its_extremes 2000 "SensorTask" 512 230 55
              (one_task 75 128) 0%nat
              (mkTaskMonitor "SensorTask" 512 128 128 75 75 true 1000))
    as (t' & Ht & _ & _ & _ & _ & _ & _ & Hmin & Hmax).
  - reflexivity.
  - reflexivity.
  - exists t'. split; [exact Ht|]. split; [exact Hmin|exact Hmax].
Defined.

(** X23: the first check of a task whose name has at most 15 characters
    registers it, while the table has room: an entry is appended under the
    name, with the stack size passed, the free words as minimum and the usage
    as peak, the number of monitored tasks grows by one, and the next search
    for the name finds that entry. *)
Theorem first_check_registers_the_task (now : Z) (name : string)
    (size free usage : Z) (sys : StackMonitoringSystem_t) :
  find_monitor (tasks sys) name 0 = None ->
  monitored_count sys < MAX_STACK_MONITORED_TASKS ->
  (String.length name <= 15)%nat ->
  let sys' := fst (update_stack_monitoring now name size free usage sys) in
  exists t', tasks sys' = tasks sys ++ [t']
  /\ task_name t' = name
  /\ stack_size_words t' = size
  /\ minimum_high_water t' = free
  /\ peak_usage_percent t' = usage
  /\ monitored_count sys' = monitored_count sys + 1
  /\ tasks_monitored (global_stats sys') = monitored_count sys + 1
  /\ find_monitor (tasks sys') name 0 = Some (length (tasks sys)).
Proof.
  intros Hf Hroom Hlen. unfold update_stack_monitoring. rewrite Hf.
  destruct (Z.ltb_spec (monitored_count sys) MAX_STACK_MONITORED_TASKS) as [_|?];
    [|lia].
  pose proof (update_monitor_fields now name free usage
                (new_monitor name size free usage)
                (set_tasks_monitored (monitored_count sys + 1)
                   (count_check (global_stats sys)))) as H.
  pose proof (update_monitor_global now name free usage
                (new_monitor name size free usage)
                (set_tasks_monitored (monitored_count sys + 1)
                   (count_check (global_stats sys)))) as Hg.
  destruct (update_monitor _ _ _ _ _ _) as [[t' gs'] msgs].
  cbn [fst snd tasks global_stats] in *.
  destruct H as (Hn & Hsz & _ & _ & _ & Hmin & Hmax).
  destruct Hg as (_ & Hcount & _).
  cbn in Hn, Hsz, Hmin, Hmax, Hcount.
  assert (Hname : task_name t' = name).
  { rewrite Hn. unfold strncpy. apply substring_0_all.
    unfold MAX_TASK_NAME_LEN. simpl. exact Hlen. }
  exists t'. repeat split; try assumption.
  - rewrite Hmin. lia.
  - rewrite Hmax. lia.
  - unfold monitored_count. cbn [tasks]. rewrite length_app. simpl. lia.
  - rewrite (find_monitor_app_none _ _ _ 0%nat Hf).
    rewrite Hn, strncmp_eq_refl_short.
    destruct (Nat.leb_spec (String.length name) 15); [reflexivity|lia].
Qed.

Lemma first_check_registers_the_task_witness :
  exists t',
    tasks (fst (update_stack_monitoring 1000 "SensorTask" 512 128 75
                  stack_monitoring_init)) = [t']
    /\ task_name t' = "SensorTask"%string
    /\ find_monitor
         (tasks (fst (update_stack_monitoring 1000 "SensorTask" 512 128 75
                        stack_monitoring_init))) "SensorTask" 0 = Some 0%nat.
Proof.
  destruct (first_check_registers_the_task 1000 "SensorTask" 512 128 75
              stack_monitoring_init)
    as (t' & Ht & Hn & _ & _ & _ & _ & _ & Hf).
  - reflexivity.
  - reflexivity.
  - simpl. lia.
  - exists t'. split; [exact Ht|]. split; [exact Hn|exact Hf].
Defined.

Lemma find_monitor_long_name l name : forall i0,
  Forall (fun t => (String.length (task_name t) <= 15)%nat) l ->
  (16 <= String.length name)%nat ->
  find_monitor l name i0 = None.
Proof.
  induction l as [|x l IH]; intros i0 Hall Hn; [reflexivity|].
  inversion Hall; subst. simpl.
  rewrite strncmp_eq_long by assumption. apply IH; assumption.
Qed.

(** X24: a name of 16 or more characters is never found again.  The entry
    keeps the first 15 characters and the search compares 16, so every check
    under such a name appends a new entry while the table has room, and the
    warning of a usage of 70% or more is repeated at every check. *)
Theorem long_name_is_registered_at_every_check (now : Z) (name : string)
    (size free usage : Z) (sys : StackMonitoringSystem_t) :
  stack_table_ok sys ->
  (16 <= String.length name)%nat ->
  monitored_count sys < MAX_STACK_MONITORED_TASKS ->
  let r := update_stack_monitoring now name size free usage sys in
  stack_table_ok (fst r)
  /\ monitored_count (fst r) = monitored_count sys + 1
  /\ find_monitor (tasks (fst r)) name 0 = None
  /\ (70 <= usage -> exists m, snd r = [m]).
Proof.
  intros [Hcount Hnames] Hlong Hroom. cbv zeta.
  pose proof (find_monitor_long_name (tasks sys) name 0 Hnames Hlong) as Hf.
  unfold update_stack_monitoring. rewrite Hf.
  destruct (Z.ltb_spec (monitored_count sys) MAX_STACK_MONITORED_TASKS) as [_|?];
    [|lia].
  pose proof (update_monitor_fields now name free usage
                (new_monitor name size free usage)
                (set_tasks_monitored (monitored_count sys + 1)
                   (count_check (global_stats sys)))) as H.
  pose proof (update_monitor_cases now name free usage
                (new_monitor name size free usage)
                (set_tasks_monitored (monitored_count sys + 1)
                   (count_check (global_stats sys)))) as Hc.
  destruct (update_monitor _ _ _ _ _ _) as [[t' gs'] msgs].
  cbn [fst snd tasks global_stats] in *.
  destruct H as (Hn & _).
  assert (Hlen : (String.length (task_name t') <= 15)%nat).
  { rewrite Hn. cbn [new_monitor task_name]. unfold strncpy.
    rewrite length_substring_0. unfold MAX_TASK_NAME_LEN.
    change (16 - 1)%nat with 15%nat. lia. }
  assert (Hall : Forall (fun t => (String.length (task_name t) <= 15)%nat)
                   (tasks sys ++ [t'])).
  { apply Forall_app. split; [exact Hnames|]. constructor; [exact Hlen|constructor]. }
  assert (Hcnt : monitored_count (mkStackSystem (tasks sys ++ [t']) gs')
                 = monitored_count sys + 1).
  { unfold monitored_count. cbn [tasks]. rewrite length_app. simpl. lia. }
  repeat split.
  - rewrite Hcnt. lia.
  - exact Hall.
  - exact Hcnt.
  - apply find_monitor_long_name; assumption.
  - intros Hu. destruct Hc as (Hcrit & Hwarn & _).
    destruct (Z.lt_ge_cases usage 85) as [Hlt|Hge].
    + destruct (Hwarn eq_refl (conj Hu Hlt)) as (_ & _ & ->). eexists. reflexivity.
    + destruct (Hcrit eq_refl Hge) as (_ & _ & ->). eexists. reflexivity.
Qed.

Lemma long_name_is_registered_at_every_check_witness :
  let r := update_stack_monitoring 1000 "TurbineSupervisorTask" 512 128 75
             stack_monitoring_init in
  monitored_count (fst r) = 1
  /\ find_monitor (tasks (fst r)) "TurbineSupervisorTask" 0 = None.
Proof.
  intros r.
  destruct (long_name_is_registered_at_every_check 1000 "TurbineSupervisorTask"
              512 128 75 stack_monitoring_init) as (_ & Hc & Hf & _).
  - split; [vm_compute; discriminate|constructor].
  - simpl. lia.
  - reflexivity.
  - subst r. split; [exact Hc|exact Hf].
Defined.

(** X25: when the table holds 8 entries, a task without an entry is counted
    as checked and nothing else happens: no entry is written, no warning is
    issued or counted, whatever its usage. *)
Theorem full_table_ignores_further_tasks (now : Z) (name : string)
    (size free usage : Z) (sys : StackMonitoringSystem_t) :
  find_monitor (tasks sys) name 0 = None ->
  MAX_STACK_MONITORED_TASKS <= monitored_count sys ->
  let r := update_stack_monitoring now name size free usage sys in
  tasks (fst r) = tasks sys
  /\ snd r = []
  /\ counters (global_stats (fst r)) = counters (global_stats sys)
  /\ tasks_monitored (global_stats (fst r)) = tasks_monitored (global_stats sys)
  /\ proactive_checks (global_stats (fst r))
     = u32 (proactive_checks (global_stats sys) + 1).
Proof.
  intros Hf Hfull. unfold update_stack_monitoring. rewrite Hf.
  destruct (Z.ltb_spec (monitored_count sys) MAX_STACK_MONITORED_TASKS) as [?|_];
    [lia|].
  repeat split.
Qed.

Lemma full_table_ignores_further_tasks_witness :
  let r := update_stack_monitoring 1000 "SensorTask" 512 20 96 full_table in
  tasks (fst r) = tasks full_table /\ snd r = [].
Proof.
  intros r.
  destruct (full_table_ignores_further_tasks 1000 "SensorTask" 512 20 96 full_table)
    as (Ht & Hm & _).
  - reflexivity.
  - vm_compute. discriminate.
  - subst r. split; [exact Ht|exact Hm].
Defined.

(** X26: a check touches the entry of the task checked only: every other
    entry of the table is left as it is. *)
Theorem check_leaves_other_entries (now : Z) (name : string)
    (size free usage : Z) (sys : StackMonitoringSystem_t) (j : nat)
    (t : TaskStackMonitor_t) :
  tasks sys !! j = Some t ->
  find_monitor (tasks sys) name 0 <> Some j ->
  tasks (fst (update_stack_monitoring now name size free usage sys)) !! j = Some t.
Proof.
  intros Ht Hj. unfold update_stack_monitoring.
  destruct (find_monitor (tasks sys) name 0) as [i|] eqn:Hf.
  - destruct (tasks sys !! i) as [ti|] eqn:Hi; [|exact Ht].
    destruct (update_monitor _ _ _ _ _ _) as [[t' gs'] msgs].
    cbn [fst tasks].
    rewrite list_lookup_insert_ne by congruence. exact Ht.
  - destruct (monitored_count sys <? MAX_STACK_MONITORED_TASKS); [|exact Ht].
    destruct (update_monitor _ _ _ _ _ _) as [[t' gs'] msgs].
    cbn [fst tasks]. apply lookup_app_l_Some. exact Ht.
Qed.

Lemma check_leaves_other_entries_witness :
  tasks (fst (update_stack_monitoring 2000 "SensorTask" 512 230 55 two_tasks)) !! 1%nat
  = Some (mkTaskMonitor "SafetyTask" 1024 900 900 12 12 false 1000).
Proof.
  apply check_leaves_other_entries.
  - reflexivity.
  - vm_compute. discriminate.
Defined.

End StackTable.

(** ** The stack usage computed by the dashboard *)

Section StackUsage.
Import TaskStats StackMonitor.

Lemma stack_size_of_task_positive name : 0 < stack_size_of_task name.
Proof.
  unfold stack_size_of_task.
  repeat match goal with
         | |- context [if ?c then _ else _] => destruct c
         end; reflexivity.
Qed.

Lemma stack_usage_percent_thresholds name size free :
  0 < size -> 0 <= free ->
  let u := stack_usage_percent name size free in
  3 <= u <= 100
  /\ (70 <= u <-> 10 * free <= 3 * size)
  /\ (85 <= u <-> 20 * free <= 3 * size).
Proof.
  intros Hs Hf. unfold stack_usage_percent.
  destruct (Z.gtb_spec size 0) as [_|?]; [|lia].
  destruct (Z.leb_spec free size) as [Hle|Hgt]; cbn [andb]; [|lia].
  set (p := (size - free) * 100 / size).
  assert (Hp0 : 0 <= p) by (apply Z.div_pos; lia).
  assert (Hp100 : p <= 100)
    by (apply Z.div_le_upper_bound; lia).
  assert (H70 : 70 <= p <-> 10 * free <= 3 * size).
  { split; intros H.
    - destruct (Z.le_gt_cases (10 * free) (3 * size)) as [|Hc]; [assumption|].
      assert (p < 70) by (apply Z.div_lt_upper_bound; lia). lia.
    - apply Z.div_le_lower_bound; lia. }
  assert (H85 : 85 <= p <-> 20 * free <= 3 * size).
  { split; intros H.
    - destruct (Z.le_gt_cases (20 * free) (3 * size)) as [|Hc]; [assumption|].
      assert (p < 85) by (apply Z.div_lt_upper_bound; lia). lia.
    - apply Z.div_le_lower_bound; lia. }
  clearbody p. cbv zeta.
  destruct (Z.ltb_spec p 5) as [Hlt|Hge].
  - repeat match goal with
           | |- context [if ?c then _ else _] => destruct c
           end; lia.
  - lia.
Qed.

(** X27: the stack usage the dashboard computes from the high-water mark
    lies between 3 and 100, and it reaches the warning level of 70 exactly
    when the free words are at most 30% of the stack size, and the critical
    level of 85 exactly when they are at most 15% of it. *)
Theorem stack_usage_levels_in_free_words (name : string) (size free : Z) :
  0 < size -> 0 <= free ->
  let u := stack_usage_percent name size free in
  3 <= u <= 100
  /\ (70 <= u <-> 10 * free <= 3 * size)
  /\ (85 <= u <-> 20 * free <= 3 * size).
Proof. apply stack_usage_percent_thresholds. Qed.

Lemma stack_usage_levels_in_free_words_witness :
  70 <= stack_usage_percent "SensorTask" 512 153
  /\ stack_usage_percent "SensorTask" 512 153 <= 100.
Proof.
  destruct (stack_usage_levels_in_free_words "SensorTask" 512 153)
    as (Hb & H70 & _).
  - reflexivity.
  - vm_compute. discriminate.
  - split; [apply H70; vm_compute; discriminate|apply Hb].
Defined.

(** X28: the stack check of a task of the loop of [update_task_stats].  For
    a task that has an entry without a pending warning, the check prints one
    message when the free words are at most 30% of the stack size assumed
    for the task's name, and nothing when they are more. *)
Theorem low_free_stack_raises_one_warning (now : Z) (name : string) (free : Z)
    (sys : StackMonitoringSystem_t) (i : nat) (t : TaskStackMonitor_t) :
  find_monitor (tasks sys) name 0 = Some i ->
  tasks sys !! i = Some t ->
  warning_issued t = false ->
  0 <= free ->
  let size := stack_size_of_task name in
  let u := stack_usage_percent name size free in
  let r := check_task_stack now name free sys in
  (10 * free <= 3 * size ->
   snd r = [if 85 <=? u then StackCritical name u free else StackWarning name u free])
  /\ (3 * size < 10 * free -> snd r = []).
Proof.
  intros Hf Ht Hw H0. cbv zeta.
  pose proof (stack_usage_percent_thresholds name (stack_size_of_task name) free
                (stack_size_of_task_positive name) H0) as (Hb & H70 & H85).
  cbv zeta in Hb, H70, H85.
  unfold check_task_stack, update_stack_monitoring. rewrite Hf, Ht.
  pose proof (update_monitor_cases now name free
                (stack_usage_percent name (stack_size_of_task name) free) t
                (count_check (global_stats sys))) as (Hc & Hwn & Hq & _).
  destruct (update_monitor _ _ _ _ _ _) as [[t' gs'] msgs].
  cbn [fst snd] in *.
  split; intros H.
  - apply H70 in H.
    destruct (Z.leb_spec 85 (stack_usage_percent name (stack_size_of_task name) free))
      as [Hge|Hlt].
    + apply (Hc Hw Hge).
    + apply (Hwn Hw (conj H Hlt)).
  - apply Hq; [exact Hw|].
    destruct (Z.lt_ge_cases (stack_usage_percent name (stack_size_of_task name) free) 70)
      as [|Hge]; [assumption|].
    apply H70 in Hge. lia.
Qed.

Lemma low_free_stack_raises_one_warning_witness :
  snd (check_task_stack 2000 "SensorTask" 100 (one_task 50 256))
  = [StackWarning "SensorTask" 80 100].
Proof.
  destruct (low_free_stack_raises_one_warning 2000 "SensorTask" 100
              (one_task 50 256) 0%nat
              (mkTaskMonitor "SensorTask" 512 256 256 50 50 false 1000))
    as (Hw & _).
  - reflexivity.
  - reflexivity.
  - reflexivity.
  - vm_compute. discriminate.
  - apply Hw. vm_compute. discriminate.
Defined.

End StackUsage.

(** ** The preemption history and the simulated interrupt *)

Section PreemptionDisplay.
Import Preemption.

Lemma record_all_snoc xs x log :
  record_all (xs ++ [x]) log
  = (let '(now, a, b, r) := x in record_preemption now a b r (record_all xs log)).
Proof. unfold record_all. rewrite fold_left_app. reflexivity. Qed.

Lemma record_preemption_stores x log :
  (let '(now, a, b, r) := x in record_preemption now a b r log)
  = mkPreemptionLog
      (<[Z.to_nat (preemption_index log mod PREEMPTION_HISTORY_SIZE) := stored_event x]>
         (preemption_history log))
      (u32 (preemption_index log + 1)).
Proof. destruct x as [[[now a] b] r]. reflexivity. Qed.

Lemma recorded_log (xs : list (Z * string * string * string)) :
  Z.of_nat (length xs) < 2 ^ 32 ->
  let log := record_all xs preemption_log_init in
  preemption_index log = Z.of_nat (length xs)
  /\ length (preemption_history log) = 10%nat
  /\ (forall (i : nat) x,
        xs !! i = Some x -> (length xs <= i + 10)%nat ->
        preemption_history log !! (i mod 10)%nat = Some (stored_event x)).
Proof.
  induction xs as [|x xs IH] using rev_ind; intros Hlen.
  - simpl. repeat split. intros i x H. discriminate.
  - rewrite length_app in Hlen. simpl in Hlen.
    specialize (IH ltac:(lia)). cbv zeta in IH. destruct IH as (Hidx & Hl & Hev).
    cbv zeta. rewrite record_all_snoc, record_preemption_stores.
    cbn [preemption_index preemption_history]. rewrite Hidx.
    assert (Hmod : Z.to_nat (Z.of_nat (length xs) mod PREEMPTION_HISTORY_SIZE)
                   = (length xs mod 10)%nat).
    { unfold PREEMPTION_HISTORY_SIZE. change 10 with (Z.of_nat 10).
      rewrite <- Nat2Z.inj_mod. apply Nat2Z.id. }
    rewrite Hmod.
    pose proof (Nat.mod_upper_bound (length xs) 10 ltac:(lia)) as Hb.
    split; [|split].
    + rewrite length_app. simpl. rewrite u32_small by lia. lia.
    + rewrite length_insert. exact Hl.
    + intros i y Hy Hi. rewrite length_app in Hi. simpl in Hi.
      destruct (Nat.eq_dec i (length xs)) as [->|Hne].
      * rewrite lookup_app_r in Hy by lia.
        rewrite Nat.sub_diag in Hy. simpl in Hy. inversion Hy; subst.
        apply list_lookup_insert_eq. lia.
      * assert (Hlt : (i < length xs)%nat).
        { apply lookup_lt_Some in Hy. rewrite length_app in Hy. simpl in Hy. lia. }
        rewrite lookup_app_l in Hy by exact Hlt.
        rewrite list_lookup_insert_ne.
        -- apply Hev; [exact Hy|lia].
        -- intros E.
           pose proof (Nat.div_mod_eq i 10) as H1.
           pose proof (Nat.div_mod_eq (length xs) 10) as H2.
           rewrite E in H2.
           assert (length xs - i = 10 * (length xs / 10 - i / 10))%nat by lia.
           assert (i / 10 <= length xs / 10)%nat
             by (apply Nat.Div0.div_le_mono; lia).
           destruct (Nat.eq_dec (length xs / 10)%nat (i / 10)%nat); [lia|].
           assert (1 <= length xs / 10 - i / 10)%nat by lia.
           nia.
Qed.

Lemma display_loop_recorded (xs : list (Z * string * string * string))
    (start_idx : Z) :
  Z.of_nat (length xs) < 2 ^ 32 ->
  0 <= start_idx -> start_idx + 5 < 2 ^ 32 ->
  Z.of_nat (length xs) <= start_idx + 5 ->
  forall (n i : nat),
    start_idx <= Z.of_nat i -> (i <= length xs)%nat -> (length xs <= i + n)%nat ->
    display_loop (record_all xs preemption_log_init) start_idx (Z.of_nat i) n
    = Some (List.filter shown (map stored_event (drop i xs))).
Proof.
  intros Hlen H0 H5 Hwin.
  destruct (recorded_log xs Hlen) as (Hidx & Hl & Hev).
  induction n as [|n IH]; intros i Hi Hle Hfuel.
  - assert (i = length xs) by lia. subst i.
    simpl. rewrite Hidx, Z.ltb_irrefl. simpl.
    rewrite drop_all. reflexivity.
  - destruct (Nat.eq_dec i (length xs)) as [->|Hne].
    + simpl. rewrite Hidx, Z.ltb_irrefl. simpl.
      rewrite drop_all. reflexivity.
    + assert (Hlt : (i < length xs)%nat) by lia.
      destruct (lookup_lt_is_Some_2 xs i Hlt) as [x Hx].
      simpl. rewrite Hidx.
      destruct (Z.ltb_spec (Z.of_nat i) (Z.of_nat (length xs))) as [_|?]; [|lia].
      rewrite (u32_small (start_idx + 5)) by lia.
      destruct (Z.ltb_spec (Z.of_nat i) (start_idx + 5)) as [_|?]; [|lia].
      cbn [andb].
      assert (Hmod : Z.to_nat (Z.of_nat i mod PREEMPTION_HISTORY_SIZE) = (i mod 10)%nat).
      { unfold PREEMPTION_HISTORY_SIZE. change 10 with (Z.of_nat 10).
        rewrite <- Nat2Z.inj_mod. apply Nat2Z.id. }
      rewrite Hmod, (Hev i x Hx ltac:(lia)). simpl.
      rewrite (u32_small (Z.of_nat i + 1)) by lia.
      replace (Z.of_nat i + 1) with (Z.of_nat (S i)) by lia.
      rewrite IH by lia. simpl.
      rewrite (drop_S xs x i Hx). simpl.
      change (shown (stored_event x)) with (tick (stored_event x) >? 0).
      destruct (tick (stored_event x) >? 0); reflexivity.
Qed.

(** X29: the dashboard shows the last five preemptions recorded.  After any
    sequence of fewer than 2^32 calls of [record_preemption] the list printed
    under "PREEMPTION EVENTS" holds the five most recent of them (all of them
    while there are fewer), oldest first, with the task names cut to 15
    characters; an event recorded at tick 0 is not printed. *)
Theorem dashboard_shows_last_five_preemptions
    (xs : list (Z * string * string * string)) :
  Z.of_nat (length xs) < 2 ^ 32 ->
  console_preemption_events (record_all xs preemption_log_init)
  = Some (List.filter shown (map stored_event (drop (length xs - 5) xs))).
Proof.
  intros Hlen. unfold console_preemption_events.
  destruct (recorded_log xs Hlen) as (Hidx & _). rewrite Hidx.
  destruct (Z.gtb_spec (Z.of_nat (length xs)) 5) as [Hgt|Hle].
  - rewrite u32_small by lia.
    replace (Z.of_nat (length xs) - 5) with (Z.of_nat (length xs - 5)) by lia.
    apply display_loop_recorded; lia.
  - replace (length xs - 5)%nat with 0%nat by lia.
    change 0 with (Z.of_nat 0).
    apply display_loop_recorded; simpl; lia.
Qed.

Lemma dashboard_shows_last_five_preemptions_witness :
  console_preemption_events (record_all seven_preemptions preemption_log_init)
  = Some (List.filter shown (map stored_event (drop 2 seven_preemptions))).
Proof.
  apply (dashboard_shows_last_five_preemptions seven_preemptions).
  vm_compute. reflexivity.
Defined.

End PreemptionDisplay.

Section Interrupt.
Import Isr.

(** X30: the simulated interrupt takes the published vibration, adds a
    step between -0.5 and +0.4, and queues the sample with the tick count
    and its sequence number.  On a full queue (10 samples) the sample is
    dropped and the interrupt is not counted; the sequence number advances
    in both cases. *)
Theorem interrupt_sample_follows_published_vibration (r now sequence : Z)
    (queue : list SensorISRData_t) (g : SystemState_t) :
  let out := vSimulatedSensorISR r now sequence queue g in
  let d := mkSensorISRData (vibration (sensors g) + inject_Z (r mod 10 - 5) * 0.1)%Q
             now sequence in
  (vibration (sensors g) - 0.5 <= isr_vibration d <= vibration (sensors g) + 0.4)%Q
  /\ fst (fst out) = u32 (sequence + 1)
  /\ out = (u32 (sequence + 1),
            (if (length queue <? ISR_QUEUE_LENGTH)%nat then queue ++ [d] else queue),
            (if (length queue <? ISR_QUEUE_LENGTH)%nat then count_interrupt g else g)).
Proof.
  cbv zeta. split; [|split].
  - cbn [isr_vibration].
    pose proof (Z.mod_pos_bound r 10 ltac:(lia)) as Hm.
    set (z := r mod 10 - 5).
    assert (H0 : (inject_Z (-5) <= inject_Z z)%Q) by (rewrite <- Zle_Qle; lia).
    assert (H1 : (inject_Z z <= inject_Z 4)%Q) by (rewrite <- Zle_Qle; lia).
    change (inject_Z (-5)) with (-5)%Q in H0.
    change (inject_Z 4) with 4%Q in H1.
    clearbody z. split; lra.
  - unfold vSimulatedSensorISR, xQueueSend.
    destruct (_ <? _)%nat; reflexivity.
  - unfold vSimulatedSensorISR, xQueueSend.
    destruct (_ <? _)%nat; reflexivity.
Qed.

End Interrupt.
